(** * CLT-Land-Map: parcel ingestion, storage and search

    A shallow embedding of [data_import.py] (class [ArcGISDataImporter]) and
    [database.py] (class [DatabaseManager]), followed by the properties of
    the parcel search-and-storage subsystem.

    Layout:
    - [Py]          the Python values the code handles (decoded JSON),
                    truthiness, [dict.get], subscripting, [str] methods,
                    exceptions;
    - [PyNum]       the arithmetic of Python numbers, kept abstract (floats);
    - [Normalizer]  [process_parcel_data] and its helpers;
    - [Sql]         the tables of [create_tables] and the meaning of the
                    three statements the code sends to the server;
    - [Database]    [execute_query], [insert_parcel_data], [search_parcels];
    - [Importer]    [fetch_arcgis_data] and [import_all_data];
    - [Sample]      a concrete platform and sample data to run the code on;
    - [Spec]        the notions the properties are stated with;
    - the properties. *)

From Stdlib Require Import List String Ascii ZArith QArith Bool Lia.
From Stdlib Require Import Permutation Sorted.
Import ListNotations.
Local Open Scope string_scope.
Local Open Scope list_scope.
Set Warnings "-register-all".

(* ================================================================== *)
(** ** Python values *)

Module Py.

(** What [response.json()] and [request.get_json()] hand to the code.  A
    number is kept as the rational its literal denotes; a dict is the list
    of its items in insertion order, keys distinct. *)
Inductive json : Type :=
| JNull
| JBool (b : bool)
| JNum (q : Q)
| JStr (s : string)
| JArr (items : list json)
| JObj (fields : list (string * json)).

Definition dict := list (string * json).

(** The exceptions the modelled code can meet; all derive from [Exception]. *)
Inductive exn := AttributeError | TypeError | KeyError | IndexError
               | ValueError | OverflowError | InterfaceError.

Inductive result (A : Type) : Type :=
| Ok (a : A)
| Raise (e : exn).
Arguments Ok {A} a.
Arguments Raise {A} e.

Definition bind {A B} (m : result A) (k : A -> result B) : result B :=
  match m with
  | Ok a => k a
  | Raise e => Raise e
  end.

(** [bool(x)]: None, False, 0, the empty string, list and dict are falsy. *)
Definition truthy (x : json) : bool :=
  match x with
  | JNull => false
  | JBool b => b
  | JNum q => negb (Qeq_bool q 0)
  | JStr s => negb (String.eqb s "")
  | JArr l => match l with [] => false | _ => true end
  | JObj d => match d with [] => false | _ => true end
  end.

Fixpoint dict_find (k : string) (d : dict) : option json :=
  match d with
  | [] => None
  | (k', v) :: d' => if String.eqb k k' then Some v else dict_find k d'
  end.

(** [d.get(k, default)] on a dict. *)
Definition dict_get (d : dict) (k : string) (default : json) : json :=
  match dict_find k d with
  | Some v => v
  | None => default
  end.

(** [d[k] = v] on a dict. *)
Fixpoint dict_set (k : string) (v : json) (d : dict) : dict :=
  match d with
  | [] => [(k, v)]
  | (k', v') :: d' =>
      if String.eqb k k' then (k, v) :: d' else (k', v') :: dict_set k v d'
  end.

(** [x.get(k, default)] on any value: only a dict has [get]. *)
Definition py_get (x : json) (k : string) (default : json) : result json :=
  match x with
  | JObj d => Ok (dict_get d k default)
  | _ => Raise AttributeError
  end.

(** [a or b]: [b] is evaluated only when [a] is falsy. *)
Definition py_or (a : json) (b : result json) : result json :=
  if truthy a then Ok a else b.

(** [x == s] for a string literal [s]. *)
Definition json_eq_str (x : json) (s : string) : bool :=
  match x with
  | JStr t => String.eqb t s
  | _ => false
  end.

(** [x[k]] with a string key. *)
Definition py_item (x : json) (k : string) : result json :=
  match x with
  | JObj d =>
      match dict_find k d with
      | Some v => Ok v
      | None => Raise KeyError
      end
  | _ => Raise TypeError
  end.

(** [x[i]] with a non-negative integer index. *)
Definition py_index (x : json) (i : nat) : result json :=
  match x with
  | JArr l =>
      match nth_error l i with
      | Some v => Ok v
      | None => Raise IndexError
      end
  | JStr s =>
      match String.get i s with
      | Some c => Ok (JStr (String c ""))
      | None => Raise IndexError
      end
  | JObj _ => Raise KeyError
  | _ => Raise TypeError
  end.

(** [len(x)]. *)
Definition py_len (x : json) : result nat :=
  match x with
  | JArr l => Ok (List.length l)
  | JStr s => Ok (String.length s)
  | JObj d => Ok (List.length d)
  | _ => Raise TypeError
  end.

Fixpoint chars (s : string) : list json :=
  match s with
  | EmptyString => []
  | String c s' => JStr (String c "") :: chars s'
  end.

(** [for v in x]: the values a loop over [x] visits. *)
Definition py_iter (x : json) : result (list json) :=
  match x with
  | JArr l => Ok l
  | JStr s => Ok (chars s)
  | JObj d => Ok (map (fun kv => JStr (fst kv)) d)
  | _ => Raise TypeError
  end.

(** *** Strings (ASCII text) *)

Definition is_lower (c : ascii) : bool :=
  let n := nat_of_ascii c in (97 <=? n)%nat && (n <=? 122)%nat.

Definition upper_char (c : ascii) : ascii :=
  if is_lower c then ascii_of_nat (nat_of_ascii c - 32) else c.

(** [s.upper()]. *)
Fixpoint upper (s : string) : string :=
  match s with
  | EmptyString => EmptyString
  | String c s' => String (upper_char c) (upper s')
  end.

(** The characters [str.strip()] removes: 9-13, 28-31 and the space. *)
Definition is_space (c : ascii) : bool :=
  let n := nat_of_ascii c in
  ((9 <=? n)%nat && (n <=? 13)%nat) || ((28 <=? n)%nat && (n <=? 32)%nat).

Fixpoint lstrip (s : string) : string :=
  match s with
  | EmptyString => EmptyString
  | String c s' => if is_space c then lstrip s' else s
  end.

Fixpoint rstrip (s : string) : string :=
  match s with
  | EmptyString => EmptyString
  | String c s' =>
      match rstrip s' with
      | EmptyString => if is_space c then EmptyString else String c EmptyString
      | t => String c t
      end
  end.

(** [s.strip()]. *)
Definition strip (s : string) : string := rstrip (lstrip s).

Fixpoint startswith (p s : string) : bool :=
  match p, s with
  | EmptyString, _ => true
  | String a p', String b s' => Ascii.eqb a b && startswith p' s'
  | String _ _, EmptyString => false
  end.

(** [p in s] on two strings: [p] occurs in [s]. *)
Fixpoint contains (p s : string) : bool :=
  startswith p s ||
  match s with
  | EmptyString => false
  | String _ s' => contains p s'
  end.

(** [x.upper()] on any value. *)
Definition py_upper (x : json) : result json :=
  match x with
  | JStr s => Ok (JStr (upper s))
  | _ => Raise AttributeError
  end.

(** [x.strip()] on any value. *)
Definition py_strip (x : json) : result string :=
  match x with
  | JStr s => Ok (strip s)
  | _ => Raise AttributeError
  end.

(** [code in x] for a string [code]: substring of a string, element of a
    list, key of a dict. *)
Definition py_in (code : string) (x : json) : result bool :=
  match x with
  | JStr s => Ok (contains code s)
  | JArr l => Ok (existsb (fun v => json_eq_str v code) l)
  | JObj d => Ok (match dict_find code d with Some _ => true | None => false end)
  | _ => Raise TypeError
  end.

(** [any(code in x for code in codes)]: stops at the first hit. *)
Fixpoint py_any_in (codes : list string) (x : json) : result bool :=
  match codes with
  | [] => Ok false
  | c :: cs => bind (py_in c x) (fun b => if b then Ok true else py_any_in cs x)
  end.

End Py.

Export Py.

Declare Scope py_scope.
Notation "x <- m ;; k" := (bind m (fun x => k))
  (at level 61, m at next level, right associativity) : py_scope.
Local Open Scope py_scope.


(* ================================================================== *)
(** ** Python arithmetic *)

(** The numbers of [_calculate_road_frontage] are Python ints and floats.
    Their arithmetic is kept abstract: an operation either yields a number
    or raises (an [OverflowError] of [x**2], of [int(inf)], ...).
    [float_of_num] is [float(x)] on an int or float, given by the rational
    the float denotes, and raises [OverflowError] on an int out of range;
    [float_of_str] is [float(s)] on a string, [None] for a [ValueError]. *)
Class PyNum : Type := {
  num : Type;
  num_of_lit : Q -> num;
  num_sub : num -> num -> result num;
  num_add : num -> num -> result num;
  num_mul : num -> num -> result num;
  num_sq : num -> result num;
  num_sqrt : num -> result num;
  num_int : num -> result Z;
  float_of_num : Q -> result Q;
  float_of_str : string -> option Q
}.

(** A number out of a decoded value: ints, floats and bools are numbers. *)
Definition py_num `{PyNum} (x : json) : result num :=
  match x with
  | JNum q => Ok (num_of_lit q)
  | JBool b => Ok (num_of_lit (if b then 1 else 0))
  | _ => Raise TypeError
  end.

(** [a - b] on two decoded values. *)
Definition py_sub `{PyNum} (a b : json) : result num :=
  x <- py_num a ;; y <- py_num b ;; num_sub x y.

(** [for i in range(n): s = body(s, i)], stopping at the first exception. *)
Definition for_range {S : Type} (n : nat) (body : S -> nat -> result S)
    (s0 : S) : result S :=
  fold_left (fun acc i => s <- acc ;; body s i) (seq 0 n) (Ok s0).

(* ================================================================== *)
(** ** The feature normaliser of [ArcGISDataImporter] *)

Module Normalizer.
Section WithNum.
Context `{PyNum}.

(** [_combine_owner_names] *)
Definition _combine_owner_names (properties : json) : result string :=
  f <- py_get properties "Owner_FirstName" (JStr "") ;;
  first_name <- py_strip f ;;
  l <- py_get properties "Owner_LastName" (JStr "") ;;
  last_name <- py_strip l ;;
  if negb (String.eqb first_name "") && negb (String.eqb last_name "")
  then Ok (first_name ++ " " ++ last_name)%string
  else if negb (String.eqb first_name "") then Ok first_name
  else if negb (String.eqb last_name "") then Ok last_name
  else Ok "".

(** [float(x)]: a [ValueError] on a string that is no number, a
    [TypeError] on a list, a dict or None. *)
Definition py_float (x : json) : result Q :=
  match x with
  | JNum q => float_of_num q
  | JBool b => Ok (if b then 1 else 0)
  | JStr s =>
      match float_of_str s with
      | Some q => Ok q
      | None => Raise ValueError
      end
  | _ => Raise TypeError
  end.

(** [_parse_acres]: [except (ValueError, TypeError)] returns [None]; any
    other exception leaves the function. *)
Definition _parse_acres (acres_value : json) : result (option Q) :=
  match acres_value with
  | JNull => Ok None
  | v =>
      match py_float v with
      | Ok q => Ok (Some q)
      | Raise ValueError => Ok None
      | Raise TypeError => Ok None
      | Raise e => Raise e
      end
  end.

(** [_determine_land_use]: in
    [properties.get('ZoneDes') or properties.get('zoning', '').upper()]
    the call of [upper] belongs to the right operand of [or]. *)
Definition _determine_land_use (properties : json) : result string :=
  zd <- py_get properties "ZoneDes" JNull ;;
  zoning <- py_or zd (z <- py_get properties "zoning" (JStr "") ;; py_upper z) ;;
  r <- py_any_in ["R-"; "RES"] zoning ;;
  if r then Ok "Residential" else
  c <- py_any_in ["C-"; "COM"] zoning ;;
  if c then Ok "Commercial" else
  i <- py_any_in ["I-"; "IND"] zoning ;;
  if i then Ok "Industrial" else
  a <- py_any_in ["AG"; "AGR"] zoning ;;
  if a then Ok "Agricultural" else
  Ok "Mixed Use".

(** One turn of the loop of [_calculate_road_frontage]. *)
Definition frontage_step (coords : json) (perimeter : num) (i : nat)
    : result num :=
  b <- py_index coords (i + 1) ;; bx <- py_index b 0 ;;
  a <- py_index coords i ;; ax <- py_index a 0 ;;
  dx <- py_sub bx ax ;;
  b' <- py_index coords (i + 1) ;; by_ <- py_index b' 1 ;;
  a' <- py_index coords i ;; ay <- py_index a' 1 ;;
  dy <- py_sub by_ ay ;;
  dx2 <- num_sq dx ;; dy2 <- num_sq dy ;;
  s <- num_add dx2 dy2 ;;
  d <- num_sqrt s ;;
  num_add perimeter d.

(** The [try] block of [_calculate_road_frontage]; [Ok None] is the fall
    through to the final [return None]. *)
Definition road_frontage_try (geometry : json) : result (option Z) :=
  t <- py_item geometry "type" ;;
  if json_eq_str t "Polygon" then
    cs <- py_item geometry "coordinates" ;;
    coords <- py_index cs 0 ;;
    n <- py_len coords ;;
    perimeter <- for_range (n - 1) (frontage_step coords) (num_of_lit 0) ;;
    scaled <- num_mul perimeter (num_of_lit 111000) ;;
    feet <- num_int scaled ;;
    Ok (Some feet)
  else Ok None.

(** [_calculate_road_frontage]: [except Exception] falls through to
    [return None]. *)
Definition _calculate_road_frontage (geometry : json) : option Z :=
  match road_frontage_try geometry with
  | Ok r => r
  | Raise _ => None
  end.

(** [_determine_utilities] *)
Definition _determine_utilities (properties : json) : json :=
  JArr [JStr "Water"; JStr "Sewer"; JStr "Electric"].

Definition json_of_num (o : option Q) : json :=
  match o with Some q => JNum q | None => JNull end.

Definition json_of_int (o : option Z) : json :=
  match o with Some z => JNum (inject_Z z) | None => JNull end.

(** What one turn of the loop of [process_parcel_data] does with its
    feature, inside the [try]: [Ok (Some p)] appends [p], [Ok None] is the
    [continue] on a falsy geometry or a record that fails the validity
    test. *)
Definition process_feature (feature : json) : result (option dict) :=
  properties <- py_get feature "properties" (JObj []) ;;
  geometry <- py_get feature "geometry" JNull ;;
  if negb (truthy geometry) then Ok None else
  pid0 <- py_get properties "PID" JNull ;;
  parcel_id <- py_or pid0 (py_get properties "parcel_id" JNull) ;;
  addr0 <- py_get properties "Mailing_Address" JNull ;;
  address <- py_or addr0 (py_get properties "address" JNull) ;;
  owner_name <- _combine_owner_names properties ;;
  owner_address <- py_get properties "Mailing_Address" JNull ;;
  ac0 <- py_get properties "Total_Acreage" JNull ;;
  acres_value <- py_or ac0 (py_get properties "acres" JNull) ;;
  acres <- _parse_acres acres_value ;;
  zc0 <- py_get properties "ZoneDes" JNull ;;
  zoning_code <- py_or zc0 (py_get properties "zoning" JNull) ;;
  land_use <- _determine_land_use properties ;;
  let parcel_data : dict :=
    [ ("parcel_id", parcel_id);
      ("address", address);
      ("owner_name", JStr owner_name);
      ("owner_address", owner_address);
      ("acres", json_of_num acres);
      ("zoning_code", zoning_code);
      ("land_use", JStr land_use);
      ("road_frontage", json_of_int (_calculate_road_frontage geometry));
      ("slope_percent", JNull);
      ("utilities", _determine_utilities properties);
      ("geometry", geometry) ] in
  if truthy (dict_get parcel_data "parcel_id" JNull)
     && truthy (dict_get parcel_data "geometry" JNull)
  then Ok (Some parcel_data)
  else Ok None.

(** The loop of [process_parcel_data]: an exception in a turn is caught and
    the loop continues. *)
Fixpoint process_features (features : list json) : list dict :=
  match features with
  | [] => []
  | feature :: rest =>
      match process_feature feature with
      | Ok (Some parcel_data) => parcel_data :: process_features rest
      | Ok None => process_features rest
      | Raise _ => process_features rest
      end
  end.

(** ['features' in x] for the values [in] accepts. *)
Definition has_features (x : json) : result bool := py_in "features" x.

(** [process_parcel_data]; what is outside the loop's [try] can raise. *)
Definition process_parcel_data (arcgis_data : json) : result (list dict) :=
  if negb (truthy arcgis_data) then Ok [] else
  present <- has_features arcgis_data ;;
  if negb present then Ok [] else
  fs <- py_item arcgis_data "features" ;;
  features <- py_iter fs ;;
  Ok (process_features features).

End WithNum.
End Normalizer.

(* ================================================================== *)
(** ** The store: tables and statements *)

Module Sql.

(** A row of [parcels] as [create_tables] declares it.  The [SERIAL id] is
    left out: no statement of the code reads or writes it. *)
Record parcel_row : Type := {
  parcel_id : string;                       (* VARCHAR(50) UNIQUE NOT NULL *)
  address : option string;                  (* TEXT *)
  owner_name : option string;               (* VARCHAR(255) *)
  owner_address : option string;            (* TEXT *)
  acres : option Q;                         (* DECIMAL(10,4) *)
  zoning_code : option string;              (* VARCHAR(20) *)
  land_use : option string;                 (* VARCHAR(100) *)
  road_frontage : option Z;                 (* INTEGER *)
  slope_percent : option Q;                 (* DECIMAL(5,2) *)
  utilities : option (list (option string)); (* TEXT[] *)
  geometry : option json;                   (* GEOMETRY(POLYGON, 4326) *)
  created_at : Z;                           (* TIMESTAMP *)
  updated_at : Z                            (* TIMESTAMP *)
}.

(** A row of [zoning_regulations]; the columns the code never writes stay
    NULL and are left out. *)
Record zoning_row : Type := {
  zone_code : string;                       (* VARCHAR(20) UNIQUE NOT NULL *)
  zone_description : option string          (* TEXT *)
}.

Record tables : Type := {
  parcels : list parcel_row;
  zoning_regulations : list zoning_row
}.

Definition empty_tables : tables :=
  {| parcels := []; zoning_regulations := [] |}.

(** What [ST_GeomFromGeoJSON(%s)] does with a text is PostGIS's business:
    [st_geom_ok s] says the text [s] is read as a polygon the geometry
    column takes. *)
Class PostGIS : Type := { st_geom_ok : string -> bool }.

(** *** Values bound to columns *)

(** The integer [q * 10^scale], rounded half away from zero. *)
Definition round_scaled (scale : nat) (q : Q) : Z :=
  let n := (Qnum q * 10 ^ Z.of_nat scale)%Z in
  let d := Zpos (Qden q) in
  (Z.sgn n * ((2 * Z.abs n + d) / (2 * d)))%Z.

(** A number stored in a [DECIMAL(precision, scale)] column: rounded to the
    scale, an error when it needs more digits than the precision. *)
Definition decimal (precision scale : nat) (q : Q) : option Q :=
  let r := round_scaled scale q in
  if (Z.abs r <? 10 ^ Z.of_nat precision)%Z
  then Some (r # Z.to_pos (10 ^ Z.of_nat scale))
  else None.

(** A number stored in an [INTEGER] column. *)
Definition int4 (q : Q) : option Z :=
  let r := round_scaled 0 q in
  if ((- 2147483648 <=? r) && (r <=? 2147483647))%Z then Some r else None.

Fixpoint all_spaces (s : string) : bool :=
  match s with
  | EmptyString => true
  | String c s' => Ascii.eqb c " "%char && all_spaces s'
  end.

(** A string stored in a [VARCHAR(n)] column: an error when longer, unless
    the excess is spaces, which are cut. *)
Definition varchar (n : nat) (s : string) : option string :=
  if (String.length s <=? n)%nat then Some s
  else if all_spaces (substring n (String.length s - n) s)
       then Some (substring 0 n s)
       else None.

(** The outer [option] of the binders below is the statement's fate: [None]
    is an error.  Values other than the ones listed (a number for a text
    column, a numeric string for a number column, ...) are treated as
    errors, although the server coerces some of them; statements about
    stored rows are made for calls that succeed. *)
Definition bind_text (limit : option nat) (v : json) : option (option string) :=
  match v with
  | JNull => Some None
  | JStr s =>
      match limit with
      | None => Some (Some s)
      | Some n => option_map Some (varchar n s)
      end
  | _ => None
  end.

Definition bind_decimal (precision scale : nat) (v : json) : option (option Q) :=
  match v with
  | JNull => Some None
  | JNum q => option_map Some (decimal precision scale q)
  | _ => None
  end.

Definition bind_int4 (v : json) : option (option Z) :=
  match v with
  | JNull => Some None
  | JNum q => option_map Some (int4 q)
  | _ => None
  end.

Fixpoint bind_elements (l : list json) : option (list (option string)) :=
  match l with
  | [] => Some []
  | v :: l' =>
      match bind_text None v, bind_elements l' with
      | Some e, Some es => Some (e :: es)
      | _, _ => None
      end
  end.

Definition bind_text_array (v : json) : option (option (list (option string))) :=
  match v with
  | JNull => Some None
  | JArr l => option_map Some (bind_elements l)
  | _ => None
  end.

(** The last parameter, inside [ST_GeomFromGeoJSON(%s)].  [None] is bound
    as NULL and a [str] as a text, which the function reads.  A [dict] is
    no value the driver can bind ([cursor.execute] raises: psycopg2 cannot
    adapt it), and the function takes no number, boolean or array (the
    empty list goes out as the text of an empty array, which is no
    geometry). *)
Definition bind_geometry `{PostGIS} (v : json) : option (option json) :=
  match v with
  | JNull => Some None
  | JStr s => if st_geom_ok s then Some (Some v) else None
  | _ => None
  end.

Definition not_null {A} (v : option (option A)) : option A :=
  match v with
  | Some (Some a) => Some a
  | _ => None
  end.

Definition obind {A B} (m : option A) (k : A -> option B) : option B :=
  match m with
  | Some a => k a
  | None => None
  end.

(** The row of the [VALUES] list of [insert_sql] (the row [EXCLUDED] names),
    stamped with the statement's [CURRENT_TIMESTAMP]. *)
Definition excluded_row `{PostGIS} (now : Z) (params : list json)
    : option parcel_row :=
  match params with
  | [p1; p2; p3; p4; p5; p6; p7; p8; p9; p10; p11] =>
      obind (not_null (bind_text (Some 50%nat) p1)) (fun c1 =>
      obind (bind_text None p2) (fun c2 =>
      obind (bind_text (Some 255%nat) p3) (fun c3 =>
      obind (bind_text None p4) (fun c4 =>
      obind (bind_decimal 10 4 p5) (fun c5 =>
      obind (bind_text (Some 20%nat) p6) (fun c6 =>
      obind (bind_text (Some 100%nat) p7) (fun c7 =>
      obind (bind_int4 p8) (fun c8 =>
      obind (bind_decimal 5 2 p9) (fun c9 =>
      obind (bind_text_array p10) (fun c10 =>
      obind (bind_geometry p11) (fun c11 =>
      Some {| parcel_id := c1; address := c2; owner_name := c3;
              owner_address := c4; acres := c5; zoning_code := c6;
              land_use := c7; road_frontage := c8; slope_percent := c9;
              utilities := c10; geometry := c11;
              created_at := now; updated_at := now |})))))))))))
  | _ => None
  end.

(** [DO UPDATE SET ...] of [insert_sql] on the row in conflict. *)
Definition do_update (old excluded : parcel_row) (now : Z) : parcel_row :=
  {| parcel_id := parcel_id old;
     address := address excluded;
     owner_name := owner_name excluded;
     owner_address := owner_address excluded;
     acres := acres excluded;
     zoning_code := zoning_code excluded;
     land_use := land_use excluded;
     road_frontage := road_frontage excluded;
     slope_percent := slope_percent excluded;
     utilities := utilities excluded;
     geometry := geometry excluded;
     created_at := created_at old;
     updated_at := now |}.

Definition same_parcel (pid : string) (r : parcel_row) : bool :=
  String.eqb (parcel_id r) pid.

(** [INSERT ... ON CONFLICT (parcel_id) DO UPDATE ...]. *)
Definition upsert_parcel (now : Z) (excluded : parcel_row)
    (tbl : list parcel_row) : list parcel_row :=
  if existsb (same_parcel (parcel_id excluded)) tbl
  then map (fun r => if same_parcel (parcel_id excluded) r
                     then do_update r excluded now else r) tbl
  else tbl ++ [excluded].

Definition excluded_zoning (params : list json) : option zoning_row :=
  match params with
  | [p1; p2] =>
      obind (not_null (bind_text (Some 20%nat) p1)) (fun c1 =>
      obind (bind_text None p2) (fun c2 =>
      Some {| zone_code := c1; zone_description := c2 |}))
  | _ => None
  end.

(** [INSERT ... ON CONFLICT (zone_code) DO UPDATE SET zone_description]. *)
Definition upsert_zoning (excluded : zoning_row) (tbl : list zoning_row)
    : list zoning_row :=
  if existsb (fun r => String.eqb (zone_code r) (zone_code excluded)) tbl
  then map (fun r => if String.eqb (zone_code r) (zone_code excluded)
                     then {| zone_code := zone_code r;
                             zone_description := zone_description excluded |}
                     else r) tbl
  else tbl ++ [excluded].

(** *** The [WHERE] clause *)

(** The clause is text.  It is cut into words at spaces and read with SQL's
    precedence: [BETWEEN ... AND ...] and comparisons bind tighter than
    [AND], which binds tighter than [OR]. *)
Fixpoint split_words (s : string) : list string :=
  match s with
  | EmptyString => [""]
  | String c s' =>
      if Ascii.eqb c " "%char then "" :: split_words s'
      else match split_words s' with
           | w :: ws => String c w :: ws
           | [] => [String c ""]
           end
  end.

Definition tokens (s : string) : list string :=
  filter (fun w => negb (String.eqb w "")) (split_words s).

Inductive cmp := Ge | Le | Eq.

(** A condition with its placeholders filled from the parameter list, left
    to right. *)
Inductive pred : Type :=
| PTrue                                            (* 1=1 *)
| PCmp (column : string) (op : cmp) (v : json)     (* column op %s *)
| PEmpty (column : string)                         (* column = '' *)
| PIsNull (column : string)                        (* column IS NULL *)
| PBetween (column : string) (lo hi : json)        (* column BETWEEN %s AND %s *)
| PAnd (a b : pred)
| POr (a b : pred).

Definition parsed : Type := pred * list string * list json.

Definition parse_atom (toks : list string) (ps : list json) : option parsed :=
  match toks with
  | t1 :: rest1 =>
      if String.eqb t1 "1=1" then Some (PTrue, rest1, ps) else
      match rest1 with
      | t2 :: t3 :: rest3 =>
          if String.eqb t2 "IS" && String.eqb t3 "NULL"
          then Some (PIsNull t1, rest3, ps)
          else if String.eqb t2 "=" && String.eqb t3 "''"
          then Some (PEmpty t1, rest3, ps)
          else if String.eqb t2 "BETWEEN" then
            match rest3, ps with
            | t4 :: t5 :: rest5, lo :: hi :: ps' =>
                if String.eqb t3 "%s" && String.eqb t4 "AND" && String.eqb t5 "%s"
                then Some (PBetween t1 lo hi, rest5, ps')
                else None
            | _, _ => None
            end
          else if String.eqb t3 "%s" then
            match ps with
            | v :: ps' =>
                if String.eqb t2 ">=" then Some (PCmp t1 Ge v, rest3, ps')
                else if String.eqb t2 "<=" then Some (PCmp t1 Le v, rest3, ps')
                else if String.eqb t2 "=" then Some (PCmp t1 Eq v, rest3, ps')
                else None
            | [] => None
            end
          else None
      | _ => None
      end
  | [] => None
  end.

Fixpoint parse_and (fuel : nat) (toks : list string) (ps : list json)
    : option parsed :=
  match fuel with
  | O => None
  | S fuel' =>
      match parse_atom toks ps with
      | Some (a, t :: rest, ps1) =>
          if String.eqb t "AND" then
            match parse_and fuel' rest ps1 with
            | Some (b, rest', ps2) => Some (PAnd a b, rest', ps2)
            | None => None
            end
          else Some (a, t :: rest, ps1)
      | r => r
      end
  end.

Fixpoint parse_or (fuel : nat) (toks : list string) (ps : list json)
    : option parsed :=
  match fuel with
  | O => None
  | S fuel' =>
      match parse_and (S fuel') toks ps with
      | Some (a, t :: rest, ps1) =>
          if String.eqb t "OR" then
            match parse_or fuel' rest ps1 with
            | Some (b, rest', ps2) => Some (POr a b, rest', ps2)
            | None => None
            end
          else Some (a, t :: rest, ps1)
      | r => r
      end
  end.

(** The whole clause: every word read and every parameter used, or the
    statement is in error. *)
Definition parse_where (where_clause : string) (params : list json)
    : option pred :=
  let toks := tokens where_clause in
  match parse_or (S (List.length toks)) toks params with
  | Some (p, [], []) => Some p
  | _ => None
  end.

(** *** Three-valued truth *)

Inductive tri := TT | FF | UU.

Definition tri_and (a b : tri) : tri :=
  match a, b with
  | FF, _ | _, FF => FF
  | TT, TT => TT
  | _, _ => UU
  end.

Definition tri_or (a b : tri) : tri :=
  match a, b with
  | TT, _ | _, TT => TT
  | FF, FF => FF
  | _, _ => UU
  end.

Definition tri_of_bool (b : bool) : tri := if b then TT else FF.

Definition is_TT (t : tri) : bool :=
  match t with TT => true | _ => false end.

Inductive kind := KNum | KText.

(** The columns a clause may name, with the kind of their type. *)
Definition column_kind (name : string) : option kind :=
  if String.eqb name "acres" then Some KNum
  else if String.eqb name "road_frontage" then Some KNum
  else if String.eqb name "slope_percent" then Some KNum
  else if String.eqb name "parcel_id" then Some KText
  else if String.eqb name "address" then Some KText
  else if String.eqb name "owner_name" then Some KText
  else if String.eqb name "owner_address" then Some KText
  else if String.eqb name "zoning_code" then Some KText
  else if String.eqb name "land_use" then Some KText
  else None.

Definition column_num (name : string) (r : parcel_row) : option Q :=
  if String.eqb name "acres" then acres r
  else if String.eqb name "road_frontage" then option_map inject_Z (road_frontage r)
  else if String.eqb name "slope_percent" then slope_percent r
  else None.

Definition column_text (name : string) (r : parcel_row) : option string :=
  if String.eqb name "parcel_id" then Some (parcel_id r)
  else if String.eqb name "address" then address r
  else if String.eqb name "owner_name" then owner_name r
  else if String.eqb name "owner_address" then owner_address r
  else if String.eqb name "zoning_code" then zoning_code r
  else if String.eqb name "land_use" then land_use r
  else None.

(** The comparisons of the model: numbers with numbers, text with text for
    equality; the server settles types before it reads a row.  A parameter
    of another type (a string for [acres >= %s], ...) is an error here,
    although the server reads some strings as numbers. *)
Fixpoint well_typed (p : pred) : bool :=
  match p with
  | PTrue => true
  | PCmp c op v =>
      match column_kind c, v, op with
      | Some KNum, JNum _, _ => true
      | Some KText, JStr _, Eq => true
      | _, _, _ => false
      end
  | PEmpty c => match column_kind c with Some KText => true | _ => false end
  | PIsNull c => match column_kind c with Some _ => true | None => false end
  | PBetween c lo hi =>
      match column_kind c, lo, hi with
      | Some KNum, JNum _, JNum _ => true
      | _, _, _ => false
      end
  | PAnd a b | POr a b => well_typed a && well_typed b
  end.

Definition cmp_num (op : cmp) (x y : Q) : bool :=
  match op with
  | Ge => Qle_bool y x
  | Le => Qle_bool x y
  | Eq => Qeq_bool x y
  end.

Definition holds_num (op : cmp) (x : option Q) (v : json) : tri :=
  match x, v with
  | Some a, JNum b => tri_of_bool (cmp_num op a b)
  | _, _ => UU
  end.

Definition holds_text (x : option string) (s : string) : tri :=
  match x with
  | Some a => tri_of_bool (String.eqb a s)
  | None => UU
  end.

(** The truth of a well-typed condition on a row. *)
Fixpoint holds (p : pred) (r : parcel_row) : tri :=
  match p with
  | PTrue => TT
  | PCmp c op v =>
      match column_kind c, v with
      | Some KText, JStr s => holds_text (column_text c r) s
      | _, _ => holds_num op (column_num c r) v
      end
  | PEmpty c => holds_text (column_text c r) ""
  | PIsNull c =>
      match column_kind c with
      | Some KNum => tri_of_bool (match column_num c r with None => true | _ => false end)
      | _ => tri_of_bool (match column_text c r with None => true | _ => false end)
      end
  | PBetween c lo hi =>
      tri_and (holds_num Ge (column_num c r) lo) (holds_num Le (column_num c r) hi)
  | PAnd a b => tri_and (holds a r) (holds b r)
  | POr a b => tri_or (holds a r) (holds b r)
  end.

(** *** [ORDER BY acres DESC LIMIT 100] *)

(** [a] sorts no later than [b] under [DESC]: NULL comes first. *)
Definition acres_ge (a b : option Q) : bool :=
  match a, b with
  | None, _ => true
  | Some _, None => false
  | Some x, Some y => Qle_bool y x
  end.

(** Rows of equal acreage may come in any order; this sort keeps them in
    table order. *)
Fixpoint insert_desc (r : parcel_row) (l : list parcel_row) : list parcel_row :=
  match l with
  | [] => [r]
  | x :: l' =>
      if acres_ge (acres r) (acres x) then r :: l else x :: insert_desc r l'
  end.

Definition order_by_acres_desc (l : list parcel_row) : list parcel_row :=
  fold_right insert_desc [] l.

Definition row_limit : nat := 100.

(** A row as [search_sql] selects it; [s_geometry] stands for
    [ST_AsGeoJSON(geometry)]. *)
Record summary : Type := {
  s_parcel_id : string;
  s_address : option string;
  s_owner_name : option string;
  s_acres : option Q;
  s_zoning_code : option string;
  s_land_use : option string;
  s_road_frontage : option Z;
  s_slope_percent : option Q;
  s_utilities : option (list (option string));
  s_geometry : option json
}.

Definition select_list (r : parcel_row) : summary :=
  {| s_parcel_id := parcel_id r; s_address := address r;
     s_owner_name := owner_name r; s_acres := acres r;
     s_zoning_code := zoning_code r; s_land_use := land_use r;
     s_road_frontage := road_frontage r; s_slope_percent := slope_percent r;
     s_utilities := utilities r; s_geometry := geometry r |}.

(** [SELECT ... FROM parcels WHERE ... ORDER BY acres DESC LIMIT 100]. *)
Definition select_parcels (where_clause : string) (params : list json)
    (tbl : list parcel_row) : option (list summary) :=
  match parse_where where_clause params with
  | Some p =>
      if well_typed p
      then Some (map select_list
                   (firstn row_limit
                      (order_by_acres_desc
                         (filter (fun r => is_TT (holds p r)) tbl))))
      else None
  | None => None
  end.

(** *** Statements *)

Inductive statement : Type :=
| InsertParcel (params : list json)       (* insert_sql of insert_parcel_data *)
| InsertZoning (params : list json)       (* insert_sql of _import_zoning_data *)
| SelectParcels (where_clause : string) (params : list json). (* search_sql *)

Inductive answer : Type :=
| Rows (rows : list summary)              (* cursor.fetchall() *)
| RowCount (n : nat).                     (* cursor.rowcount *)

(** A statement run at time [now]; [None] is an error, which leaves the
    tables as they were. *)
Definition run `{PostGIS} (now : Z) (q : statement) (t : tables)
    : option (tables * answer) :=
  match q with
  | InsertParcel params =>
      match excluded_row now params with
      | Some e =>
          Some ({| parcels := upsert_parcel now e (parcels t);
                   zoning_regulations := zoning_regulations t |}, RowCount 1)
      | None => None
      end
  | InsertZoning params =>
      match excluded_zoning params with
      | Some e =>
          Some ({| parcels := parcels t;
                   zoning_regulations := upsert_zoning e (zoning_regulations t) |},
                RowCount 1)
      | None => None
      end
  | SelectParcels where_clause params =>
      match select_parcels where_clause params (parcels t) with
      | Some rows => Some (t, Rows rows)
      | None => None
      end
  end.

End Sql.

Export Sql.

(* ================================================================== *)
(** ** [DatabaseManager] *)

Module Database.

(** What the outside decides at one call of [execute_query]: whether
    [psycopg2.connect] succeeds (asked only when there is no connection),
    whether the server carries the statement out at all, whether
    [self.conn.rollback()] returns when it is called (it raises on a
    connection that is closed or was lost), and what [CURRENT_TIMESTAMP]
    is in the statement. *)
Record call_env : Type := {
  connect_ok : bool;
  server_ok : bool;
  rollback_ok : bool;
  now : Z
}.

(** The manager's connection, the number of [execute_query] calls made so
    far, and the tables behind the connection string. *)
Record state : Type := {
  conn : bool;
  calls : nat;
  store : tables
}.

Definition initial : state :=
  {| conn := false; calls := 0; store := empty_tables |}.

Section WithEnv.
Context `{PostGIS}.
Variable env : nat -> call_env.

(** The [except] block of [execute_query]: [self.conn.rollback()] is
    called outside any [try], so what it raises leaves the method; else
    the method returns [None]. *)
Definition rolled_back (e : call_env) : result (option answer) :=
  if rollback_ok e then Ok None else Raise InterfaceError.

(** [execute_query]: [None] when connecting fails; when the cursor, the
    statement or the commit raises, the [except] block; the rows of a
    SELECT, the row count otherwise.  ([cursor.close()] in the [finally]
    block closes a client-side cursor and sends nothing.) *)
Definition execute_query (query : statement) (st : state)
    : state * result (option answer) :=
  let e := env (calls st) in
  if negb (conn st) && negb (connect_ok e)
  then ({| conn := false; calls := S (calls st); store := store st |}, Ok None)
  else
    if server_ok e then
      match run (now e) query (store st) with
      | Some (t, a) =>
          ({| conn := true; calls := S (calls st); store := t |}, Ok (Some a))
      | None =>
          ({| conn := true; calls := S (calls st); store := store st |},
           rolled_back e)
      end
    else ({| conn := true; calls := S (calls st); store := store st |},
          rolled_back e).

(** The parameter tuple of [insert_parcel_data].  The geometry of a decoded
    feature has no [__geo_interface__], so it is passed as it is. *)
Definition insert_params (parcel_data : dict) : list json :=
  let geometry := dict_get parcel_data "geometry" JNull in
  [ dict_get parcel_data "parcel_id" JNull;
    dict_get parcel_data "address" JNull;
    dict_get parcel_data "owner_name" JNull;
    dict_get parcel_data "owner_address" JNull;
    dict_get parcel_data "acres" JNull;
    dict_get parcel_data "zoning_code" JNull;
    dict_get parcel_data "land_use" JNull;
    dict_get parcel_data "road_frontage" JNull;
    dict_get parcel_data "slope_percent" JNull;
    dict_get parcel_data "utilities" (JArr []);
    geometry ].

(** [insert_parcel_data]: [result is not None], and [False] when
    [execute_query] raises. *)
Definition insert_parcel_data (parcel_data : dict) (st : state)
    : state * bool :=
  let (st', result) := execute_query (InsertParcel (insert_params parcel_data)) st in
  (st', match result with Ok (Some _) => true | _ => false end).

(** One [if criteria.get(key):] block of [search_parcels] that appends a
    condition and the key's value. *)
Definition add_condition (criteria : dict) (key condition : string)
    (acc : list string * list json) : list string * list json :=
  if truthy (dict_get criteria key JNull)
  then (fst acc ++ [condition], snd acc ++ [dict_get criteria key JNull])
  else acc.

(** The [vacant_only] block: a condition without a parameter. *)
Definition add_vacant (criteria : dict) (acc : list string * list json)
    : list string * list json :=
  if truthy (dict_get criteria "vacant_only" JNull)
  then (fst acc ++ ["owner_name IS NULL OR owner_name = ''"], snd acc)
  else acc.

(** The [slope_range] block; [len] of a truthy number or [True] raises. *)
Definition add_slope (criteria : dict) (acc : list string * list json)
    : result (list string * list json) :=
  let slope_range := dict_get criteria "slope_range" JNull in
  if truthy slope_range then
    n <- py_len slope_range ;;
    if (n =? 2)%nat then
      items <- py_iter slope_range ;;
      Ok (fst acc ++ ["slope_percent BETWEEN %s AND %s"], snd acc ++ items)
    else Ok acc
  else Ok acc.

(** [where_conditions] and [params] as [search_parcels] builds them. *)
Definition search_conditions (criteria : dict)
    : result (list string * list json) :=
  add_slope criteria
    (add_condition criteria "road_frontage" "road_frontage >= %s"
      (add_vacant criteria
        (add_condition criteria "zoning_type" "zoning_code = %s"
          (add_condition criteria "max_acres" "acres <= %s"
            (add_condition criteria "min_acres" "acres >= %s" ([], [])))))).

(** [" AND ".join(where_conditions) if where_conditions else "1=1"] *)
Definition where_clause_of (where_conditions : list string) : string :=
  match where_conditions with
  | [] => "1=1"
  | _ => String.concat " AND " where_conditions
  end.

(** [search_parcels]: the answer of [execute_query], or the exception of
    the [slope_range] block or of [execute_query]. *)
Definition search_parcels (criteria : dict) (st : state)
    : result (state * option (list summary)) :=
  cp <- search_conditions criteria ;;
  let (st', r) :=
    execute_query (SelectParcels (where_clause_of (fst cp)) (snd cp)) st in
  a <- r ;;
  Ok (st', match a with
           | Some (Rows rows) => Some rows
           | _ => None
           end).

End WithEnv.
End Database.

Export Database.

(* ================================================================== *)
(** ** [ArcGISDataImporter] *)

Module Importer.

(** How [requests.get(...)], [raise_for_status()] and [response.json()] end. *)
Inductive http_reply : Type :=
| RequestFailed          (* a RequestException: network, timeout, status *)
| NotJson                (* a JSONDecodeError *)
| Body (data : json).    (* the decoded body *)

(** [fetch_arcgis_data]: the log line [len(data.get('features', []))] is
    inside the [try], so a body it fails on is answered with [None]. *)
Definition fetch_arcgis_data (reply : http_reply) : option json :=
  match reply with
  | RequestFailed => None
  | NotJson => None
  | Body data =>
      match (fs <- py_get data "features" (JArr []) ;; py_len fs) with
      | Ok _ => Some data
      | Raise _ => None
      end
  end.

(** The replies of the three services of a run. *)
Record replies : Type := {
  parcel_lookup : http_reply;
  vacant_land : http_reply;
  zoning : http_reply
}.

Section WithEnv.
Context `{PyNum} `{PostGIS}.
Variable env : nat -> call_env.

Import Normalizer.

(** [for parcel in processed_parcels: db_manager.insert_parcel_data(parcel)] *)
Definition store_parcels (processed : list dict) (st : state) : state :=
  fold_left (fun s parcel => fst (insert_parcel_data env parcel s)) processed st.

(** The loop of the vacant-land pass: the owner is blanked, then stored. *)
Definition store_vacant (processed : list dict) (st : state) : state :=
  fold_left
    (fun s parcel =>
       fst (insert_parcel_data env (dict_set "owner_name" (JStr "") parcel) s))
    processed st.

(** One turn of the loop of [_import_zoning_data]; an exception, that of
    [execute_query] too, is caught and the loop continues. *)
Definition import_zoning_feature (st : state) (feature : json) : state :=
  match (properties <- py_get feature "properties" (JObj []) ;;
         zone_code <- py_get properties "ZoneDes" JNull ;;
         zone_desc <- py_get properties "ZoneDesc" JNull ;;
         Ok (zone_code, zone_desc)) with
  | Ok (zone_code, zone_desc) =>
      if truthy zone_code
      then fst (execute_query env (InsertZoning [zone_code; zone_desc]) st)
      else st
  | Raise _ => st
  end.

(** [_import_zoning_data] *)
Definition _import_zoning_data (zoning_data : json) (st : state)
    : state * result unit :=
  if negb (truthy zoning_data) then (st, Ok tt) else
  match has_features zoning_data with
  | Raise e => (st, Raise e)
  | Ok false => (st, Ok tt)
  | Ok true =>
      match (fs <- py_item zoning_data "features" ;; py_iter fs) with
      | Raise e => (st, Raise e)
      | Ok features => (fold_left import_zoning_feature features st, Ok tt)
      end
  end.

(** Step 1 of [import_all_data]. *)
Definition parcel_pass (reply : http_reply) (st : state) : state * result unit :=
  match fetch_arcgis_data reply with
  | Some parcel_data =>
      if truthy parcel_data then
        match process_parcel_data parcel_data with
        | Ok processed_parcels => (store_parcels processed_parcels st, Ok tt)
        | Raise e => (st, Raise e)
        end
      else (st, Ok tt)
  | None => (st, Ok tt)
  end.

(** Step 2 of [import_all_data]. *)
Definition vacant_pass (reply : http_reply) (st : state) : state * result unit :=
  match fetch_arcgis_data reply with
  | Some vacant_data =>
      if truthy vacant_data then
        match process_parcel_data vacant_data with
        | Ok processed_vacant => (store_vacant processed_vacant st, Ok tt)
        | Raise e => (st, Raise e)
        end
      else (st, Ok tt)
  | None => (st, Ok tt)
  end.

(** Step 3 of [import_all_data]. *)
Definition zoning_pass (reply : http_reply) (st : state) : state * result unit :=
  match fetch_arcgis_data reply with
  | Some zoning_data =>
      if truthy zoning_data then _import_zoning_data zoning_data st
      else (st, Ok tt)
  | None => (st, Ok tt)
  end.

(** [import_all_data]: the three steps in turn; an exception that reaches
    the outer [except] ends the run with [False]. *)
Definition import_all_data (web : replies) (st : state) : state * bool :=
  match parcel_pass (parcel_lookup web) st with
  | (st1, Raise _) => (st1, false)
  | (st1, Ok _) =>
      match vacant_pass (vacant_land web) st1 with
      | (st2, Raise _) => (st2, false)
      | (st2, Ok _) =>
          match zoning_pass (zoning web) st2 with
          | (st3, Raise _) => (st3, false)
          | (st3, Ok _) => (st3, true)
          end
      end
  end.

End WithEnv.
End Importer.

Export Importer.

(* ================================================================== *)
(** ** The view of [app.py] that carries logic *)

Module App.

(** What a view returns: the status and the body handed to [jsonify]. *)
Record response : Type := {
  status : nat;
  body : json
}.

Definition jsonify (j : json) : response := {| status := 200; body := j |}.

(** The answer of every [except Exception] of the views. *)
Definition internal_error : response :=
  {| status := 500; body := JObj [("error", JStr "Internal server error")] |}.

(** The view [search_owner] of [/api/owner/search].  [request_json] is
    what [request.get_json()] returns, or the exception it raises. *)
Definition search_owner (request_json : result json) : response :=
  match (data <- request_json ;;
         address <- py_get data "address" JNull ;;
         name <- py_get data "name" JNull ;;
         if negb (truthy address) && negb (truthy name)
         then Ok {| status := 400;
                    body := JObj [("error", JStr "Address or name required")] |}
         else
           address' <- py_or address (Ok (JStr "123 Main St, Charlotte, NC")) ;;
           Ok (jsonify (JObj [ ("name", JStr "John Doe");
                               ("phone", JStr "555-123-4567");
                               ("email", JStr "john.doe@example.com");
                               ("address", address');
                               ("source", JStr "Mock Data") ]))) with
  | Ok r => r
  | Raise _ => internal_error
  end.

End App.

(* ================================================================== *)
(** ** The version check of [setup.py] *)

Module Setup.

(** [a < b] on tuples of integers: the first difference decides, and a
    proper prefix is smaller. *)
Fixpoint tuple_lt (a b : list Z) : bool :=
  match a, b with
  | _, [] => false
  | [], _ :: _ => true
  | x :: a', y :: b' =>
      if (x <? y)%Z then true
      else if (y <? x)%Z then false
      else tuple_lt a' b'
  end.

(** [check_python_version].  [version_info] is [sys.version_info], major
    and minor first; against a pair the comparison never looks past them. *)
Definition check_python_version (version_info : list Z) : bool :=
  if tuple_lt version_info [3; 8]%Z then false else true.

End Setup.

(* ================================================================== *)
(** ** A platform to run the code on *)

Module Sample.

(** Fixed-point arithmetic on rationals: exact but for the square root,
    which is cut at six decimals. *)
Definition sqrt6 (x : Q) : Q :=
  Z.sqrt (Qnum x * 10 ^ 12 / Zpos (Qden x)) # 1000000.

(** [int(x)] rounds towards zero. *)
Definition truncate (x : Q) : Z := Z.quot (Qnum x) (Zpos (Qden x)).

Definition digit (c : ascii) : option Z :=
  let n := nat_of_ascii c in
  if (48 <=? n)%nat && (n <=? 57)%nat then Some (Z.of_nat (n - 48)) else None.

(** The digits [s] starts with: their value after [acc], how many, the rest. *)
Fixpoint read_digits (s : string) (acc : Z) (count : nat) : Z * nat * string :=
  match s with
  | EmptyString => (acc, count, s)
  | String c s' =>
      match digit c with
      | Some d => read_digits s' (10 * acc + d)%Z (S count)
      | None => (acc, count, s)
      end
  end.

Definition unsigned_decimal (s : string) : option Q :=
  let '(whole, n1, rest) := read_digits s 0%Z 0%nat in
  match rest with
  | EmptyString => if (1 <=? n1)%nat then Some (inject_Z whole) else None
  | String c rest' =>
      if Ascii.eqb c "."%char then
        let '(frac, n2, rest'') := read_digits rest' 0%Z 0%nat in
        match rest'' with
        | EmptyString =>
            if (1 <=? n1 + n2)%nat
            then Some (inject_Z whole + (frac # Z.to_pos (10 ^ Z.of_nat n2)))
            else None
        | _ => None
        end
      else None
  end.

(** [float(s)] on plain decimal literals such as ["5.2"] and ["-12"]. *)
Definition decimal_literal (s : string) : option Q :=
  match strip s with
  | String "-"%char s' => option_map Qopp (unsigned_decimal s')
  | String "+"%char s' => unsigned_decimal s'
  | s' => unsigned_decimal s'
  end.

#[export] Instance fixed_point : PyNum := {|
  num := Q;
  num_of_lit := fun q => q;
  num_sub := fun x y => Ok (x - y);
  num_add := fun x y => Ok (x + y);
  num_mul := fun x y => Ok (x * y);
  num_sq := fun x => Ok (x * x);
  num_sqrt := fun x => Ok (sqrt6 x);
  num_int := fun x => Ok (truncate x);
  float_of_num := fun q => Ok q;
  float_of_str := decimal_literal
|}.

(** The unit square, closed: as a decoded geometry, and as the GeoJSON
    text [json.dumps] makes of it. *)
Definition unit_square : json :=
  JObj [ ("type", JStr "Polygon");
         ("coordinates",
          JArr [ JArr [ JArr [JNum 0; JNum 0]; JArr [JNum 1; JNum 0];
                        JArr [JNum 1; JNum 1]; JArr [JNum 0; JNum 1];
                        JArr [JNum 0; JNum 0] ] ]) ].

Definition quoted (s : string) : string :=
  String "034"%char (s ++ String "034"%char "").

Definition unit_square_text : string :=
  "{" ++ quoted "type" ++ ": " ++ quoted "Polygon" ++ ", "
      ++ quoted "coordinates"
      ++ ": [[[0, 0], [1, 0], [1, 1], [0, 1], [0, 0]]]}".

(** A server with one polygon to its name: it reads the text of the unit
    square and refuses every other text. *)
#[export] Instance polygons_only : PostGIS := {|
  st_geom_ok := fun s => String.eqb s unit_square_text
|}.

(** Every connection succeeds, every statement is carried out, and the
    clock shows the number of the call. *)
Definition fair_weather (n : nat) : call_env :=
  {| connect_ok := true; server_ok := true; rollback_ok := true;
     now := Z.of_nat n |}.

Definition feature_of (properties : dict) (geometry : json) : json :=
  JObj [ ("type", JStr "Feature");
         ("properties", JObj properties);
         ("geometry", geometry) ].

Definition collection_of (features : list json) : json :=
  JObj [ ("type", JStr "FeatureCollection"); ("features", JArr features) ].

(** The feature of the end-to-end example. *)
Definition p001 : json :=
  feature_of [ ("PID", JStr "P001"); ("ACRES", JNum (26 # 5));
               ("ZONING", JStr "R-3"); ("ADDRESS", JStr "123 Main St") ]
             unit_square.

(** The same feature with its geometry as GeoJSON text. *)
Definition p001_text : json :=
  feature_of [ ("PID", JStr "P001"); ("ACRES", JNum (26 # 5));
               ("ZONING", JStr "R-3"); ("ADDRESS", JStr "123 Main St") ]
             (JStr unit_square_text).

(** Two records of parcel P7 that differ in every attribute; the geometry
    is [g1] in the first and [g2] in the second. *)
Definition p7_first (g1 : json) : dict :=
  [ ("parcel_id", JStr "P7"); ("address", JStr "1 Oak St");
    ("owner_name", JStr "Bo Ray"); ("owner_address", JStr "PO Box 1");
    ("acres", JNum 2); ("zoning_code", JStr "R-3");
    ("land_use", JStr "Residential"); ("road_frontage", JNum 100);
    ("slope_percent", JNum 1); ("utilities", JArr [JStr "Water"]);
    ("geometry", g1) ].

Definition p7_second (g2 : json) : dict :=
  [ ("parcel_id", JStr "P7"); ("address", JStr "2 Elm St");
    ("owner_name", JStr "Ann Lee"); ("owner_address", JStr "PO Box 2");
    ("acres", JNum (7 # 2)); ("zoning_code", JStr "C-1");
    ("land_use", JStr "Commercial"); ("road_frontage", JNum 250);
    ("slope_percent", JNum (3 # 2));
    ("utilities", JArr [JStr "Water"; JStr "Sewer"]);
    ("geometry", g2) ].

Definition row_of (pid : string) (owner : option string) (a : option Q)
    : parcel_row :=
  {| parcel_id := pid; address := None; owner_name := owner;
     owner_address := None; acres := a; zoning_code := None;
     land_use := None; road_frontage := None; slope_percent := None;
     utilities := None; geometry := None; created_at := 0; updated_at := 0 |}.

Definition state_of (rows : list parcel_row) : state :=
  {| conn := true; calls := 0;
     store := {| parcels := rows; zoning_regulations := [] |} |}.

End Sample.

(* ================================================================== *)
(** ** What the properties are stated with *)

Module Spec.

(** A key is absent from the bag or bound to a string. *)
Definition str_or_absent (d : dict) (k : string) : Prop :=
  dict_find k d = None \/ exists s, dict_find k d = Some (JStr s).

(** The first value that is present and not null among the candidate keys,
    in their order; null when there is none. *)
Fixpoint first_present (keys : list string) (d : dict) : json :=
  match keys with
  | [] => JNull
  | k :: ks =>
      match dict_find k d with
      | None | Some JNull => first_present ks d
      | Some v => v
      end
  end.

(** The first truthy value among the candidate keys, in their order; when
    none is truthy, what the last key is bound to (null when absent). *)
Fixpoint first_truthy (keys : list string) (d : dict) : json :=
  match keys with
  | [] => JNull
  | [k] => dict_get d k JNull
  | k :: ks =>
      if truthy (dict_get d k JNull) then dict_get d k JNull
      else first_truthy ks d
  end.

(** The land use of a zoning text, by the first rule that matches. *)
Definition classify (text : string) : string :=
  if contains "R-" text || contains "RES" text then "Residential"
  else if contains "C-" text || contains "COM" text then "Commercial"
  else if contains "I-" text || contains "IND" text then "Industrial"
  else if contains "AG" text || contains "AGR" text then "Agricultural"
  else "Mixed Use".

(** The columns [DO UPDATE SET] overwrites hold in [row] what they hold
    in [excluded]. *)
Definition reflects (row excluded : parcel_row) : Prop :=
  address row = address excluded /\
  owner_name row = owner_name excluded /\
  owner_address row = owner_address excluded /\
  acres row = acres excluded /\
  zoning_code row = zoning_code excluded /\
  land_use row = land_use excluded /\
  road_frontage row = road_frontage excluded /\
  slope_percent row = slope_percent excluded /\
  utilities row = utilities excluded /\
  geometry row = geometry excluded.

(** The columns of [row] hold the values of the record [p], each as its
    column type takes it ([create_tables]). *)
Definition stored_as `{PostGIS} (row : parcel_row) (p : dict) : Prop :=
  bind_text (Some 50%nat) (dict_get p "parcel_id" JNull)
  = Some (Some (parcel_id row)) /\
  bind_text None (dict_get p "address" JNull) = Some (address row) /\
  bind_text (Some 255%nat) (dict_get p "owner_name" JNull)
  = Some (owner_name row) /\
  bind_text None (dict_get p "owner_address" JNull)
  = Some (owner_address row) /\
  bind_decimal 10 4 (dict_get p "acres" JNull) = Some (acres row) /\
  bind_text (Some 20%nat) (dict_get p "zoning_code" JNull)
  = Some (zoning_code row) /\
  bind_text (Some 100%nat) (dict_get p "land_use" JNull)
  = Some (land_use row) /\
  bind_int4 (dict_get p "road_frontage" JNull) = Some (road_frontage row) /\
  bind_decimal 5 2 (dict_get p "slope_percent" JNull)
  = Some (slope_percent row) /\
  bind_text_array (dict_get p "utilities" (JArr [])) = Some (utilities row) /\
  bind_geometry (dict_get p "geometry" JNull) = Some (geometry row).

(** [parcel_id] is UNIQUE. *)
Definition unique_ids (tbl : list parcel_row) : Prop :=
  NoDup (map parcel_id tbl).



(** The keys [search_parcels] reads. *)
Definition search_keys : list string :=
  ["min_acres"; "max_acres"; "zoning_type"; "vacant_only"; "road_frontage";
   "slope_range"].


(** The next call of [execute_query] reaches the server and is carried
    out. *)
Definition available (env : nat -> call_env) (st : state) : Prop :=
  (conn st || connect_ok (env (calls st))) && server_ok (env (calls st)) = true.

(** The conditions of the keys read before [vacant_only]. *)
Definition conditions_before (criteria : dict) : list pred :=
  (if truthy (dict_get criteria "min_acres" JNull)
   then [PCmp "acres" Ge (dict_get criteria "min_acres" JNull)] else []) ++
  (if truthy (dict_get criteria "max_acres" JNull)
   then [PCmp "acres" Le (dict_get criteria "max_acres" JNull)] else []) ++
  (if truthy (dict_get criteria "zoning_type" JNull)
   then [PCmp "zoning_code" Eq (dict_get criteria "zoning_type" JNull)] else []).

(** The condition of a slope range: one, when it has exactly two elements. *)
Definition slope_condition (slope_range : json) : list pred :=
  if truthy slope_range then
    match py_iter slope_range with
    | Ok [lo; hi] => [PBetween "slope_percent" lo hi]
    | _ => []
    end
  else [].

(** The conditions of the keys read after [vacant_only]. *)
Definition conditions_after (criteria : dict) : list pred :=
  (if truthy (dict_get criteria "road_frontage" JNull)
   then [PCmp "road_frontage" Ge (dict_get criteria "road_frontage" JNull)]
   else []) ++
  slope_condition (dict_get criteria "slope_range" JNull).

(** Every condition of the list is true of the row. *)
Definition all_hold (cs : list pred) (r : parcel_row) : bool :=
  forallb (fun c => is_TT (holds c r)) cs.

(** The five land uses. *)
Definition land_uses : list string :=
  ["Residential"; "Commercial"; "Industrial"; "Agricultural"; "Mixed Use"].

(** The keys of a record of [process_parcel_data], in order. *)
Definition record_keys : list string :=
  ["parcel_id"; "address"; "owner_name"; "owner_address"; "acres";
   "zoning_code"; "land_use"; "road_frontage"; "slope_percent"; "utilities";
   "geometry"].

(** The values the operator [in] takes on its right. *)
Definition searchable (x : json) : Prop :=
  match x with
  | JStr _ | JArr _ | JObj _ => True
  | _ => False
  end.

(** The name under a key is absent or a string of whitespace only. *)
Definition blank (d : dict) (k : string) : Prop :=
  dict_find k d = None \/
  exists s, dict_find k d = Some (JStr s) /\ strip s = "".

(** The values [len] accepts. *)
Definition sized (x : json) : Prop :=
  match x with
  | JStr _ | JArr _ | JObj _ => True
  | _ => False
  end.

(** A row as the importer writes it: no slope, the default utilities, one
    of the five land uses. *)
Definition normalised (row : parcel_row) : Prop :=
  slope_percent row = None /\
  utilities row = Some [Some "Water"; Some "Sewer"; Some "Electric"] /\
  exists lu, land_use row = Some lu /\ In lu land_uses.

(** [zone_code] is UNIQUE. *)
Definition unique_zones (tbl : list zoning_row) : Prop :=
  NoDup (map zone_code tbl).

(** A selected row without an owner. *)
Definition vacant (r : summary) : Prop :=
  s_owner_name r = None \/ s_owner_name r = Some "".

Section Perimeter.
Context `{PyNum}.

(** A vertex: its first two coordinates. *)
Definition point : Type := (num * num)%type.

(** The value [v] is a vertex with the coordinates [pt]: its entries 0 and
    1 are numbers. *)
Definition is_vertex (v : json) (pt : point) : Prop :=
  exists jx jy,
    py_index v 0 = Ok jx /\ py_index v 1 = Ok jy /\
    py_num jx = Ok (fst pt) /\ py_num jy = Ok (snd pt).

(** The Euclidean distance between two vertices. *)
Definition distance (a b : point) : result num :=
  dx <- num_sub (fst b) (fst a) ;;
  dy <- num_sub (snd b) (snd a) ;;
  dx2 <- num_sq dx ;; dy2 <- num_sq dy ;;
  s <- num_add dx2 dy2 ;;
  num_sqrt s.

(** Each vertex with the next one. *)
Definition consecutive {A : Type} (l : list A) : list (A * A) :=
  combine l (tl l).

(** The sum, from 0 and in boundary order, of the distances between
    consecutive vertices. *)
Definition perimeter (ring : list point) : result num :=
  fold_left
    (fun acc ab => p <- acc ;; d <- distance (fst ab) (snd ab) ;; num_add p d)
    (consecutive ring) (Ok (num_of_lit 0)).

(** The perimeter times 111000, cut to an integer; null when the
    arithmetic fails. *)
Definition frontage_of (ring : list point) : option Z :=
  match (p <- perimeter ring ;;
         scaled <- num_mul p (num_of_lit 111000) ;;
         num_int scaled) with
  | Ok feet => Some feet
  | Raise _ => None
  end.

End Perimeter.

End Spec.

Export Spec.

(* ================================================================== *)
(** * Properties *)

Import Normalizer.

(** ** Python values *)

Lemma bind_Ok {A B} (a : A) (k : A -> result B) : bind (Ok a) k = k a.
Proof. reflexivity. Qed.

Lemma bind_inv_Ok {A B} (m : result A) (k : A -> result B) (b : B) :
  bind m k = Ok b -> exists a, m = Ok a /\ k a = Ok b.
Proof.
  destruct m as [a|e]; simpl; intros E.
  - exists a. split; [reflexivity | exact E].
  - discriminate E.
Qed.

Lemma py_get_dict (d : dict) (k : string) (default : json) :
  py_get (JObj d) k default = Ok (dict_get d k default).
Proof. reflexivity. Qed.

Lemma py_or_Ok (a b : json) :
  py_or a (Ok b) = Ok (if truthy a then a else b).
Proof. unfold py_or. destruct (truthy a); reflexivity. Qed.

Lemma dict_get_found (d : dict) (k : string) (default v : json) :
  dict_find k d = Some v -> dict_get d k default = v.
Proof. unfold dict_get. intros ->. reflexivity. Qed.

(** ** The normaliser *)

Lemma str_or_absent_strip (d : dict) (k : string) :
  str_or_absent d k ->
  exists s, py_strip (dict_get d k (JStr "")) = Ok s.
Proof.
  intros [E | [s E]]; unfold dict_get; rewrite E; simpl; eauto.
Qed.

Lemma strip_Ok_str_or_absent (d : dict) (k : string) (s : string) :
  py_strip (dict_get d k (JStr "")) = Ok s -> str_or_absent d k.
Proof.
  unfold dict_get, str_or_absent.
  destruct (dict_find k d) as [v|]; [|left; reflexivity].
  destruct v; simpl; intros E; try discriminate E.
  right. eexists. reflexivity.
Qed.

(** [_combine_owner_names] returns exactly on the bags whose two name keys
    are absent or strings. *)
Lemma combine_owner_names_total_iff (d : dict) :
  (exists s, _combine_owner_names (JObj d) = Ok s) <->
  (str_or_absent d "Owner_FirstName" /\ str_or_absent d "Owner_LastName").
Proof.
  unfold _combine_owner_names. rewrite py_get_dict, bind_Ok. split.
  - intros [s E].
    apply bind_inv_Ok in E. destruct E as [f [Ef E]].
    rewrite py_get_dict, bind_Ok in E.
    apply bind_inv_Ok in E. destruct E as [l [El _]].
    split; eapply strip_Ok_str_or_absent; eassumption.
  - intros [Hf Hl].
    destruct (str_or_absent_strip _ _ Hf) as [f ->].
    rewrite bind_Ok, py_get_dict, bind_Ok.
    destruct (str_or_absent_strip _ _ Hl) as [l ->].
    rewrite bind_Ok.
    destruct (negb (String.eqb f "") && negb (String.eqb l "")); [eauto|].
    destruct (negb (String.eqb f "")); [eauto|].
    destruct (negb (String.eqb l "")); eauto.
Qed.

Lemma combine_owner_names_null (d : dict) :
  dict_find "Owner_FirstName" d = Some JNull \/
  dict_find "Owner_LastName" d = Some JNull ->
  _combine_owner_names (JObj d) = Raise AttributeError.
Proof.
  unfold _combine_owner_names. rewrite py_get_dict, bind_Ok.
  intros [E | E].
  - rewrite (dict_get_found _ _ _ _ E). reflexivity.
  - destruct (py_strip (dict_get d "Owner_FirstName" (JStr ""))) as [f|e] eqn:Ef.
    + rewrite bind_Ok, py_get_dict, bind_Ok.
      rewrite (dict_get_found _ _ _ _ E). reflexivity.
    + destruct (dict_get d "Owner_FirstName" (JStr "")); simpl in Ef;
        inversion Ef; reflexivity.
Qed.

(** A feature whose turn of the loop appends nothing leaves no trace in the
    output of the loop. *)
Lemma process_features_skip `{PyNum} (feature : json) (before after : list json) :
  (forall p, process_feature feature <> Ok (Some p)) ->
  process_features (before ++ feature :: after) = process_features (before ++ after).
Proof.
  intros Hskip. induction before as [|f before IH]; simpl.
  - destruct (process_feature feature) as [[p|]|e]; try reflexivity.
    exfalso. exact (Hskip p eq_refl).
  - rewrite IH. reflexivity.
Qed.

(** The part of [process_feature] before the owner names cannot raise on a
    feature with a property bag. *)
Lemma process_feature_bag `{PyNum} (fields d : dict) :
  dict_find "properties" fields = Some (JObj d) ->
  process_feature (JObj fields) =
  let geometry := dict_get fields "geometry" JNull in
  if negb (truthy geometry) then Ok None else
  let parcel_id := if truthy (dict_get d "PID" JNull)
                   then dict_get d "PID" JNull else dict_get d "parcel_id" JNull in
  let address := if truthy (dict_get d "Mailing_Address" JNull)
                 then dict_get d "Mailing_Address" JNull else dict_get d "address" JNull in
  owner_name <- _combine_owner_names (JObj d) ;;
  let acres_value := if truthy (dict_get d "Total_Acreage" JNull)
                     then dict_get d "Total_Acreage" JNull else dict_get d "acres" JNull in
  acres <- _parse_acres acres_value ;;
  let zoning_code := if truthy (dict_get d "ZoneDes" JNull)
                     then dict_get d "ZoneDes" JNull else dict_get d "zoning" JNull in
  land_use <- _determine_land_use (JObj d) ;;
  let parcel_data : dict :=
    [ ("parcel_id", parcel_id);
      ("address", address);
      ("owner_name", JStr owner_name);
      ("owner_address", dict_get d "Mailing_Address" JNull);
      ("acres", json_of_num acres);
      ("zoning_code", zoning_code);
      ("land_use", JStr land_use);
      ("road_frontage", json_of_int (_calculate_road_frontage geometry));
      ("slope_percent", JNull);
      ("utilities", _determine_utilities (JObj d));
      ("geometry", geometry) ] in
  if truthy parcel_id && truthy geometry then Ok (Some parcel_data) else Ok None.
Proof.
  intros Hp. unfold process_feature.
  rewrite !py_get_dict, !bind_Ok.
  rewrite (dict_get_found _ _ _ _ Hp).
  cbv zeta.
  destruct (negb (truthy (dict_get fields "geometry" JNull))); [reflexivity|].
  repeat (progress rewrite ?py_get_dict, ?bind_Ok, ?py_or_Ok).
  destruct (_combine_owner_names (JObj d)) as [owner|e]; [|reflexivity].
  repeat (progress rewrite ?py_get_dict, ?bind_Ok, ?py_or_Ok).
  destruct (_parse_acres _) as [acres|e]; [|reflexivity].
  repeat (progress rewrite ?py_get_dict, ?bind_Ok, ?py_or_Ok).
  reflexivity.
Qed.

Lemma fetch_collection (features : list json) :
  fetch_arcgis_data (Body (Sample.collection_of features))
  = Some (Sample.collection_of features).
Proof. reflexivity. Qed.

Lemma process_parcel_data_collection `{PyNum} (features : list json) :
  process_parcel_data (Sample.collection_of features)
  = Ok (process_features features).
Proof. reflexivity. Qed.

(** A feature whose name keys hold a null appends nothing. *)
Lemma null_owner_feature_skipped `{PyNum} (fields d : dict) :
  dict_find "properties" fields = Some (JObj d) ->
  dict_find "Owner_FirstName" d = Some JNull \/
  dict_find "Owner_LastName" d = Some JNull ->
  forall p, process_feature (JObj fields) <> Ok (Some p).
Proof.
  intros Hp Hnull p. rewrite (process_feature_bag _ _ Hp). cbv zeta.
  destruct (negb (truthy (dict_get fields "geometry" JNull))); [discriminate|].
  rewrite (combine_owner_names_null _ Hnull). discriminate.
Qed.

(** C10. A feature whose property bag binds [Owner_FirstName] or
    [Owner_LastName] to null makes [_combine_owner_names] raise
    [AttributeError] (strip on None); with a truthy geometry the turn of the
    loop of [process_parcel_data] ends in that exception, which the loop
    catches: the feature leaves no record in the output, whatever stands
    before and after it, and a run that fetches it stores nothing.  The
    owner-name step returns exactly on the bags whose two name keys are
    absent or bound to strings. *)
Theorem null_owner_name_drops_feature `{PyNum} `{PostGIS}
    (fields d : dict)
    (Hbag : dict_find "properties" fields = Some (JObj d))
    (Hnull : dict_find "Owner_FirstName" d = Some JNull \/
             dict_find "Owner_LastName" d = Some JNull) :
  _combine_owner_names (JObj d) = Raise AttributeError
  /\ (truthy (dict_get fields "geometry" JNull) = true ->
      process_feature (JObj fields) = Raise AttributeError)
  /\ (forall before after,
        process_features (before ++ JObj fields :: after)
        = process_features (before ++ after))
  /\ (forall env st,
        import_all_data env
          {| parcel_lookup := Body (Sample.collection_of [JObj fields]);
             vacant_land := RequestFailed;
             zoning := RequestFailed |} st = (st, true))
  /\ (forall bag : dict,
        (exists s, _combine_owner_names (JObj bag) = Ok s) <->
        (str_or_absent bag "Owner_FirstName" /\
         str_or_absent bag "Owner_LastName")).
Proof.
  pose proof (null_owner_feature_skipped fields d Hbag Hnull) as Hskip.
  split; [exact (combine_owner_names_null d Hnull)|].
  split.
  { intros Hg. rewrite (process_feature_bag _ _ Hbag). cbv zeta.
    rewrite Hg. simpl negb. cbv iota.
    rewrite (combine_owner_names_null d Hnull). reflexivity. }
  split.
  { intros before after. apply process_features_skip. exact Hskip. }
  split.
  { intros env st. unfold import_all_data, parcel_pass, vacant_pass, zoning_pass.
    cbn [parcel_lookup vacant_land zoning].
    rewrite fetch_collection, process_parcel_data_collection.
    change (truthy (Sample.collection_of [JObj fields])) with true. cbv iota.
    pose proof (process_features_skip (JObj fields) [] [] Hskip) as E.
    cbn [app] in E. rewrite E. reflexivity. }
  exact combine_owner_names_total_iff.
Qed.

(** The hypotheses of C10 hold of the bag [{PID: "P9", Owner_FirstName:
    null}] with the unit square as geometry. *)
Lemma null_owner_name_drops_feature_witness :
  @process_feature Sample.fixed_point
    (Sample.feature_of [("PID", JStr "P9"); ("Owner_FirstName", JNull)]
       Sample.unit_square)
  = Raise AttributeError.
Proof.
  refine (proj1 (proj2
    (@null_owner_name_drops_feature Sample.fixed_point Sample.polygons_only
       [ ("type", JStr "Feature");
         ("properties", JObj [("PID", JStr "P9"); ("Owner_FirstName", JNull)]);
         ("geometry", Sample.unit_square) ]
       [("PID", JStr "P9"); ("Owner_FirstName", JNull)]
       eq_refl (or_introl eq_refl))) eq_refl).
Defined.

(** ** Land use *)

Lemma any_in_pair (a b s : string) :
  py_any_in [a; b] (JStr s) = Ok (contains a s || contains b s).
Proof.
  simpl. destruct (contains a s); simpl; [reflexivity|].
  destruct (contains b s); reflexivity.
Qed.

(** On a string, the chain of tests of [_determine_land_use] is [classify]. *)
Lemma land_use_chain (s : string) :
  (r <- py_any_in ["R-"; "RES"] (JStr s) ;;
   if r then Ok "Residential" else
   c <- py_any_in ["C-"; "COM"] (JStr s) ;;
   if c then Ok "Commercial" else
   i <- py_any_in ["I-"; "IND"] (JStr s) ;;
   if i then Ok "Industrial" else
   a <- py_any_in ["AG"; "AGR"] (JStr s) ;;
   if a then Ok "Agricultural" else
   Ok "Mixed Use") = Ok (classify s).
Proof.
  unfold classify. rewrite any_in_pair, bind_Ok.
  destruct (contains "R-" s || contains "RES" s); [reflexivity|].
  rewrite any_in_pair, bind_Ok.
  destruct (contains "C-" s || contains "COM" s); [reflexivity|].
  rewrite any_in_pair, bind_Ok.
  destruct (contains "I-" s || contains "IND" s); [reflexivity|].
  rewrite any_in_pair, bind_Ok.
  destruct (contains "AG" s || contains "AGR" s); reflexivity.
Qed.

(** With no truthy [ZoneDes], the text under [zoning] is uppercased and
    classified. *)
Lemma land_use_of_zoning_key (d : dict) (s : string) :
  truthy (dict_get d "ZoneDes" JNull) = false ->
  dict_get d "zoning" (JStr "") = JStr s ->
  _determine_land_use (JObj d) = Ok (classify (upper s)).
Proof.
  intros Hz Hs. unfold _determine_land_use.
  rewrite py_get_dict, bind_Ok. unfold py_or. rewrite Hz.
  rewrite py_get_dict, bind_Ok, Hs. simpl py_upper. rewrite bind_Ok.
  apply land_use_chain.
Qed.

(** A non-empty text under [ZoneDes] is classified as it stands. *)
Lemma land_use_of_ZoneDes (d : dict) (s : string) :
  dict_get d "ZoneDes" JNull = JStr s ->
  s <> "" ->
  _determine_land_use (JObj d) = Ok (classify s).
Proof.
  intros Hs Hne. unfold _determine_land_use.
  rewrite py_get_dict, bind_Ok, Hs. unfold py_or.
  assert (truthy (JStr s) = true) as ->.
  { simpl. destruct (String.eqb_spec s ""); [contradiction|reflexivity]. }
  rewrite bind_Ok. apply land_use_chain.
Qed.

(** The five codes of the spec, as they stand. *)
Lemma classify_examples :
  classify "R-3" = "Residential" /\ classify "C-1" = "Commercial" /\
  classify "I-2" = "Industrial" /\ classify "AG-1" = "Agricultural" /\
  classify "MU-1" = "Mixed Use".
Proof. repeat split; reflexivity. Qed.

(** C3, at the failing input.  The bag [{ZoneDes: "r-3"}] is classified
    Mixed Use: [upper] is applied to the value of [zoning] only, so a
    lowercase code under [ZoneDes] is matched as it stands, while the same
    text under [zoning] is uppercased and classified Residential. *)
Theorem land_use_ZoneDes_not_uppercased :
  _determine_land_use (JObj [("ZoneDes", JStr "r-3")]) = Ok "Mixed Use"
  /\ _determine_land_use (JObj [("zoning", JStr "r-3")]) = Ok "Residential"
  /\ classify (upper "r-3") = "Residential".
Proof. repeat split; reflexivity. Qed.

(** ** Field resolution *)

Lemma first_truthy_pair (k1 k2 : string) (d : dict) :
  first_truthy [k1; k2] d =
  if truthy (dict_get d k1 JNull) then dict_get d k1 JNull
  else dict_get d k2 JNull.
Proof. reflexivity. Qed.

(** The record a turn of the loop appends, field by field. *)
Lemma process_feature_fields `{PyNum} (fields d p : dict) :
  dict_find "properties" fields = Some (JObj d) ->
  process_feature (JObj fields) = Ok (Some p) ->
  dict_get p "parcel_id" JNull = first_truthy ["PID"; "parcel_id"] d /\
  dict_get p "address" JNull = first_truthy ["Mailing_Address"; "address"] d /\
  (exists a, _parse_acres (first_truthy ["Total_Acreage"; "acres"] d) = Ok a /\
             dict_get p "acres" JNull = json_of_num a) /\
  dict_get p "zoning_code" JNull = first_truthy ["ZoneDes"; "zoning"] d.
Proof.
  intros Hp. rewrite (process_feature_bag _ _ Hp). cbv zeta.
  destruct (negb (truthy (dict_get fields "geometry" JNull))); [discriminate|].
  destruct (_combine_owner_names (JObj d)) as [owner|e]; [|discriminate].
  rewrite bind_Ok. rewrite <- (first_truthy_pair "Total_Acreage" "acres").
  destruct (_parse_acres (first_truthy ["Total_Acreage"; "acres"] d))
    as [a|e]; [|discriminate].
  rewrite bind_Ok.
  destruct (_determine_land_use (JObj d)) as [lu|e]; [|discriminate].
  rewrite bind_Ok.
  match goal with |- (if ?c then _ else _) = _ -> _ => destruct c end;
    [|discriminate].
  intros E. injection E as <-.
  rewrite !first_truthy_pair.
  split; [reflexivity|]. split; [reflexivity|].
  split; [exists a; split; reflexivity | reflexivity].
Qed.

(** C4, as amended.  Each canonical field of an appended record is the
    first truthy value among its two candidate keys, and what the second
    key is bound to (null when absent) when the first is absent, null or
    falsy; the acreage is that value parsed.  The second key decides only
    when the first is not truthy. *)
Theorem fields_resolved_by_first_truthy `{PyNum} (fields d p : dict)
    (Hbag : dict_find "properties" fields = Some (JObj d))
    (Hrec : process_feature (JObj fields) = Ok (Some p)) :
  (dict_get p "parcel_id" JNull = first_truthy ["PID"; "parcel_id"] d /\
   dict_get p "address" JNull = first_truthy ["Mailing_Address"; "address"] d /\
   (exists a, _parse_acres (first_truthy ["Total_Acreage"; "acres"] d) = Ok a /\
              dict_get p "acres" JNull = json_of_num a) /\
   dict_get p "zoning_code" JNull = first_truthy ["ZoneDes"; "zoning"] d)
  /\ (forall k1 k2,
        truthy (dict_get d k1 JNull) = true ->
        first_truthy [k1; k2] d = dict_get d k1 JNull)
  /\ (forall k1 k2,
        truthy (dict_get d k1 JNull) = false ->
        first_truthy [k1; k2] d = dict_get d k2 JNull).
Proof.
  split; [exact (process_feature_fields fields d p Hbag Hrec)|].
  split; intros k1 k2 Ht; rewrite first_truthy_pair, Ht; reflexivity.
Qed.

(** The hypotheses of C4 hold of the bag [{PID: "", parcel_id: "X",
    Total_Acreage: 0, acres: 5}]: the record takes the second candidates. *)
Lemma fields_resolved_by_first_truthy_witness :
  exists p,
    @process_feature Sample.fixed_point
      (Sample.feature_of
         [ ("PID", JStr ""); ("parcel_id", JStr "X");
           ("Total_Acreage", JNum 0); ("acres", JNum 5) ]
         Sample.unit_square) = Ok (Some p)
    /\ dict_get p "parcel_id" JNull = JStr "X"
    /\ dict_get p "zoning_code" JNull = JNull.
Proof.
  eexists. split; [reflexivity|].
  pose proof (@fields_resolved_by_first_truthy Sample.fixed_point
    [ ("type", JStr "Feature");
      ("properties", JObj [ ("PID", JStr ""); ("parcel_id", JStr "X");
                            ("Total_Acreage", JNum 0); ("acres", JNum 5) ]);
      ("geometry", Sample.unit_square) ]
    [ ("PID", JStr ""); ("parcel_id", JStr "X");
      ("Total_Acreage", JNum 0); ("acres", JNum 5) ]
    _ eq_refl eq_refl) as [[Hid [_ [_ Hzc]]] _].
  split; [exact Hid | exact Hzc].
Defined.

(** C4, as stated, fails: on the bag [{PID: "P1", Total_Acreage: 0,
    acres: 5}] the first present, non-null acreage is 0, and the record
    holds 5. *)
Lemma first_present_acreage_fails :
  ~ (forall (fields d p : dict),
       dict_find "properties" fields = Some (JObj d) ->
       @process_feature Sample.fixed_point (JObj fields) = Ok (Some p) ->
       dict_get p "parcel_id" JNull = first_present ["PID"; "parcel_id"] d /\
       dict_get p "address" JNull
         = first_present ["Mailing_Address"; "address"] d /\
       (exists a,
          @_parse_acres Sample.fixed_point
            (first_present ["Total_Acreage"; "acres"] d) = Ok a /\
          dict_get p "acres" JNull = json_of_num a) /\
       dict_get p "zoning_code" JNull = first_present ["ZoneDes"; "zoning"] d).
Proof.
  intros Hall.
  specialize (Hall
    [ ("type", JStr "Feature");
      ("properties", JObj [ ("PID", JStr "P1"); ("Total_Acreage", JNum 0);
                            ("acres", JNum 5) ]);
      ("geometry", Sample.unit_square) ]
    [ ("PID", JStr "P1"); ("Total_Acreage", JNum 0); ("acres", JNum 5) ]
    _ eq_refl eq_refl).
  destruct Hall as [_ [_ [[a [Ha Hac]] _]]].
  vm_compute in Ha. injection Ha as <-.
  vm_compute in Hac. discriminate Hac.
Qed.

(** ** Road frontage *)

Section Frontage.
Context `{PyNum}.

Lemma nth_error_middle {A : Type} (pre : list A) (x : A) (post : list A) :
  nth_error (pre ++ x :: post) (List.length pre) = Some x.
Proof. induction pre; simpl; auto. Qed.

(** A turn of the loop on two vertices adds their distance. *)
Lemma frontage_step_vertices (ring : list json) (i : nat) (va vb : json)
    (a b : point) (p : num) :
  nth_error ring i = Some va ->
  nth_error ring (i + 1) = Some vb ->
  is_vertex va a -> is_vertex vb b ->
  frontage_step (JArr ring) p i = (d <- distance a b ;; num_add p d).
Proof.
  intros Ea Eb (ax & ay & Hax & Hay & Nax & Nay) (bx & by_ & Hbx & Hby & Nbx & Nby).
  assert (Ia : py_index (JArr ring) i = Ok va) by (simpl; rewrite Ea; reflexivity).
  assert (Ib : py_index (JArr ring) (i + 1) = Ok vb) by (simpl; rewrite Eb; reflexivity).
  unfold frontage_step, distance, py_sub.
  repeat (progress rewrite ?bind_Ok, ?Ia, ?Ib, ?Hax, ?Hbx, ?Nax, ?Nbx).
  destruct (num_sub (fst b) (fst a)) as [dx|e]; [|reflexivity].
  repeat (progress rewrite ?bind_Ok, ?Hay, ?Hby, ?Nay, ?Nby).
  destruct (num_sub (snd b) (snd a)) as [dy|e]; [|reflexivity].
  rewrite !bind_Ok.
  destruct (num_sq dx) as [dx2|e]; [|reflexivity].
  rewrite !bind_Ok.
  destruct (num_sq dy) as [dy2|e]; [|reflexivity].
  rewrite !bind_Ok.
  destruct (num_add dx2 dy2) as [s|e]; [|reflexivity].
  rewrite !bind_Ok.
  destruct (num_sqrt s) as [r|e]; reflexivity.
Qed.

(** The indexed loop over a ring of vertices is the fold over its
    consecutive pairs. *)
Lemma frontage_loop_suffix (ring : list json) (pts : list point) :
  Forall2 is_vertex ring pts ->
  forall (pre : list json) (acc : result num),
    fold_left (fun acc i => s <- acc ;; frontage_step (JArr (pre ++ ring)) s i)
      (seq (List.length pre) (List.length ring - 1)) acc
    = fold_left
        (fun acc ab => p <- acc ;; d <- distance (fst ab) (snd ab) ;; num_add p d)
        (consecutive pts) acc.
Proof.
  induction 1 as [|va a ring' pts' Hva Hrest IH]; intros pre acc.
  - reflexivity.
  - destruct Hrest as [|vb b ring'' pts'' Hvb Hrest'].
    + reflexivity.
    + replace (List.length (va :: vb :: ring'') - 1)%nat
        with (S (List.length (vb :: ring'') - 1)) by (simpl; lia).
      cbn [seq fold_left consecutive tl combine].
      specialize (IH (pre ++ [va]) ).
      rewrite <- app_assoc in IH. cbn [app] in IH.
      rewrite length_app in IH. cbn [List.length] in IH.
      rewrite Nat.add_1_r in IH. cbn [List.length].
      rewrite IH. f_equal.
      destruct acc as [p|e]; [|reflexivity].
      rewrite !bind_Ok. cbn [fst snd].
      apply (frontage_step_vertices _ _ va vb); auto.
      * apply nth_error_middle.
      * rewrite Nat.add_1_r.
        change (pre ++ va :: vb :: ring'') with (pre ++ [va] ++ vb :: ring'').
        rewrite app_assoc.
        replace (S (List.length pre)) with (List.length (pre ++ [va])).
        -- apply nth_error_middle.
        -- rewrite length_app. simpl. apply Nat.add_1_r.
Qed.

Lemma frontage_loop (ring : list json) (pts : list point) :
  Forall2 is_vertex ring pts ->
  for_range (List.length ring - 1) (frontage_step (JArr ring)) (num_of_lit 0)
  = perimeter pts.
Proof.
  intros Hv. unfold for_range, perimeter.
  exact (frontage_loop_suffix ring pts Hv [] (Ok (num_of_lit 0))).
Qed.

(** C9.  For a Polygon whose first ring is a list of vertices, the estimate
    is the sum of the distances between consecutive vertices, times 111000,
    cut to an integer (null when the arithmetic raises); a geometry of
    another type gives null; and every exception of the computation ends
    in null, so the function returns on every input. *)
Theorem road_frontage_is_scaled_perimeter :
  (forall (d : dict) (ring rings : list json) (pts : list point),
      dict_find "type" d = Some (JStr "Polygon") ->
      dict_find "coordinates" d = Some (JArr (JArr ring :: rings)) ->
      Forall2 is_vertex ring pts ->
      _calculate_road_frontage (JObj d) = frontage_of pts)
  /\ (forall (g t : json),
        py_item g "type" = Ok t ->
        json_eq_str t "Polygon" = false ->
        _calculate_road_frontage g = None)
  /\ (forall (g : json) (e : exn),
        road_frontage_try g = Raise e ->
        _calculate_road_frontage g = None).
Proof.
  split; [|split].
  - intros d ring rings pts Ht Hc Hv.
    unfold _calculate_road_frontage, road_frontage_try, frontage_of.
    cbn [py_item]. rewrite Ht, bind_Ok.
    change (json_eq_str (JStr "Polygon") "Polygon") with true. cbv iota.
    rewrite Hc, bind_Ok.
    change (py_index (JArr (JArr ring :: rings)) 0) with (Ok (JArr ring)).
    rewrite bind_Ok.
    change (py_len (JArr ring)) with (Ok (List.length ring)).
    rewrite bind_Ok.
    rewrite (frontage_loop ring pts Hv).
    destruct (perimeter pts) as [p|e]; [|reflexivity].
    rewrite !bind_Ok.
    destruct (num_mul p (num_of_lit 111000)) as [scaled|e]; [|reflexivity].
    rewrite !bind_Ok.
    destruct (num_int scaled) as [feet|e]; reflexivity.
  - intros g t Ht Hne. unfold _calculate_road_frontage, road_frontage_try.
    rewrite Ht, bind_Ok, Hne. reflexivity.
  - intros g e He. unfold _calculate_road_frontage. rewrite He. reflexivity.
Qed.

End Frontage.

(** The hypotheses of C9 hold of the unit square, whose estimate is
    4 * 111000. *)
Lemma road_frontage_is_scaled_perimeter_witness :
  @_calculate_road_frontage Sample.fixed_point Sample.unit_square
  = Some 444000%Z.
Proof.
  refine (eq_trans
    (proj1 (@road_frontage_is_scaled_perimeter Sample.fixed_point)
       [ ("type", JStr "Polygon");
         ("coordinates",
          JArr [ JArr [ JArr [JNum 0; JNum 0]; JArr [JNum 1; JNum 0];
                        JArr [JNum 1; JNum 1]; JArr [JNum 0; JNum 1];
                        JArr [JNum 0; JNum 0] ] ]) ]
       [ JArr [JNum 0; JNum 0]; JArr [JNum 1; JNum 0];
         JArr [JNum 1; JNum 1]; JArr [JNum 0; JNum 1];
         JArr [JNum 0; JNum 0] ]
       []
       [ (0, 0); (1, 0); (1, 1); (0, 1); (0, 0) ]%Q
       eq_refl eq_refl _) eq_refl).
  repeat constructor;
    (eexists; eexists; repeat split; reflexivity).
Defined.

(** ** The import run *)

(** What [fetch_arcgis_data] lets through: a dict whose ["features"], when
    present, has a length. *)
Lemma fetch_Some_shape (reply : http_reply) (data : json) :
  fetch_arcgis_data reply = Some data ->
  exists d n, data = JObj d /\ py_len (dict_get d "features" (JArr [])) = Ok n.
Proof.
  destruct reply as [| |body]; simpl; try discriminate.
  destruct body as [| | | |l|d]; simpl; try discriminate.
  destruct (py_len (dict_get d "features" (JArr []))) as [n|e] eqn:E;
    [|discriminate].
  intros [= <-]. exists d, n. split; [reflexivity | exact E].
Qed.

Lemma py_len_iter (v : json) (n : nat) :
  py_len v = Ok n -> exists l, py_iter v = Ok l.
Proof.
  destruct v; simpl; intros E; try discriminate E; eauto.
Qed.

Lemma has_features_dict (d : dict) :
  has_features (JObj d)
  = Ok (match dict_find "features" d with Some _ => true | None => false end).
Proof. reflexivity. Qed.

(** On such a dict nothing outside the loop's [try] raises. *)
Lemma process_parcel_data_returns `{PyNum} (d : dict) (n : nat) :
  py_len (dict_get d "features" (JArr [])) = Ok n ->
  exists l, process_parcel_data (JObj d) = Ok l.
Proof.
  intros Hlen. unfold process_parcel_data.
  destruct (negb (truthy (JObj d))); [eauto|].
  rewrite has_features_dict, bind_Ok.
  unfold dict_get in Hlen. cbn [py_item].
  destruct (dict_find "features" d) as [v|]; cbn [negb]; [|eauto].
  rewrite bind_Ok.
  destruct (py_len_iter v n Hlen) as [l ->]. rewrite bind_Ok. eauto.
Qed.

Lemma import_zoning_data_returns `{PostGIS} (env : nat -> call_env)
    (d : dict) (n : nat) (st : state) :
  py_len (dict_get d "features" (JArr [])) = Ok n ->
  snd (_import_zoning_data env (JObj d) st) = Ok tt.
Proof.
  intros Hlen. unfold _import_zoning_data.
  destruct (negb (truthy (JObj d))); [reflexivity|].
  rewrite has_features_dict.
  unfold dict_get in Hlen. cbn [py_item].
  destruct (dict_find "features" d) as [v|]; [|reflexivity].
  rewrite bind_Ok.
  destruct (py_len_iter v n Hlen) as [l ->]. reflexivity.
Qed.

Section Passes.
Context `{PyNum} `{PostGIS}.
Variable env : nat -> call_env.

Lemma parcel_pass_returns (reply : http_reply) (st : state) :
  snd (parcel_pass env reply st) = Ok tt.
Proof.
  unfold parcel_pass.
  destruct (fetch_arcgis_data reply) as [data|] eqn:E; [|reflexivity].
  destruct (fetch_Some_shape _ _ E) as (d & n & -> & Hlen).
  destruct (truthy (JObj d)); [|reflexivity].
  destruct (process_parcel_data_returns d n Hlen) as [l ->]. reflexivity.
Qed.

Lemma vacant_pass_returns (reply : http_reply) (st : state) :
  snd (vacant_pass env reply st) = Ok tt.
Proof.
  unfold vacant_pass.
  destruct (fetch_arcgis_data reply) as [data|] eqn:E; [|reflexivity].
  destruct (fetch_Some_shape _ _ E) as (d & n & -> & Hlen).
  destruct (truthy (JObj d)); [|reflexivity].
  destruct (process_parcel_data_returns d n Hlen) as [l ->]. reflexivity.
Qed.

Lemma zoning_pass_returns (reply : http_reply) (st : state) :
  snd (zoning_pass env reply st) = Ok tt.
Proof.
  unfold zoning_pass.
  destruct (fetch_arcgis_data reply) as [data|] eqn:E; [|reflexivity].
  destruct (fetch_Some_shape _ _ E) as (d & n & -> & Hlen).
  destruct (truthy (JObj d)); [|reflexivity].
  exact (import_zoning_data_returns env d n st Hlen).
Qed.

(** A call that gives no answer, because it returns [None] or because it
    raises, leaves the tables as they were. *)
Lemma execute_query_None_store (q : statement) (st : state) :
  (forall a, snd (execute_query env q st) <> Ok (Some a)) ->
  store (fst (execute_query env q st)) = store st.
Proof.
  unfold execute_query.
  destruct (negb (conn st) && negb (connect_ok (env (calls st)))); [reflexivity|].
  destruct (server_ok (env (calls st))); [|reflexivity].
  destruct (run (now (env (calls st))) q (store st)) as [[t a]|];
    [|reflexivity].
  intros Hno. exfalso. exact (Hno a eq_refl).
Qed.

Lemma insert_parcel_data_false_store (p : dict) (st : state) :
  snd (insert_parcel_data env p st) = false ->
  store (fst (insert_parcel_data env p st)) = store st.
Proof.
  unfold insert_parcel_data.
  pose proof (execute_query_None_store (InsertParcel (insert_params p)) st) as Hn.
  destruct (execute_query env (InsertParcel (insert_params p)) st)
    as [st' [[a|]|e]]; simpl in *; [discriminate | |];
    intros _; apply Hn; discriminate.
Qed.


End Passes.


(** ** Upsert *)

Lemma same_parcel_spec (pid : string) (r : parcel_row) :
  same_parcel pid r = true <-> parcel_id r = pid.
Proof. unfold same_parcel. apply String.eqb_eq. Qed.

Lemma existsb_same_parcel (pid : string) (tbl : list parcel_row) :
  existsb (same_parcel pid) tbl = true <-> In pid (map parcel_id tbl).
Proof.
  rewrite existsb_exists, in_map_iff. split.
  - intros [r [Hin Hs]]. exists r. split; [apply same_parcel_spec|]; assumption.
  - intros [r [Hs Hin]]. exists r. split; [|apply same_parcel_spec]; assumption.
Qed.

Lemma upsert_parcel_ids (now : Z) (e : parcel_row) (tbl : list parcel_row) :
  map parcel_id (upsert_parcel now e tbl) =
  if existsb (same_parcel (parcel_id e)) tbl
  then map parcel_id tbl
  else map parcel_id tbl ++ [parcel_id e].
Proof.
  unfold upsert_parcel.
  destruct (existsb (same_parcel (parcel_id e)) tbl).
  - rewrite map_map. apply map_ext. intros r.
    destruct (same_parcel (parcel_id e) r); reflexivity.
  - rewrite map_app. reflexivity.
Qed.

(** The upsert keeps [parcel_id] unique. *)
Lemma upsert_parcel_unique (now : Z) (e : parcel_row) (tbl : list parcel_row) :
  unique_ids tbl -> unique_ids (upsert_parcel now e tbl).
Proof.
  unfold unique_ids. intros Hu. rewrite upsert_parcel_ids.
  destruct (existsb (same_parcel (parcel_id e)) tbl) eqn:E; [exact Hu|].
  apply NoDup_app; [exact Hu | repeat constructor; simpl; tauto |].
  intros pid Hin [<-|[]].
  apply existsb_same_parcel in Hin. congruence.
Qed.

(** The upsert removes no row: every row is still there under its
    [parcel_id], with its [created_at]. *)
Lemma upsert_parcel_keeps (now : Z) (e old : parcel_row) (tbl : list parcel_row) :
  In old tbl ->
  exists new, In new (upsert_parcel now e tbl) /\
              parcel_id new = parcel_id old /\
              created_at new = created_at old.
Proof.
  intros Hin. unfold upsert_parcel.
  destruct (existsb (same_parcel (parcel_id e)) tbl).
  - exists (if same_parcel (parcel_id e) old then do_update old e now else old).
    split.
    + apply (in_map (fun r => if same_parcel (parcel_id e) r
                              then do_update r e now else r)). exact Hin.
    + destruct (same_parcel (parcel_id e) old); split; reflexivity.
  - exists old. split; [apply in_or_app; left; exact Hin|split; reflexivity].
Qed.

(** After the upsert of a row stamped [now], a row with its [parcel_id]
    holds its values and the time of the statement. *)
Lemma upsert_parcel_row (now : Z) (e : parcel_row) (tbl : list parcel_row) :
  updated_at e = now ->
  exists row, In row (upsert_parcel now e tbl) /\
              parcel_id row = parcel_id e /\
              reflects row e /\ updated_at row = now.
Proof.
  intros Hstamp. unfold upsert_parcel.
  destruct (existsb (same_parcel (parcel_id e)) tbl) eqn:E.
  - apply existsb_exists in E. destruct E as [old [Hin Hs]].
    exists (do_update old e now). split.
    + apply in_map_iff. exists old. rewrite Hs. split; [reflexivity|exact Hin].
    + split; [apply same_parcel_spec; exact Hs|].
      split; [repeat split|reflexivity].
  - exists e. split; [apply in_or_app; right; left; reflexivity|].
    split; [reflexivity|]. split; [repeat split|exact Hstamp].
Qed.

(** In a table with unique identifiers a row is the only one under its
    identifier. *)
Lemma filter_unique (tbl : list parcel_row) (row : parcel_row) :
  unique_ids tbl -> In row tbl ->
  filter (same_parcel (parcel_id row)) tbl = [row].
Proof.
  unfold unique_ids. induction tbl as [|r tbl IH]; intros Hu Hin; [destruct Hin|].
  simpl in Hu. inversion Hu as [|? ? Hnotin Hu']; subst.
  assert (Hnone : forall pid, ~ In pid (map parcel_id tbl) ->
                  filter (same_parcel pid) tbl = []).
  { intros pid Hn. clear -Hn. induction tbl as [|x tbl IH]; [reflexivity|].
    simpl. destruct (same_parcel pid x) eqn:E.
    - exfalso. apply Hn. left. apply same_parcel_spec. exact E.
    - apply IH. intros Hc. apply Hn. right. exact Hc. }
  simpl. destruct Hin as [->|Hin].
  - assert (same_parcel (parcel_id row) row = true) as ->
      by (apply same_parcel_spec; reflexivity).
    rewrite (Hnone _ Hnotin). reflexivity.
  - destruct (same_parcel (parcel_id row) r) eqn:E.
    + exfalso. apply Hnotin. apply same_parcel_spec in E. rewrite E.
      apply in_map. exact Hin.
    + apply IH; assumption.
Qed.

Lemma excluded_row_stamps `{PostGIS} (now : Z) (params : list json)
    (e : parcel_row) :
  excluded_row now params = Some e ->
  created_at e = now /\ updated_at e = now.
Proof.
  unfold excluded_row. intros E.
  do 11 (destruct params as [|? params]; [discriminate E|]).
  destruct params; [|discriminate E].
  repeat match type of E with
         | obind ?m _ = _ => destruct m; simpl in E; [|discriminate E]
         end.
  injection E as <-. split; reflexivity.
Qed.

(** The identifier of the row a call binds depends on the record's
    [parcel_id] only. *)
Lemma excluded_row_key `{PostGIS} (now : Z) (p : dict) (e : parcel_row) :
  excluded_row now (insert_params p) = Some e ->
  not_null (bind_text (Some 50%nat) (dict_get p "parcel_id" JNull))
  = Some (parcel_id e).
Proof.
  unfold excluded_row, insert_params. intros E.
  destruct (not_null (bind_text (Some 50%nat) (dict_get p "parcel_id" JNull)));
    simpl in E; [|discriminate E].
  repeat match type of E with
         | obind ?m _ = _ => destruct m; simpl in E; [|discriminate E]
         end.
  injection E as <-. reflexivity.
Qed.

Section Upsert.
Context `{PostGIS}.
Variable env : nat -> call_env.

(** A call that returns true has bound its row and upserted it. *)
Lemma insert_parcel_data_true (p : dict) (st : state) :
  snd (insert_parcel_data env p st) = true ->
  exists e,
    excluded_row (now (env (calls st))) (insert_params p) = Some e /\
    parcels (store (fst (insert_parcel_data env p st)))
    = upsert_parcel (now (env (calls st))) e (parcels (store st)).
Proof.
  unfold insert_parcel_data, execute_query, rolled_back.
  destruct (negb (conn st) && negb (connect_ok (env (calls st))));
    [discriminate|].
  destruct (server_ok (env (calls st)));
    [|destruct (rollback_ok _); discriminate].
  unfold run.
  destruct (excluded_row (now (env (calls st))) (insert_params p)) as [e|];
    [|destruct (rollback_ok _); discriminate].
  intros _. exists e. split; reflexivity.
Qed.

Lemma insert_parcel_data_calls (p : dict) (st : state) :
  calls (fst (insert_parcel_data env p st)) = S (calls st).
Proof.
  unfold insert_parcel_data, execute_query.
  destruct (negb (conn st) && negb (connect_ok (env (calls st))));
    [reflexivity|].
  destruct (server_ok (env (calls st))); [|reflexivity].
  destruct (run (now (env (calls st))) (InsertParcel (insert_params p)) (store st))
    as [[t a]|]; reflexivity.
Qed.

(** Every call keeps [parcel_id] unique. *)
Lemma insert_parcel_data_unique (p : dict) (st : state) :
  unique_ids (parcels (store st)) ->
  unique_ids (parcels (store (fst (insert_parcel_data env p st)))).
Proof.
  intros Hu.
  destruct (snd (insert_parcel_data env p st)) eqn:E.
  - destruct (insert_parcel_data_true p st E) as [e [_ ->]].
    apply upsert_parcel_unique. exact Hu.
  - rewrite (insert_parcel_data_false_store env p st E). exact Hu.
Qed.

(** No statement removes a parcel. *)
Lemma execute_query_keeps (q : statement) (st : state) (old : parcel_row) :
  In old (parcels (store st)) ->
  exists new, In new (parcels (store (fst (execute_query env q st)))) /\
              parcel_id new = parcel_id old /\
              created_at new = created_at old.
Proof.
  intros Hin. unfold execute_query.
  assert (Hsame : exists new, In new (parcels (store st)) /\
                    parcel_id new = parcel_id old /\
                    created_at new = created_at old)
    by (exists old; auto).
  destruct (negb (conn st) && negb (connect_ok (env (calls st)))); [exact Hsame|].
  destruct (server_ok (env (calls st))); [|exact Hsame].
  destruct q as [params|params|w params]; unfold run.
  - destruct (excluded_row (now (env (calls st))) params) as [e|]; [|exact Hsame].
    cbn [fst store parcels]. apply upsert_parcel_keeps. exact Hin.
  - destruct (excluded_zoning params); exact Hsame.
  - destruct (select_parcels w params (parcels (store st))); exact Hsame.
Qed.

Lemma insert_parcel_data_keeps (p : dict) (st : state) (old : parcel_row) :
  In old (parcels (store st)) ->
  exists new, In new (parcels (store (fst (insert_parcel_data env p st)))) /\
              parcel_id new = parcel_id old /\
              created_at new = created_at old.
Proof.
  intros Hin. unfold insert_parcel_data.
  pose proof (execute_query_keeps (InsertParcel (insert_params p)) st old Hin) as Hk.
  destruct (execute_query env (InsertParcel (insert_params p)) st) as [st' r].
  exact Hk.
Qed.

End Upsert.

Lemma varchar_short (n : nat) (s : string) :
  (String.length s <= n)%nat -> varchar n s = Some s.
Proof.
  intros Hle. unfold varchar.
  destruct (Nat.leb_spec (String.length s) n); [reflexivity|lia].
Qed.

(** The row a call binds holds the values of the record, column by
    column. *)
Lemma excluded_row_columns `{PostGIS} (now : Z) (p : dict) (e : parcel_row) :
  excluded_row now (insert_params p) = Some e -> stored_as e p.
Proof.
  unfold excluded_row, insert_params, stored_as. intros E.
  destruct (bind_text (Some 50%nat) (dict_get p "parcel_id" JNull))
    as [[pid|]|] eqn:B0; simpl in E; try discriminate E.
  repeat match type of E with
         | obind ?m _ = _ =>
             let B := fresh "B" in
             destruct m eqn:B; simpl in E; [|discriminate E]
         end.
  injection E as <-. simpl. repeat split; reflexivity.
Qed.

Lemma stored_as_reflects `{PostGIS} (row e : parcel_row) (p : dict) :
  parcel_id row = parcel_id e -> reflects row e ->
  stored_as e p -> stored_as row p.
Proof.
  unfold stored_as, reflects.
  intros -> (-> & -> & -> & -> & -> & -> & -> & -> & -> & ->) Hs. exact Hs.
Qed.

(** A record whose geometry is a decoded object is refused, whatever the
    server and the connection do: the statement never reaches the table. *)
Lemma decoded_geometry_is_refused `{PostGIS} (env : nat -> call_env)
    (p g : dict) (st : state) :
  dict_get p "geometry" JNull = JObj g ->
  snd (insert_parcel_data env p st) = false
  /\ store (fst (insert_parcel_data env p st)) = store st.
Proof.
  intros Hg.
  assert (Hfalse : snd (insert_parcel_data env p st) = false).
  { destruct (snd (insert_parcel_data env p st)) eqn:E; [|reflexivity].
    destruct (insert_parcel_data_true env p st E) as [e [He _]].
    apply excluded_row_columns in He.
    destruct He as (_ & _ & _ & _ & _ & _ & _ & _ & _ & _ & Hb).
    rewrite Hg in Hb. discriminate Hb. }
  split; [exact Hfalse|].
  apply insert_parcel_data_false_store. exact Hfalse.
Qed.

(** Where the driver binds the record.  Two calls of [insert_parcel_data]
    with the same [parcel_id], the second returning true, on a table whose
    identifiers are unique: exactly one row is stored under the identifier;
    its columns hold the values of the second record, each as its column
    type takes it; its [updated_at] is the time of the second call, and its
    [created_at] is still that of the row the first call left when it
    succeeded.  No statement removes a row: every parcel stored before is
    stored after, under its identifier. *)
Lemma upsert_twice_keeps_second `{PostGIS} (env : nat -> call_env)
    (st : state) (p1 p2 : dict)
    (Huniq : unique_ids (parcels (store st)))
    (Hsame : dict_get p1 "parcel_id" JNull = dict_get p2 "parcel_id" JNull)
    (Hok : snd (insert_parcel_data env p2
                  (fst (insert_parcel_data env p1 st))) = true) :
  let st1 := fst (insert_parcel_data env p1 st) in
  let st2 := fst (insert_parcel_data env p2 st1) in
  let now2 := now (env (S (calls st))) in
  exists e2 row,
    excluded_row now2 (insert_params p2) = Some e2
    /\ (forall pid, dict_get p2 "parcel_id" JNull = JStr pid ->
                    (String.length pid <= 50)%nat -> parcel_id e2 = pid)
    /\ filter (same_parcel (parcel_id e2)) (parcels (store st2)) = [row]
    /\ reflects row e2
    /\ stored_as row p2
    /\ updated_at row = now2
    /\ (snd (insert_parcel_data env p1 st) = true ->
        exists row1,
          filter (same_parcel (parcel_id e2)) (parcels (store st1)) = [row1]
          /\ created_at row = created_at row1)
    /\ (forall old, In old (parcels (store st)) ->
        exists new, In new (parcels (store st2)) /\
                    parcel_id new = parcel_id old /\
                    created_at new = created_at old)
    /\ (forall q s old, In old (parcels (store s)) ->
        exists new, In new (parcels (store (fst (execute_query env q s)))) /\
                    parcel_id new = parcel_id old /\
                    created_at new = created_at old).
Proof.
  intros st1 st2 now2.
  assert (Hcalls : calls st1 = S (calls st))
    by apply insert_parcel_data_calls.
  assert (Hu1 : unique_ids (parcels (store st1)))
    by (apply insert_parcel_data_unique; exact Huniq).
  assert (Hu2 : unique_ids (parcels (store st2)))
    by (apply insert_parcel_data_unique; exact Hu1).
  destruct (insert_parcel_data_true env p2 st1 Hok) as [e2 [Ee2 Hstore2]].
  rewrite Hcalls in Ee2, Hstore2. fold st2 in Hstore2. fold now2 in Ee2, Hstore2.
  destruct (excluded_row_stamps _ _ _ Ee2) as [_ Hstamp].
  destruct (upsert_parcel_row now2 e2 (parcels (store st1)) Hstamp)
    as (row & Hin & Hpid & Hrefl & Hupd).
  rewrite <- Hstore2 in Hin.
  assert (Hfilter : filter (same_parcel (parcel_id e2)) (parcels (store st2)) = [row])
    by (rewrite <- Hpid; apply filter_unique; assumption).
  exists e2, row.
  split; [exact Ee2|].
  split.
  { intros pid Hid Hlen. apply excluded_row_key in Ee2.
    rewrite Hid in Ee2. simpl in Ee2. rewrite (varchar_short _ _ Hlen) in Ee2.
    simpl in Ee2. congruence. }
  split; [exact Hfilter|].
  split; [exact Hrefl|].
  split; [exact (stored_as_reflects row e2 p2 Hpid Hrefl
                   (excluded_row_columns _ _ _ Ee2))|].
  split; [exact Hupd|].
  split.
  { intros Hok1.
    destruct (insert_parcel_data_true env p1 st Hok1) as [e1 [Ee1 Hstore1]].
    fold st1 in Hstore1.
    destruct (excluded_row_stamps _ _ _ Ee1) as [_ Hstamp1].
    destruct (upsert_parcel_row _ e1 (parcels (store st)) Hstamp1)
      as (row1 & Hin1 & Hpid1 & _ & _).
    rewrite <- Hstore1 in Hin1.
    assert (Hkey : parcel_id e1 = parcel_id e2).
    { apply excluded_row_key in Ee1. apply excluded_row_key in Ee2.
      rewrite Hsame in Ee1. congruence. }
    exists row1. split.
    - rewrite <- Hkey, <- Hpid1. apply filter_unique; assumption.
    - destruct (insert_parcel_data_keeps env p2 st1 row1 Hin1)
        as (new & Hnew & Hnpid & Hncreated).
      fold st2 in Hnew.
      assert (Hnf : In new (filter (same_parcel (parcel_id e2)) (parcels (store st2)))).
      { apply filter_In. split; [exact Hnew|].
        apply same_parcel_spec. congruence. }
      rewrite Hfilter in Hnf. destruct Hnf as [->|[]]. exact Hncreated. }
  split.
  { intros old Hold.
    destruct (insert_parcel_data_keeps env p1 st old Hold)
      as (mid & Hmid & Hmpid & Hmcreated).
    destruct (insert_parcel_data_keeps env p2 st1 mid Hmid)
      as (new & Hnew & Hnpid & Hncreated).
    exists new. split; [exact Hnew|]. split; congruence. }
  intros q s old Hold. apply execute_query_keeps. exact Hold.
Qed.

(** The lemma above at the empty store: parcel P7 is stored at call 0
    without a geometry and again at call 1, every attribute changed, with
    the unit square as text. *)
Lemma upsert_twice_keeps_second_witness :
  exists row,
    filter (same_parcel "P7")
      (parcels (store (fst
         (@insert_parcel_data Sample.polygons_only Sample.fair_weather
            (Sample.p7_second (JStr Sample.unit_square_text))
            (fst (@insert_parcel_data Sample.polygons_only
                    Sample.fair_weather (Sample.p7_first JNull) initial))))))
    = [row]
    /\ @stored_as Sample.polygons_only row
         (Sample.p7_second (JStr Sample.unit_square_text))
    /\ updated_at row = 1%Z.
Proof.
  destruct (@upsert_twice_keeps_second Sample.polygons_only Sample.fair_weather
    initial (Sample.p7_first JNull)
    (Sample.p7_second (JStr Sample.unit_square_text))
    (NoDup_nil _) eq_refl eq_refl)
    as (e2 & row & He2 & Hkey & Hfilter & Hrefl & Hcols & Hupd & _).
  exists row.
  assert (Hlen : (String.length "P7" <= 50)%nat) by (simpl; lia).
  rewrite (Hkey "P7" eq_refl Hlen) in Hfilter.
  split; [exact Hfilter|]. split; [exact Hcols | exact Hupd].
Defined.

(** C7, at a parcel with a decoded geometry.  Parcel P7 is upserted
    twice, every attribute changed, each time with the unit square as the
    normaliser hands it over: a decoded GeoJSON object.  On every server
    and whatever the connection does, both calls return false and no row
    is stored under P7, where the claim has exactly one.
    [insert_parcel_data] passes the object to the driver as it is; under
    [ST_GeomFromGeoJSON(%s)] the driver can bind a text only.  With
    the same square as text in the second call, and no geometry in the
    first, both calls return true and the one row under P7 holds the
    values of the second call, stamped with its time and created at the
    time of the first. *)
Theorem upsert_refuses_decoded_geometry `{PostGIS} (env : nat -> call_env) :
  let first := Sample.p7_first Sample.unit_square in
  let second := Sample.p7_second Sample.unit_square in
  let st1 := fst (insert_parcel_data env first initial) in
  let st2 := fst (insert_parcel_data env second st1) in
  let text1 := fst (@insert_parcel_data Sample.polygons_only
                      Sample.fair_weather (Sample.p7_first JNull) initial) in
  let text2 := @insert_parcel_data Sample.polygons_only Sample.fair_weather
                 (Sample.p7_second (JStr Sample.unit_square_text)) text1 in
  snd (insert_parcel_data env first initial) = false
  /\ snd (insert_parcel_data env second st1) = false
  /\ parcels (store st2) = []
  /\ snd text2 = true
  /\ parcels (store (fst text2))
     = [ {| parcel_id := "P7"; address := Some "2 Elm St";
            owner_name := Some "Ann Lee"; owner_address := Some "PO Box 2";
            acres := Some (35000 # 10000); zoning_code := Some "C-1";
            land_use := Some "Commercial"; road_frontage := Some 250%Z;
            slope_percent := Some (150 # 100);
            utilities := Some [Some "Water"; Some "Sewer"];
            geometry := Some (JStr Sample.unit_square_text);
            created_at := 0; updated_at := 1 |} ].
Proof.
  intros first second st1 st2 text1 text2.
  destruct (decoded_geometry_is_refused env first
              [ ("type", JStr "Polygon");
                ("coordinates",
                 JArr [ JArr [ JArr [JNum 0; JNum 0]; JArr [JNum 1; JNum 0];
                               JArr [JNum 1; JNum 1]; JArr [JNum 0; JNum 1];
                               JArr [JNum 0; JNum 0] ] ]) ]
              initial eq_refl) as [Hf1 Hs1].
  destruct (decoded_geometry_is_refused env second
              [ ("type", JStr "Polygon");
                ("coordinates",
                 JArr [ JArr [ JArr [JNum 0; JNum 0]; JArr [JNum 1; JNum 0];
                               JArr [JNum 1; JNum 1]; JArr [JNum 0; JNum 1];
                               JArr [JNum 0; JNum 0] ] ]) ]
              st1 eq_refl) as [Hf2 Hs2].
  split; [exact Hf1|]. split; [exact Hf2|].
  split; [unfold st2; rewrite Hs2; unfold st1; rewrite Hs1; reflexivity|].
  split; reflexivity.
Qed.

(** ** Ordering and the row limit *)



Lemma insert_desc_perm (r : parcel_row) (l : list parcel_row) :
  Permutation (insert_desc r l) (r :: l).
Proof.
  induction l as [|x l IH]; simpl; [reflexivity|].
  destruct (acres_ge (acres r) (acres x)); [reflexivity|].
  rewrite IH. apply perm_swap.
Qed.

Lemma order_by_acres_desc_perm (l : list parcel_row) :
  Permutation (order_by_acres_desc l) l.
Proof.
  induction l as [|x l IH]; simpl; [reflexivity|].
  rewrite insert_desc_perm. apply perm_skip. exact IH.
Qed.



Lemma In_firstn {A : Type} (n : nat) (l : list A) (x : A) :
  In x (firstn n l) -> In x l.
Proof.
  revert n. induction l as [|y l IH]; intros [|n]; simpl; try tauto.
  intros [->|Hx]; [left; reflexivity | right; exact (IH n Hx)].
Qed.



(** ** Search *)

Section Search.
Context `{PostGIS}.
Variable env : nat -> call_env.

(** What a search that returns rows has done. *)
Lemma search_parcels_rows (criteria : dict) (st st' : state)
    (rows : list summary) :
  search_parcels env criteria st = Ok (st', Some rows) ->
  exists wc ps p,
    search_conditions criteria = Ok (wc, ps) /\
    parse_where (where_clause_of wc) ps = Some p /\
    well_typed p = true /\
    rows = map select_list
             (firstn row_limit
                (order_by_acres_desc
                   (filter (fun r => is_TT (holds p r)) (parcels (store st))))).
Proof.
  unfold search_parcels.
  destruct (search_conditions criteria) as [[wc ps]|e]; [|discriminate].
  rewrite bind_Ok. cbn [fst snd]. unfold execute_query, rolled_back.
  destruct (negb (conn st) && negb (connect_ok (env (calls st))));
    [discriminate|].
  destruct (server_ok (env (calls st)));
    [|destruct (rollback_ok _); discriminate].
  unfold run, select_parcels.
  destruct (parse_where (where_clause_of wc) ps) as [p|] eqn:Hp;
    [|destruct (rollback_ok _); discriminate].
  destruct (well_typed p) eqn:Hwt;
    [|destruct (rollback_ok _); discriminate].
  intros [= _ <-]. exists wc, ps, p. repeat split; auto.
Qed.

(** The search carried out by an available server. *)
Lemma search_parcels_available (criteria : dict) (st : state)
    (wc : list string) (ps : list json) (p : pred) :
  available env st ->
  search_conditions criteria = Ok (wc, ps) ->
  parse_where (where_clause_of wc) ps = Some p ->
  well_typed p = true ->
  search_parcels env criteria st
  = Ok ({| conn := true; calls := S (calls st); store := store st |},
        Some (map select_list
                (firstn row_limit
                   (order_by_acres_desc
                      (filter (fun r => is_TT (holds p r))
                              (parcels (store st))))))).
Proof.
  unfold available, search_parcels. intros Hav -> Hp Hwt.
  rewrite bind_Ok. cbn [fst snd]. unfold execute_query.
  apply andb_true_iff in Hav. destruct Hav as [Hc Hs].
  replace (negb (conn st) && negb (connect_ok (env (calls st)))) with false.
  2:{ symmetry. rewrite <- negb_orb, Hc. reflexivity. }
  rewrite Hs. unfold run, select_parcels. rewrite Hp, Hwt. reflexivity.
Qed.




End Search.


(** ** Acreage bounds *)

Lemma holds_acres_ge (X : Q) (r : parcel_row) :
  holds (PCmp "acres" Ge (JNum X)) r = TT ->
  exists a, acres r = Some a /\ X <= a.
Proof.
  change (holds (PCmp "acres" Ge (JNum X)) r)
    with (holds_num Ge (acres r) (JNum X)).
  destruct (acres r) as [a|]; simpl; [|discriminate].
  destruct (Qle_bool X a) eqn:E; [|discriminate].
  intros _. exists a. split; [reflexivity|]. apply Qle_bool_iff. exact E.
Qed.

Lemma holds_acres_le (Y : Q) (r : parcel_row) :
  holds (PCmp "acres" Le (JNum Y)) r = TT ->
  exists a, acres r = Some a /\ a <= Y.
Proof.
  change (holds (PCmp "acres" Le (JNum Y)) r)
    with (holds_num Le (acres r) (JNum Y)).
  destruct (acres r) as [a|]; simpl; [|discriminate].
  destruct (Qle_bool a Y) eqn:E; [|discriminate].
  intros _. exists a. split; [reflexivity|]. apply Qle_bool_iff. exact E.
Qed.

Lemma truthy_num (q : Q) : ~ q == 0 -> truthy (JNum q) = true.
Proof.
  intros Hne. simpl. destruct (Qeq_bool q 0) eqn:E; [|reflexivity].
  apply Qeq_bool_iff in E. contradiction.
Qed.

Lemma is_TT_holds_and (a b : pred) (r : parcel_row) :
  is_TT (holds (PAnd a b) r) = is_TT (holds a r) && is_TT (holds b r).
Proof. simpl. destruct (holds a r), (holds b r); reflexivity. Qed.

Lemma is_TT_holds_or (a b : pred) (r : parcel_row) :
  is_TT (holds (POr a b) r) = is_TT (holds a r) || is_TT (holds b r).
Proof. simpl. destruct (holds a r), (holds b r); reflexivity. Qed.

Lemma is_TT_true (t : tri) : is_TT t = true -> t = TT.
Proof. destruct t; simpl; intros E; try discriminate E; reflexivity. Qed.

(** One combination of keys: build the clause, read it, compare. *)
Ltac one_clause :=
  cbn -[holds is_TT parse_where where_clause_of];
  let Hc := fresh "Hc" in
  let Hp := fresh "Hp" in
  intros Hc Hp; try discriminate Hc; injection Hc as <- <-;
  vm_compute in Hp; try discriminate Hp; injection Hp as <-;
  repeat (rewrite is_TT_holds_and || rewrite is_TT_holds_or);
  rewrite ?andb_true_r, ?andb_assoc;
  reflexivity.

(** What the clause of a search means, for every combination of keys.
    Without [vacant_only] it is the conjunction of the conditions of the
    keys that are set.  With [vacant_only] the [OR] of its text splits the
    clause: a row passes when it meets the conditions before it and has a
    NULL owner name, or has an empty owner name and meets the conditions
    after it. *)
Lemma where_clause_meaning (criteria : dict) (wc : list string)
    (ps : list json) (p : pred) :
  search_conditions criteria = Ok (wc, ps) ->
  parse_where (where_clause_of wc) ps = Some p ->
  forall r,
    is_TT (holds p r) =
    if truthy (dict_get criteria "vacant_only" JNull)
    then (all_hold (conditions_before criteria) r
          && is_TT (holds (PIsNull "owner_name") r))
         || (is_TT (holds (PEmpty "owner_name") r)
             && all_hold (conditions_after criteria) r)
    else all_hold (conditions_before criteria ++ conditions_after criteria) r.
Proof.
  intros Hc Hp r. revert Hc Hp.
  unfold search_conditions, add_slope, add_condition, add_vacant,
    conditions_before, conditions_after, slope_condition, all_hold.
  generalize (dict_get criteria "min_acres" JNull) as mn.
  generalize (dict_get criteria "max_acres" JNull) as mx.
  generalize (dict_get criteria "zoning_type" JNull) as z.
  generalize (dict_get criteria "vacant_only" JNull) as v.
  generalize (dict_get criteria "road_frontage" JNull) as f.
  generalize (dict_get criteria "slope_range" JNull) as sl.
  intros sl f v z mx mn.
  destruct (truthy mn), (truthy mx), (truthy z), (truthy v), (truthy f);
    (destruct sl as [|b|q|s|items|d];
     [ one_clause
     | destruct b; one_clause
     | cbn [truthy]; destruct (Qeq_bool q 0); one_clause
     | destruct s as [|c1 [|c2 [|c3 s]]]; one_clause
     | destruct items as [|i1 [|i2 [|i3 items]]]; one_clause
     | destruct d as [|[k1 v1] [|[k2 v2] [|[k3 v3] d]]]; one_clause ]).
Qed.

(** With both bounds truthy and [vacant_only] not, the condition a search
    sends implies both bounds. *)
Lemma bounded_conditions (criteria : dict) (X Y : Q) (wc : list string)
    (ps : list json) (p : pred) :
  dict_get criteria "min_acres" JNull = JNum X -> truthy (JNum X) = true ->
  dict_get criteria "max_acres" JNull = JNum Y -> truthy (JNum Y) = true ->
  truthy (dict_get criteria "vacant_only" JNull) = false ->
  search_conditions criteria = Ok (wc, ps) ->
  parse_where (where_clause_of wc) ps = Some p ->
  forall r, is_TT (holds p r) = true ->
    holds (PCmp "acres" Ge (JNum X)) r = TT /\
    holds (PCmp "acres" Le (JNum Y)) r = TT.
Proof.
  intros Hmin HX Hmax HY Hvac Hc Hp r Hr.
  rewrite (where_clause_meaning criteria wc ps p Hc Hp r), Hvac in Hr.
  unfold conditions_before in Hr. rewrite Hmin, HX, Hmax, HY in Hr.
  cbn [app all_hold forallb] in Hr.
  apply andb_true_iff in Hr. destruct Hr as [Hge Hr].
  apply andb_true_iff in Hr. destruct Hr as [Hle _].
  split; apply is_TT_true; assumption.
Qed.

(** C6, as amended.  When [min_acres] and [max_acres] are set to numbers
    X and Y other than zero and [vacant_only] is not set to a truthy value,
    every row a search returns has an acreage between X and Y.  (A bound of
    zero is read as no bound.) *)
Theorem acreage_bounds_hold `{PostGIS} (env : nat -> call_env)
    (criteria : dict) (X Y : Q) (st st' : state) (rows : list summary)
    (Hmin : dict_find "min_acres" criteria = Some (JNum X))
    (HX : ~ X == 0)
    (Hmax : dict_find "max_acres" criteria = Some (JNum Y))
    (HY : ~ Y == 0)
    (Hvac : truthy (dict_get criteria "vacant_only" JNull) = false)
    (Hsearch : search_parcels env criteria st = Ok (st', Some rows)) :
  forall r, In r rows ->
    exists a, s_acres r = Some a /\ X <= a /\ a <= Y.
Proof.
  intros r Hin.
  destruct (search_parcels_rows env _ _ _ _ Hsearch)
    as (wc & ps & p & Hc & Hp & _ & ->).
  apply in_map_iff in Hin. destruct Hin as [x [<- Hx]].
  apply In_firstn in Hx.
  apply (Permutation_in _ (order_by_acres_desc_perm _)) in Hx.
  apply filter_In in Hx. destruct Hx as [_ Hholds].
  destruct (bounded_conditions criteria X Y wc ps p
              (dict_get_found _ _ _ _ Hmin) (truthy_num X HX)
              (dict_get_found _ _ _ _ Hmax) (truthy_num Y HY)
              Hvac Hc Hp x Hholds) as [Hge Hle].
  destruct (holds_acres_ge X x Hge) as [a [Ea Ha]].
  destruct (holds_acres_le Y x Hle) as [a' [Ea' Ha']].
  exists a. cbn [select_list s_acres].
  rewrite Ea in Ea'. injection Ea' as <-. auto.
Qed.

(** C6 at a search for 2 to 10 acres in commercial zoning over three
    parcels: the one returned has 7 acres. *)
Lemma acreage_bounds_hold_witness :
  exists a,
    s_acres (select_list (Sample.row_of "B" (Some "x") (Some 7))) = Some a
    /\ 2 <= a /\ a <= 10.
Proof.
  refine (@acreage_bounds_hold Sample.polygons_only Sample.fair_weather
    [ ("min_acres", JNum 2); ("max_acres", JNum 10) ] 2 10
    (Sample.state_of
       [ Sample.row_of "A" (Some "") (Some 1);
         Sample.row_of "B" (Some "x") (Some 7);
         Sample.row_of "C" None (Some 90) ])
    _ _ eq_refl _ eq_refl _ eq_refl eq_refl
    (select_list (Sample.row_of "B" (Some "x") (Some 7)))
    (or_introl eq_refl)); intros E; discriminate E.
Defined.

(** C6, as stated, fails: with [min_acres = 0] and [max_acres = 0] no
    condition is sent, and a parcel of 5 acres is returned. *)
Lemma zero_bounds_are_no_bounds :
  ~ (forall (criteria : dict) (X Y : Q) (st st' : state) (rows : list summary),
       dict_find "min_acres" criteria = Some (JNum X) ->
       dict_find "max_acres" criteria = Some (JNum Y) ->
       X <= Y ->
       @search_parcels Sample.polygons_only Sample.fair_weather criteria st
       = Ok (st', Some rows) ->
       forall r, In r rows ->
         exists a, s_acres r = Some a /\ X <= a /\ a <= Y).
Proof.
  intros Hall.
  destruct (Hall [ ("min_acres", JNum 0); ("max_acres", JNum 0) ] 0 0
              (Sample.state_of [ Sample.row_of "A" None (Some 5) ])
              _ _ eq_refl eq_refl (Qle_refl 0) eq_refl
              (select_list (Sample.row_of "A" None (Some 5)))
              (or_introl eq_refl)) as [a [Ea [_ Hle]]].
  injection Ea as <-. revert Hle. unfold Qle. simpl. lia.
Qed.

(** ** The vacant-only condition *)

(** C1, at the failing input.  For [{min_acres: 5, vacant_only: true}] the
    clause sent is [acres >= %s AND owner_name IS NULL OR owner_name = ''];
    [AND] binds tighter than [OR], so a parcel of 1 acre whose owner name
    is empty is returned although [acres >= 5] is false of it. *)
Theorem vacant_only_escapes_conjunction :
  search_conditions [ ("min_acres", JNum 5); ("vacant_only", JBool true) ]
  = Ok ([ "acres >= %s"; "owner_name IS NULL OR owner_name = ''" ], [JNum 5])
  /\ where_clause_of [ "acres >= %s"; "owner_name IS NULL OR owner_name = ''" ]
     = "acres >= %s AND owner_name IS NULL OR owner_name = ''"
  /\ parse_where "acres >= %s AND owner_name IS NULL OR owner_name = ''" [JNum 5]
     = Some (POr (PAnd (PCmp "acres" Ge (JNum 5)) (PIsNull "owner_name"))
                 (PEmpty "owner_name"))
  /\ @search_parcels Sample.polygons_only Sample.fair_weather
       [ ("min_acres", JNum 5); ("vacant_only", JBool true) ]
       (Sample.state_of [ Sample.row_of "A" (Some "") (Some 1) ])
     = Ok ({| conn := true; calls := 1;
              store := store (Sample.state_of
                                [ Sample.row_of "A" (Some "") (Some 1) ]) |},
           Some [ select_list (Sample.row_of "A" (Some "") (Some 1)) ])
  /\ holds (PCmp "acres" Ge (JNum 5)) (Sample.row_of "A" (Some "") (Some 1)) = FF.
Proof. repeat split; reflexivity. Qed.

(** ** End to end *)

(** The record of a feature that carries its attributes under [ADDRESS],
    [ACRES] and [ZONING] only: none of the three is read. *)
Lemma uppercase_keys_not_read `{PyNum} (pid address zoning_text : string)
    (acreage : Q) (geometry : json) :
  truthy (JStr pid) = true -> truthy geometry = true ->
  process_feature
    (Sample.feature_of [ ("PID", JStr pid); ("ACRES", JNum acreage);
                         ("ZONING", JStr zoning_text);
                         ("ADDRESS", JStr address) ] geometry)
  = Ok (Some [ ("parcel_id", JStr pid);
               ("address", JNull);
               ("owner_name", JStr "");
               ("owner_address", JNull);
               ("acres", JNull);
               ("zoning_code", JNull);
               ("land_use", JStr "Mixed Use");
               ("road_frontage", json_of_int (_calculate_road_frontage geometry));
               ("slope_percent", JNull);
               ("utilities", JArr [JStr "Water"; JStr "Sewer"; JStr "Electric"]);
               ("geometry", geometry) ]).
Proof.
  intros Hpid Hg. unfold Sample.feature_of.
  rewrite (process_feature_bag
             [ ("type", JStr "Feature");
               ("properties", JObj [ ("PID", JStr pid); ("ACRES", JNum acreage);
                                     ("ZONING", JStr zoning_text);
                                     ("ADDRESS", JStr address) ]);
               ("geometry", geometry) ]
             [ ("PID", JStr pid); ("ACRES", JNum acreage);
               ("ZONING", JStr zoning_text); ("ADDRESS", JStr address) ]
             eq_refl).
  cbv zeta.
  change (dict_get _ "geometry" JNull) with geometry.
  rewrite Hg. cbn [negb].
  change (dict_get _ "PID" JNull) with (JStr pid).
  change (_combine_owner_names _) with (@Ok string "").
  change (_parse_acres _) with (@Ok (option Q) None).
  change (_determine_land_use _) with (@Ok string "Mixed Use").
  rewrite !bind_Ok, Hpid. cbv iota. rewrite Hpid. reflexivity.
Qed.

(** C2, at its own input.  The vacant-land service sends the one feature
    [{PID: "P001", ACRES: 5.2, ZONING: "R-3", ADDRESS: "123 Main St"}] over
    the unit square.  Its record has no address, acreage or zoning code and
    the land use Mixed Use; the driver cannot bind the decoded geometry, so
    on every server the table stays empty; the search for
    [zoning_type = "R-3"] returns no row.  With the geometry sent as
    GeoJSON text the run stores P001, with no address, acreage or zoning
    code and with land use Mixed Use, and the search still returns no
    row. *)
Theorem end_to_end_search_misses_parcel `{PostGIS} :
  let web := {| parcel_lookup := Body (Sample.collection_of []);
                vacant_land := Body (Sample.collection_of [Sample.p001]);
                zoning := Body (Sample.collection_of []) |} in
  let run := @import_all_data Sample.fixed_point _
               Sample.fair_weather web initial in
  let web_text :=
    {| parcel_lookup := Body (Sample.collection_of []);
       vacant_land := Body (Sample.collection_of [Sample.p001_text]);
       zoning := Body (Sample.collection_of []) |} in
  let run_text := @import_all_data Sample.fixed_point Sample.polygons_only
                    Sample.fair_weather web_text initial in
  snd run = true
  /\ @process_parcel_data Sample.fixed_point
       (Sample.collection_of [Sample.p001])
     = Ok [ [ ("parcel_id", JStr "P001");
              ("address", JNull);
              ("owner_name", JStr "");
              ("owner_address", JNull);
              ("acres", JNull);
              ("zoning_code", JNull);
              ("land_use", JStr "Mixed Use");
              ("road_frontage", JNum 444000);
              ("slope_percent", JNull);
              ("utilities", JArr [JStr "Water"; JStr "Sewer"; JStr "Electric"]);
              ("geometry", Sample.unit_square) ] ]
  /\ parcels (store (fst run)) = []
  /\ search_parcels Sample.fair_weather
       [ ("zoning_type", JStr "R-3") ] (fst run)
     = Ok ({| conn := true; calls := 2; store := store (fst run) |}, Some [])
  /\ snd run_text = true
  /\ parcels (store (fst run_text))
     = [ {| parcel_id := "P001"; address := None; owner_name := Some "";
            owner_address := None; acres := None; zoning_code := None;
            land_use := Some "Mixed Use"; road_frontage := None;
            slope_percent := None;
            utilities := Some [Some "Water"; Some "Sewer"; Some "Electric"];
            geometry := Some (JStr Sample.unit_square_text);
            created_at := 0; updated_at := 0 |} ]
  /\ @search_parcels Sample.polygons_only Sample.fair_weather
       [ ("zoning_type", JStr "R-3") ] (fst run_text)
     = Ok ({| conn := true; calls := 2; store := store (fst run_text) |},
           Some []).
Proof. repeat split; reflexivity. Qed.

(* ================================================================== *)
(** * Further properties *)

(** ** The normaliser, feature by feature *)

(** A turn that appends a record has read a dict with a property bag. *)
Lemma process_feature_Some_dict `{PyNum} (feature : json) (p : dict) :
  process_feature feature = Ok (Some p) ->
  exists fields d,
    feature = JObj fields /\ dict_get fields "properties" (JObj []) = JObj d.
Proof.
  destruct feature as [| | | | |fields]; try discriminate.
  unfold process_feature.
  rewrite !py_get_dict, !bind_Ok.
  destruct (negb (truthy (dict_get fields "geometry" JNull))); [discriminate|].
  destruct (dict_get fields "properties" (JObj [])) as [| | | | |d] eqn:Hd;
    try discriminate.
  intros _. exists fields, d. split; [reflexivity | exact Hd].
Qed.

Lemma process_feature_default_bag `{PyNum} (fields d : dict) :
  dict_get fields "properties" (JObj []) = JObj d ->
  process_feature (JObj fields)
  = process_feature (JObj [ ("properties", JObj d);
                            ("geometry", dict_get fields "geometry" JNull) ]).
Proof.
  intros Hp. unfold process_feature.
  rewrite !py_get_dict, !bind_Ok, Hp. reflexivity.
Qed.

(** Whatever [_determine_land_use] returns is one of the five land uses. *)
Lemma determine_land_use_range (properties : json) (lu : string) :
  _determine_land_use properties = Ok lu -> In lu land_uses.
Proof.
  unfold _determine_land_use. intros E.
  apply bind_inv_Ok in E. destruct E as [zd [_ E]].
  apply bind_inv_Ok in E. destruct E as [zoning [_ E]].
  apply bind_inv_Ok in E. destruct E as [[|] [_ E]];
    [injection E as <-; simpl; tauto|].
  apply bind_inv_Ok in E. destruct E as [[|] [_ E]];
    [injection E as <-; simpl; tauto|].
  apply bind_inv_Ok in E. destruct E as [[|] [_ E]];
    [injection E as <-; simpl; tauto|].
  apply bind_inv_Ok in E. destruct E as [[|] [_ E]];
    injection E as <-; simpl; tauto.
Qed.

(** The shape of an appended record. *)
Lemma appended_record_shape `{PyNum} (feature : json) (p : dict)
    (Hrec : process_feature feature = Ok (Some p)) :
  truthy (dict_get p "parcel_id" JNull) = true /\
  truthy (dict_get p "geometry" JNull) = true /\
  py_get feature "geometry" JNull = Ok (dict_get p "geometry" JNull) /\
  (exists owner, dict_get p "owner_name" JNull = JStr owner) /\
  (exists lu, dict_get p "land_use" JNull = JStr lu /\ In lu land_uses) /\
  dict_get p "slope_percent" JNull = JNull /\
  dict_get p "utilities" JNull
    = JArr [JStr "Water"; JStr "Sewer"; JStr "Electric"] /\
  map fst p = record_keys.
Proof.
  destruct (process_feature_Some_dict feature p Hrec) as (fields & d & -> & Hd).
  rewrite (process_feature_default_bag fields d Hd) in Hrec.
  rewrite (process_feature_bag
             [ ("properties", JObj d);
               ("geometry", dict_get fields "geometry" JNull) ] d eq_refl)
    in Hrec.
  cbv zeta in Hrec.
  change (dict_get [("properties", JObj d);
                    ("geometry", dict_get fields "geometry" JNull)]
            "geometry" JNull)
    with (dict_get fields "geometry" JNull) in Hrec.
  rewrite py_get_dict.
  destruct (truthy (dict_get fields "geometry" JNull)) eqn:Hg;
    [|discriminate Hrec].
  cbn [negb] in Hrec.
  destruct (_combine_owner_names (JObj d)) as [owner|e]; [|discriminate Hrec].
  rewrite bind_Ok in Hrec.
  destruct (_parse_acres _) as [a|e]; [|discriminate Hrec].
  rewrite bind_Ok in Hrec.
  destruct (_determine_land_use (JObj d)) as [lu|e] eqn:Hlu;
    [|discriminate Hrec].
  rewrite bind_Ok in Hrec.
  rewrite andb_true_r in Hrec.
  match type of Hrec with
  | (if truthy ?v then _ else _) = _ => destruct (truthy v) eqn:Hid
  end; [|discriminate Hrec].
  injection Hrec as <-.
  split; [exact Hid|]. split; [exact Hg|]. split; [reflexivity|].
  split; [exists owner; reflexivity|].
  split; [exists lu; split;
            [reflexivity | exact (determine_land_use_range _ _ Hlu)]|].
  repeat split; reflexivity.
Qed.

(** X1.  Every record [process_parcel_data] appends has a truthy identifier
    and the feature's own truthy geometry, a string for owner name, one of
    the five land uses, no slope, the three default utilities, and exactly
    the eleven keys of the record, in order. *)
Theorem appended_record_is_valid `{PyNum} (feature : json) (p : dict)
    (Hrec : process_feature feature = Ok (Some p)) :
  truthy (dict_get p "parcel_id" JNull) = true /\
  truthy (dict_get p "geometry" JNull) = true /\
  py_get feature "geometry" JNull = Ok (dict_get p "geometry" JNull) /\
  (exists owner, dict_get p "owner_name" JNull = JStr owner) /\
  (exists lu, dict_get p "land_use" JNull = JStr lu /\ In lu land_uses) /\
  dict_get p "slope_percent" JNull = JNull /\
  dict_get p "utilities" JNull
    = JArr [JStr "Water"; JStr "Sewer"; JStr "Electric"] /\
  map fst p = record_keys.
Proof. exact (appended_record_shape feature p Hrec). Qed.

(** X1 at the feature of parcel P1 over the unit square. *)
Lemma appended_record_is_valid_witness :
  exists p,
    @process_feature Sample.fixed_point
      (Sample.feature_of [("PID", JStr "P1")] Sample.unit_square)
    = Ok (Some p)
    /\ map fst p = record_keys.
Proof.
  eexists. split; [reflexivity|].
  exact (proj2 (proj2 (proj2 (proj2 (proj2 (proj2 (proj2
    (@appended_record_is_valid Sample.fixed_point
       (Sample.feature_of [("PID", JStr "P1")] Sample.unit_square)
       _ eq_refl)))))))).
Defined.

(** X2.  Features are processed one by one and in order: the records of a
    list of features are the records of its first part followed by those of
    its second part, and there are never more records than features. *)
Theorem process_features_app `{PyNum} (before after : list json) :
  process_features (before ++ after)
  = process_features before ++ process_features after
  /\ (List.length (process_features before) <= List.length before)%nat.
Proof.
  split.
  - induction before as [|f before IH]; simpl; [reflexivity|].
    destruct (process_feature f) as [[p|]|e]; rewrite IH; reflexivity.
  - induction before as [|f before IH]; simpl; [lia|].
    destruct (process_feature f) as [[p|]|e]; simpl; lia.
Qed.

(** ** Owner names *)

Lemma lstrip_head (s : string) :
  match lstrip s with
  | EmptyString => True
  | String c _ => is_space c = false
  end.
Proof.
  induction s as [|c s IH]; simpl; [exact I|].
  destruct (is_space c) eqn:E; [exact IH | exact E].
Qed.

Lemma rstrip_cons (c : ascii) (s : string) :
  is_space c = false -> rstrip (String c s) = String c (rstrip s).
Proof.
  intros Hc. simpl. destruct (rstrip s); [rewrite Hc|]; reflexivity.
Qed.

Lemma rstrip_idem (s : string) : rstrip (rstrip s) = rstrip s.
Proof.
  induction s as [|c s IH]; [reflexivity|].
  simpl. destruct (rstrip s) as [|c' t] eqn:E.
  - destruct (is_space c) eqn:Hc; [reflexivity|].
    simpl. rewrite Hc. reflexivity.
  - change (rstrip (String c (String c' t))) with
      (match rstrip (String c' t) with
       | EmptyString => if is_space c then EmptyString else String c EmptyString
       | u => String c u
       end).
    rewrite IH. reflexivity.
Qed.

Lemma rstrip_app (x y : string) :
  rstrip y <> "" -> rstrip (x ++ y)%string = (x ++ rstrip y)%string.
Proof.
  intros Hy. induction x as [|c x IH]; [reflexivity|].
  simpl. rewrite IH.
  destruct (x ++ rstrip y)%string eqn:E; [|reflexivity].
  exfalso. destruct x; simpl in E; [contradiction | discriminate].
Qed.

(** A stripped string is its own strip, and starts with no space. *)
Lemma strip_fixed (s : string) :
  strip (strip s) = strip s
  /\ match strip s with
     | EmptyString => True
     | String c _ => is_space c = false
     end.
Proof.
  unfold strip. pose proof (lstrip_head s) as Hh.
  destruct (lstrip s) as [|c t]; [split; [reflexivity | exact I]|].
  rewrite (rstrip_cons c t Hh). split; [|exact Hh].
  simpl lstrip. rewrite Hh.
  rewrite (rstrip_cons c _ Hh), rstrip_idem. reflexivity.
Qed.

Lemma strip_rstrip (s : string) : rstrip (strip s) = strip s.
Proof. unfold strip. apply rstrip_idem. Qed.

Lemma string_app_assoc (x y z : string) :
  ((x ++ y) ++ z)%string = (x ++ (y ++ z))%string.
Proof. induction x as [|c x IH]; simpl; [reflexivity | rewrite IH; reflexivity]. Qed.

(** Two stripped, non-empty names joined by a space are stripped. *)
Lemma strip_joined (a b : string) :
  strip a <> "" -> strip b <> "" ->
  strip (strip a ++ " " ++ strip b) = (strip a ++ " " ++ strip b)%string.
Proof.
  intros Ha Hb. destruct (strip_fixed a) as [_ Hhead].
  destruct (strip a) as [|c t] eqn:Ea; [contradiction|].
  assert (Hl : lstrip (String c t ++ " " ++ strip b)
               = (String c t ++ " " ++ strip b)%string)
    by (simpl; rewrite Hhead; reflexivity).
  unfold strip at 1. rewrite Hl.
  rewrite <- string_app_assoc.
  rewrite rstrip_app; rewrite strip_rstrip; [reflexivity | exact Hb].
Qed.

Lemma strip_of_get (d : dict) (k : string) (s : string) :
  py_strip (dict_get d k (JStr "")) = Ok s ->
  (s = "" <-> blank d k).
Proof.
  unfold dict_get, blank.
  destruct (dict_find k d) as [v|].
  - destruct v; simpl; intros E; try discriminate E.
    injection E as <-. split.
    + intros Hs. right. eexists. split; [reflexivity | exact Hs].
    + intros [Hn | [s' [[= <-] Hs]]]; [discriminate Hn | exact Hs].
  - simpl. intros [= <-]. split; [left; reflexivity | reflexivity].
Qed.

(** X3.  The owner name [_combine_owner_names] returns carries no leading
    or trailing whitespace, and is empty exactly when both name keys are
    absent or hold whitespace only. *)
Theorem owner_name_is_stripped (d : dict) (owner : string)
    (Hret : _combine_owner_names (JObj d) = Ok owner) :
  strip owner = owner
  /\ (owner = "" <-> blank d "Owner_FirstName" /\ blank d "Owner_LastName").
Proof.
  unfold _combine_owner_names in Hret.
  rewrite py_get_dict, bind_Ok in Hret.
  apply bind_inv_Ok in Hret. destruct Hret as [f [Hf Hret]].
  rewrite py_get_dict, bind_Ok in Hret.
  apply bind_inv_Ok in Hret. destruct Hret as [l [Hl Hret]].
  pose proof (strip_of_get d _ f Hf) as Bf.
  pose proof (strip_of_get d _ l Hl) as Bl.
  assert (Sf : exists a, f = strip a).
  { destruct (dict_get d "Owner_FirstName" (JStr "")); simpl in Hf;
      try discriminate Hf. injection Hf as <-. eauto. }
  assert (Sl : exists b, l = strip b).
  { destruct (dict_get d "Owner_LastName" (JStr "")); simpl in Hl;
      try discriminate Hl. injection Hl as <-. eauto. }
  destruct Sf as [a ->]. destruct Sl as [b ->].
  destruct (String.eqb_spec (strip a) "") as [Ea|Ea];
    destruct (String.eqb_spec (strip b) "") as [Eb|Eb];
    cbn [negb andb] in Hret; injection Hret as <-.
  - split; [reflexivity|]. split; [intros _|reflexivity].
    split; [apply Bf | apply Bl]; assumption.
  - split; [apply strip_fixed|]. split.
    + intros E. contradiction.
    + intros [_ Hb]. apply Bl. exact Hb.
  - split; [apply strip_fixed|]. split.
    + intros E. contradiction.
    + intros [Ha _]. apply Bf. exact Ha.
  - split; [apply strip_joined; assumption|]. split.
    + intros E. destruct (strip a); [contradiction | discriminate E].
    + intros [Ha _]. exfalso. apply Ea. apply Bf. exact Ha.
Qed.

(** X3 at first name [" John "] and last name ["Doe"]. *)
Lemma owner_name_is_stripped_witness :
  strip "John Doe" = "John Doe".
Proof.
  exact (proj1 (owner_name_is_stripped
    [("Owner_FirstName", JStr " John "); ("Owner_LastName", JStr "Doe")]
    "John Doe" eq_refl)).
Defined.

(** ** When the land use is determined *)

Lemma py_any_in_searchable (codes : list string) (x : json) :
  searchable x -> exists b, py_any_in codes x = Ok b.
Proof.
  intros Hx. induction codes as [|c codes IH]; simpl; [eauto|].
  assert (exists b, py_in c x = Ok b) as [b ->]
    by (destruct x; simpl in *; try contradiction; eauto).
  rewrite bind_Ok. destruct b; [eauto | exact IH].
Qed.

Lemma py_any_in_unsearchable (c : string) (codes : list string) (x : json) :
  ~ searchable x -> py_any_in (c :: codes) x = Raise TypeError.
Proof.
  intros Hx. destruct x; simpl in *; try reflexivity; exfalso; apply Hx; exact I.
Qed.

(** X4.  [_determine_land_use] returns exactly when a truthy [ZoneDes] is a
    string, list or dict, or when [ZoneDes] is falsy and [zoning] is absent
    or a string; otherwise it raises (a number or [true] under [ZoneDes],
    a null or a non-string under [zoning]), and the caller drops the
    feature. *)
Theorem land_use_returns_iff (d : dict) :
  (exists lu, _determine_land_use (JObj d) = Ok lu) <->
  (truthy (dict_get d "ZoneDes" JNull) = true /\
   searchable (dict_get d "ZoneDes" JNull))
  \/ (truthy (dict_get d "ZoneDes" JNull) = false /\
      str_or_absent d "zoning").
Proof.
  unfold _determine_land_use. rewrite py_get_dict, bind_Ok. unfold py_or.
  destruct (truthy (dict_get d "ZoneDes" JNull)) eqn:Hz.
  - rewrite bind_Ok. split.
    + intros [lu E]. left. split; [reflexivity|].
      destruct (dict_get d "ZoneDes" JNull); simpl; try exact I;
        discriminate E.
    + intros [[_ Hs] | [Hf _]]; [|discriminate Hf].
      destruct (py_any_in_searchable ["R-"; "RES"] _ Hs) as [r ->].
      rewrite bind_Ok. destruct r; [eauto|].
      destruct (py_any_in_searchable ["C-"; "COM"] _ Hs) as [c ->].
      rewrite bind_Ok. destruct c; [eauto|].
      destruct (py_any_in_searchable ["I-"; "IND"] _ Hs) as [i ->].
      rewrite bind_Ok. destruct i; [eauto|].
      destruct (py_any_in_searchable ["AG"; "AGR"] _ Hs) as [a ->].
      rewrite bind_Ok. destruct a; eauto.
  - rewrite py_get_dict, bind_Ok. split.
    + intros [lu E]. right. split; [reflexivity|].
      unfold dict_get, str_or_absent in *.
      destruct (dict_find "zoning" d) as [v|]; [|left; reflexivity].
      destruct v; try discriminate E. right. eauto.
    + intros [[Hf _] | [_ Hs]]; [discriminate Hf|].
      assert (exists s, dict_get d "zoning" (JStr "") = JStr s) as [s ->].
      { unfold dict_get. destruct Hs as [-> | [s ->]]; eauto. }
      simpl py_upper. rewrite bind_Ok, land_use_chain. eauto.
Qed.

(** X4 at the bag [{zoning: null}]: no land use is returned. *)
Lemma land_use_returns_iff_witness :
  ~ exists lu, _determine_land_use (JObj [("zoning", JNull)]) = Ok lu.
Proof.
  intros Hret.
  apply (proj1 (land_use_returns_iff [("zoning", JNull)])) in Hret.
  destruct Hret as [[Ht _] | [_ [Hn | [s Hs]]]]; discriminate.
Defined.

(** ** What a fetch lets through *)

Lemma py_len_sized (x : json) : (exists n, py_len x = Ok n) <-> sized x.
Proof.
  destruct x; simpl; split; try (intros [n E]; discriminate E);
    try contradiction; eauto.
Qed.

(** X5.  [fetch_arcgis_data] returns a value exactly when the request
    succeeded and the body is a JSON object whose ["features"], when
    present, is an array, a string or an object; what it returns is that
    body, unchanged.  Every other reply gives [None]. *)
Theorem fetch_returns_iff (reply : http_reply) (data : json) :
  fetch_arcgis_data reply = Some data <->
  exists d,
    reply = Body (JObj d) /\ data = JObj d /\
    sized (dict_get d "features" (JArr [])).
Proof.
  split.
  - intros E. destruct (fetch_Some_shape reply data E) as (d & n & -> & Hlen).
    exists d. split; [|split; [reflexivity | apply py_len_sized; eauto]].
    destruct reply as [| |b]; simpl in E; try discriminate E.
    destruct (fs <- py_get b "features" (JArr []);; py_len fs);
      [injection E as ->; reflexivity | discriminate E].
  - intros (d & -> & -> & Hs). apply py_len_sized in Hs. destruct Hs as [n Hn].
    simpl. rewrite Hn. reflexivity.
Qed.

(** X5 at a body whose ["features"] is a number. *)
Lemma fetch_returns_iff_witness :
  fetch_arcgis_data (Body (JObj [("features", JNum 3)])) = None.
Proof.
  destruct (fetch_arcgis_data (Body (JObj [("features", JNum 3)])))
    as [data|] eqn:E; [|reflexivity].
  apply (proj1 (fetch_returns_iff _ data)) in E.
  destruct E as (d & Hb & _ & Hs). injection Hb as <-. destruct Hs.
Defined.

(** ** Bodies without a list of features *)

Lemma process_features_strings `{PyNum} (l : list json) :
  Forall (fun f => exists s, f = JStr s) l -> process_features l = [].
Proof.
  induction 1 as [|f l [s ->] _ IH]; simpl; [reflexivity | exact IH].
Qed.

Lemma chars_strings (s : string) :
  Forall (fun f => exists t, f = JStr t) (chars s).
Proof. induction s; simpl; constructor; eauto. Qed.

(** X6.  [process_parcel_data] returns the empty list, without raising, on
    an empty dict, on a dict without ["features"], and on a dict whose
    ["features"] is a string or a dict (a loop over those visits strings,
    and every turn on a string raises and is skipped). *)
Theorem features_must_be_a_list `{PyNum} (d : dict)
    (Hshape : dict_find "features" d = None
              \/ (exists s, dict_find "features" d = Some (JStr s))
              \/ (exists o, dict_find "features" d = Some (JObj o))) :
  process_parcel_data (JObj d) = Ok [].
Proof.
  unfold process_parcel_data.
  destruct (negb (truthy (JObj d))); [reflexivity|].
  rewrite has_features_dict, bind_Ok. cbn [py_item].
  destruct Hshape as [-> | [[s ->] | [o ->]]]; cbn [negb]; [reflexivity| |].
  - rewrite bind_Ok. cbn [py_iter]. rewrite bind_Ok.
    rewrite (process_features_strings _ (chars_strings s)). reflexivity.
  - rewrite bind_Ok. cbn [py_iter]. rewrite bind_Ok.
    rewrite process_features_strings; [reflexivity|].
    induction o as [|[k v] o IH]; simpl; constructor; eauto.
Qed.

(** X6 at a body whose ["features"] is the string ["none"]. *)
Lemma features_must_be_a_list_witness :
  @process_parcel_data Sample.fixed_point (JObj [("features", JStr "none")])
  = Ok [].
Proof.
  exact (@features_must_be_a_list Sample.fixed_point
           [("features", JStr "none")]
           (or_intror (or_introl (ex_intro _ "none" eq_refl)))).
Defined.

(** ** What an upsert touches *)

Lemma upsert_parcel_frame (now : Z) (e row : parcel_row) (tbl : list parcel_row) :
  parcel_id row <> parcel_id e ->
  (In row tbl <-> In row (upsert_parcel now e tbl)).
Proof.
  intros Hne. unfold upsert_parcel.
  assert (Hs : same_parcel (parcel_id e) row = false).
  { destruct (same_parcel (parcel_id e) row) eqn:E; [|reflexivity].
    apply same_parcel_spec in E. contradiction. }
  destruct (existsb (same_parcel (parcel_id e)) tbl).
  - rewrite in_map_iff. split.
    + intros Hin. exists row. rewrite Hs. split; [reflexivity | exact Hin].
    + intros [x [Hx Hin]].
      destruct (same_parcel (parcel_id e) x) eqn:E.
      * apply same_parcel_spec in E. subst row. simpl in Hne. contradiction.
      * subst x. exact Hin.
  - rewrite in_app_iff. split; [tauto|].
    intros [Hin | [<- | []]]; [exact Hin | contradiction].
Qed.

Lemma upsert_parcel_length (now : Z) (e : parcel_row) (tbl : list parcel_row) :
  List.length (upsert_parcel now e tbl)
  = (List.length tbl
     + if existsb (same_parcel (parcel_id e)) tbl then 0 else 1)%nat.
Proof.
  unfold upsert_parcel.
  destruct (existsb (same_parcel (parcel_id e)) tbl).
  - rewrite length_map. lia.
  - rewrite length_app. reflexivity.
Qed.

(** X7.  A call of [insert_parcel_data] that returns true touches one
    parcel only: every row under another identifier is in the table after
    the call exactly when it was there before, and the table grows by one
    row when the identifier is new and keeps its size when it is not. *)
Theorem insert_touches_one_parcel `{PostGIS} (env : nat -> call_env)
    (p : dict) (st : state)
    (Hok : snd (insert_parcel_data env p st) = true) :
  exists e,
    excluded_row (now (env (calls st))) (insert_params p) = Some e
    /\ (forall row, parcel_id row <> parcel_id e ->
          (In row (parcels (store st)) <->
           In row (parcels (store (fst (insert_parcel_data env p st))))))
    /\ List.length (parcels (store (fst (insert_parcel_data env p st))))
       = (List.length (parcels (store st))
          + if existsb (same_parcel (parcel_id e)) (parcels (store st))
            then 0 else 1)%nat
    /\ zoning_regulations (store (fst (insert_parcel_data env p st)))
       = zoning_regulations (store st).
Proof.
  destruct (insert_parcel_data_true env p st Hok) as [e [He Hstore]].
  exists e. split; [exact He|]. rewrite Hstore.
  split; [intros row Hne; apply upsert_parcel_frame; exact Hne|].
  split; [apply upsert_parcel_length|].
  revert Hok. unfold insert_parcel_data, execute_query, rolled_back.
  destruct (negb (conn st) && negb (connect_ok (env (calls st))));
    [discriminate|].
  destruct (server_ok (env (calls st)));
    [|destruct (rollback_ok _); discriminate].
  unfold run.
  destruct (excluded_row (now (env (calls st))) (insert_params p));
    [reflexivity | destruct (rollback_ok _); discriminate].
Qed.

(** X7 at a table holding parcel A, into which parcel B is inserted. *)
Lemma insert_touches_one_parcel_witness :
  In (Sample.row_of "A" None (Some 1))
     (parcels (store (fst
        (@insert_parcel_data Sample.polygons_only Sample.fair_weather
           [ ("parcel_id", JStr "B");
             ("geometry", JStr Sample.unit_square_text) ]
           (Sample.state_of [Sample.row_of "A" None (Some 1)]))))).
Proof.
  destruct (@insert_touches_one_parcel Sample.polygons_only Sample.fair_weather
              [ ("parcel_id", JStr "B");
                ("geometry", JStr Sample.unit_square_text) ]
              (Sample.state_of [Sample.row_of "A" None (Some 1)]) eq_refl)
    as (e & He & Hframe & _).
  apply Hframe; [|left; reflexivity].
  injection He as <-. discriminate.
Defined.

(** X8.  A record without a [parcel_id] (the key missing or null) is
    refused, whatever the server does: [insert_parcel_data] returns false
    and both tables are as before. *)
Theorem insert_requires_parcel_id `{PostGIS} (env : nat -> call_env)
    (p : dict) (st : state)
    (Hnull : dict_get p "parcel_id" JNull = JNull) :
  snd (insert_parcel_data env p st) = false
  /\ store (fst (insert_parcel_data env p st)) = store st.
Proof.
  assert (Hfalse : snd (insert_parcel_data env p st) = false).
  { unfold insert_parcel_data, execute_query, rolled_back.
    destruct (negb (conn st) && negb (connect_ok (env (calls st))));
      [reflexivity|].
    destruct (server_ok (env (calls st)));
      [|destruct (rollback_ok _); reflexivity].
    unfold run, excluded_row, insert_params. rewrite Hnull.
    destruct (rollback_ok _); reflexivity. }
  split; [exact Hfalse|].
  apply insert_parcel_data_false_store. exact Hfalse.
Qed.

(** X8 at a record that has a geometry and no identifier. *)
Lemma insert_requires_parcel_id_witness :
  snd (@insert_parcel_data Sample.polygons_only Sample.fair_weather
         [("geometry", JStr Sample.unit_square_text)] initial) = false.
Proof.
  exact (proj1 (@insert_requires_parcel_id Sample.polygons_only
                  Sample.fair_weather
                  [("geometry", JStr Sample.unit_square_text)]
                  initial eq_refl)).
Defined.

(** ** Queries that change nothing *)

Section ReadOnly.
Context `{PostGIS}.
Variable env : nat -> call_env.

Lemma select_keeps_store (w : string) (ps : list json) (st : state) :
  store (fst (execute_query env (SelectParcels w ps) st)) = store st.
Proof.
  unfold execute_query.
  destruct (negb (conn st) && negb (connect_ok (env (calls st))));
    [reflexivity|].
  destruct (server_ok (env (calls st))); [|reflexivity].
  unfold run. destruct (select_parcels w ps (parcels (store st))); reflexivity.
Qed.

(** X9.  A search never changes the tables, whether it returns rows or
    [None]; and any query that returns [None] (no connection, or a
    statement that failed and was rolled back) or raises (the rollback
    failed) leaves the tables as they were. *)
Theorem search_is_read_only (criteria : dict) (st st' : state)
    (r : option (list summary))
    (Hsearch : search_parcels env criteria st = Ok (st', r)) :
  store st' = store st
  /\ calls st' = S (calls st)
  /\ (forall q s,
        snd (execute_query env q s) = Ok None \/
        (exists e, snd (execute_query env q s) = Raise e) ->
        store (fst (execute_query env q s)) = store s).
Proof.
  unfold search_parcels in Hsearch.
  destruct (search_conditions criteria) as [[wc ps]|e]; [|discriminate Hsearch].
  rewrite bind_Ok in Hsearch. cbn [fst snd] in Hsearch.
  pose proof (select_keeps_store (where_clause_of wc) ps st) as Hk.
  assert (Hc : calls (fst (execute_query env
                 (SelectParcels (where_clause_of wc) ps) st)) = S (calls st)).
  { unfold execute_query.
    destruct (negb (conn st) && negb (connect_ok (env (calls st))));
      [reflexivity|].
    destruct (server_ok (env (calls st))); [|reflexivity].
    destruct (run _ _ _) as [[t a]|]; reflexivity. }
  destruct (execute_query env (SelectParcels (where_clause_of wc) ps) st)
    as [st1 [a|e]]; [|discriminate Hsearch].
  rewrite bind_Ok in Hsearch.
  injection Hsearch as <- _. cbn [fst] in Hk, Hc.
  split; [exact Hk|]. split; [exact Hc|].
  intros q s Hno. apply execute_query_None_store.
  intros a' Ha. destruct Hno as [Hn | [e Hn]]; congruence.
Qed.

End ReadOnly.

(** X9 at a search for vacant parcels over a table of one parcel. *)
Lemma search_is_read_only_witness :
  exists st' r,
    @search_parcels Sample.polygons_only Sample.fair_weather
      [("vacant_only", JBool true)]
      (Sample.state_of [Sample.row_of "A" None (Some 1)]) = Ok (st', r)
    /\ store st' = store (Sample.state_of [Sample.row_of "A" None (Some 1)]).
Proof.
  eexists. eexists. split; [reflexivity|].
  exact (proj1 (@search_is_read_only Sample.polygons_only Sample.fair_weather
                  [("vacant_only", JBool true)]
                  (Sample.state_of [Sample.row_of "A" None (Some 1)])
                  _ _ eq_refl)).
Defined.

(** ** What a search returns *)

Lemma NoDup_map_filter {A B : Type} (f : A -> B) (g : A -> bool) (l : list A) :
  NoDup (map f l) -> NoDup (map f (filter g l)).
Proof.
  induction l as [|x l IH]; simpl; intros Hn; [constructor|].
  inversion Hn as [|? ? Hnotin Hn']; subst.
  destruct (g x); simpl; [constructor|]; auto.
  intros Hin. apply Hnotin. apply in_map_iff in Hin.
  destruct Hin as [y [Hy Hin]]. apply filter_In in Hin.
  apply in_map_iff. exists y. tauto.
Qed.

Lemma NoDup_map_firstn {A B : Type} (f : A -> B) (n : nat) (l : list A) :
  NoDup (map f l) -> NoDup (map f (firstn n l)).
Proof.
  revert n. induction l as [|x l IH]; intros [|n]; simpl; intros Hn;
    try constructor.
  - inversion Hn as [|? ? Hnotin Hn']; subst.
    intros Hin. apply Hnotin. apply in_map_iff in Hin.
    destruct Hin as [y [Hy Hin]]. apply In_firstn in Hin.
    apply in_map_iff. exists y. tauto.
  - inversion Hn; subst. apply IH. assumption.
Qed.

Section Returned.
Context `{PostGIS}.
Variable env : nat -> call_env.

(** Every row a search returns is a stored row the clause is true of. *)
Lemma search_row_holds (criteria : dict) (st st' : state)
    (rows : list summary) :
  search_parcels env criteria st = Ok (st', Some rows) ->
  exists wc ps p,
    search_conditions criteria = Ok (wc, ps) /\
    parse_where (where_clause_of wc) ps = Some p /\
    forall r, In r rows ->
      exists x, r = select_list x /\ In x (parcels (store st)) /\
                is_TT (holds p x) = true.
Proof.
  intros Hs.
  destruct (search_parcels_rows env _ _ _ _ Hs)
    as (wc & ps & p & Hc & Hp & _ & ->).
  exists wc, ps, p. split; [exact Hc|]. split; [exact Hp|].
  intros r Hin. apply in_map_iff in Hin. destruct Hin as [x [<- Hx]].
  apply In_firstn in Hx.
  apply (Permutation_in _ (order_by_acres_desc_perm _)) in Hx.
  apply filter_In in Hx. exists x. tauto.
Qed.

(** X10.  A search returns stored parcels only, and, the identifiers of the
    table being unique, each parcel at most once. *)
Theorem search_returns_stored_parcels (criteria : dict) (st st' : state)
    (rows : list summary)
    (Hsearch : search_parcels env criteria st = Ok (st', Some rows)) :
  (forall r, In r rows ->
     exists x, In x (parcels (store st)) /\ r = select_list x)
  /\ (unique_ids (parcels (store st)) -> NoDup (map s_parcel_id rows)).
Proof.
  split.
  - destruct (search_row_holds _ _ _ _ Hsearch) as (wc & ps & p & _ & _ & Hr).
    intros r Hin. destruct (Hr r Hin) as (x & -> & Hx & _). eauto.
  - destruct (search_parcels_rows env _ _ _ _ Hsearch)
      as (wc & ps & p & _ & _ & _ & ->).
    unfold unique_ids. intros Hu.
    rewrite map_map. cbn [select_list s_parcel_id].
    apply NoDup_map_firstn.
    apply (Permutation_NoDup
             (Permutation_map parcel_id
                (Permutation_sym (order_by_acres_desc_perm _)))).
    apply NoDup_map_filter. exact Hu.
Qed.

Lemma all_hold_app (a b : list pred) (r : parcel_row) :
  all_hold (a ++ b) r = all_hold a r && all_hold b r.
Proof. unfold all_hold. apply forallb_app. Qed.

Lemma holds_zoning_eq (z : string) (x : parcel_row) :
  is_TT (holds (PCmp "zoning_code" Eq (JStr z)) x) = true ->
  zoning_code x = Some z.
Proof.
  change (holds (PCmp "zoning_code" Eq (JStr z)) x)
    with (holds_text (zoning_code x) z).
  destruct (zoning_code x) as [c|]; simpl; [|discriminate].
  destruct (String.eqb_spec c z); [congruence | discriminate].
Qed.

(** X11.  With [zoning_type] set to a non-empty string and [vacant_only]
    not set, every row a search returns has exactly that zoning code
    (compared as it stands, letter case included); a parcel without a
    zoning code is never returned. *)
Theorem zoning_filter_is_exact (criteria : dict) (z : string)
    (st st' : state) (rows : list summary)
    (Hz : dict_get criteria "zoning_type" JNull = JStr z)
    (Hne : z <> "")
    (Hvac : truthy (dict_get criteria "vacant_only" JNull) = false)
    (Hsearch : search_parcels env criteria st = Ok (st', Some rows)) :
  forall r, In r rows -> s_zoning_code r = Some z.
Proof.
  destruct (search_row_holds _ _ _ _ Hsearch) as (wc & ps & p & Hc & Hp & Hr).
  intros r Hin. destruct (Hr r Hin) as (x & -> & _ & Hx).
  rewrite (where_clause_meaning criteria wc ps p Hc Hp x), Hvac in Hx.
  rewrite all_hold_app in Hx. apply andb_true_iff in Hx. destruct Hx as [Hb _].
  unfold conditions_before in Hb. rewrite !all_hold_app in Hb.
  apply andb_true_iff in Hb. destruct Hb as [_ Hb].
  apply andb_true_iff in Hb. destruct Hb as [_ Hb].
  rewrite Hz in Hb.
  assert (truthy (JStr z) = true) as Ht.
  { simpl. destruct (String.eqb_spec z ""); [contradiction | reflexivity]. }
  rewrite Ht in Hb. cbn [all_hold forallb] in Hb.
  rewrite andb_true_r in Hb. cbn [select_list s_zoning_code].
  apply holds_zoning_eq. exact Hb.
Qed.

End Returned.

(** X10 at a search of a table of two parcels. *)
Lemma search_returns_stored_parcels_witness :
  NoDup (map s_parcel_id
    [ select_list (Sample.row_of "C" None (Some 9));
      select_list (Sample.row_of "A" None (Some 1)) ]).
Proof.
  refine (proj2 (@search_returns_stored_parcels Sample.polygons_only
    Sample.fair_weather []
    (Sample.state_of [ Sample.row_of "A" None (Some 1);
                       Sample.row_of "C" None (Some 9) ])
    _ _ eq_refl) _).
  repeat constructor; simpl; intuition discriminate.
Defined.

(** X11 at a search for zoning code R-3 over two parcels. *)
Lemma zoning_filter_is_exact_witness :
  s_zoning_code
    (select_list
       {| parcel_id := "A"; address := None; owner_name := None;
          owner_address := None; acres := Some 1;
          zoning_code := Some "R-3"; land_use := None;
          road_frontage := None; slope_percent := None;
          utilities := None; geometry := None;
          created_at := 0; updated_at := 0 |}) = Some "R-3".
Proof.
  refine (@zoning_filter_is_exact Sample.polygons_only Sample.fair_weather
    [("zoning_type", JStr "R-3")] "R-3"
    (Sample.state_of
       [ {| parcel_id := "A"; address := None; owner_name := None;
            owner_address := None; acres := Some 1;
            zoning_code := Some "R-3"; land_use := None;
            road_frontage := None; slope_percent := None;
            utilities := None; geometry := None;
            created_at := 0; updated_at := 0 |};
         Sample.row_of "B" None (Some 2) ])
    _ _ eq_refl _ eq_refl eq_refl _ (or_introl eq_refl)).
  discriminate.
Defined.

(** ** Vacant parcels, slope ranges and searches that raise *)

Section Filters.
Context `{PostGIS}.
Variable env : nat -> call_env.

(** X12.  With [vacant_only] set and no other key, a search returns vacant
    parcels only (owner name NULL or empty), and, the server being
    available, exactly the first 100 of the vacant parcels in descending
    order of acreage. *)
Theorem vacant_only_alone_selects_vacant (criteria : dict) (st : state)
    (Hvac : truthy (dict_get criteria "vacant_only" JNull) = true)
    (Hrest : forall k, In k search_keys -> k <> "vacant_only" ->
                       truthy (dict_get criteria k JNull) = false) :
  (forall st' rows,
      search_parcels env criteria st = Ok (st', Some rows) ->
      forall r, In r rows -> vacant r)
  /\ (available env st ->
      search_parcels env criteria st
      = Ok ({| conn := true; calls := S (calls st); store := store st |},
            Some (map select_list
                    (firstn 100
                       (order_by_acres_desc
                          (filter (fun x => match owner_name x with
                                            | None => true
                                            | Some o => String.eqb o ""
                                            end)
                                  (parcels (store st)))))))).
Proof.
  assert (Hc : search_conditions criteria
               = Ok (["owner_name IS NULL OR owner_name = ''"], [])).
  { unfold search_conditions, add_slope, add_condition, add_vacant.
    rewrite Hvac.
    rewrite !Hrest by (simpl; intuition discriminate). reflexivity. }
  assert (Hp : parse_where
                 (where_clause_of ["owner_name IS NULL OR owner_name = ''"]) []
               = Some (POr (PIsNull "owner_name") (PEmpty "owner_name")))
    by reflexivity.
  assert (Hmeaning : forall x,
             is_TT (holds (POr (PIsNull "owner_name") (PEmpty "owner_name")) x)
             = match owner_name x with
               | None => true
               | Some o => String.eqb o ""
               end).
  { intros x.
    change (holds (POr (PIsNull "owner_name") (PEmpty "owner_name")) x)
      with (tri_or (tri_of_bool (match owner_name x with
                                 | None => true | _ => false end))
                   (holds_text (owner_name x) "")).
    destruct (owner_name x) as [o|]; simpl; [|reflexivity].
    destruct (String.eqb o ""); reflexivity. }
  split.
  - intros st' rows Hs r Hin.
    destruct (search_row_holds env _ _ _ _ Hs) as (wc & ps & p & Hc' & Hp' & Hr).
    rewrite Hc in Hc'. injection Hc' as <- <-.
    rewrite Hp in Hp'. injection Hp' as <-.
    destruct (Hr r Hin) as (x & -> & _ & Hx).
    rewrite Hmeaning in Hx. unfold vacant. cbn [select_list s_owner_name].
    destruct (owner_name x) as [o|]; [|left; reflexivity].
    right. apply String.eqb_eq in Hx. congruence.
  - intros Hav.
    rewrite (search_parcels_available env criteria st _ _ _ Hav Hc Hp eq_refl).
    rewrite (filter_ext _ _ Hmeaning). reflexivity.
Qed.

Lemma holds_between (lo hi : Q) (x : parcel_row) :
  is_TT (holds (PBetween "slope_percent" (JNum lo) (JNum hi)) x) = true ->
  exists s, slope_percent x = Some s /\ lo <= s /\ s <= hi.
Proof.
  change (holds (PBetween "slope_percent" (JNum lo) (JNum hi)) x)
    with (tri_and (holds_num Ge (slope_percent x) (JNum lo))
                  (holds_num Le (slope_percent x) (JNum hi))).
  destruct (slope_percent x) as [s|]; simpl; [|discriminate].
  destruct (Qle_bool lo s) eqn:E1, (Qle_bool s hi) eqn:E2; simpl;
    try discriminate.
  intros _. exists s. split; [reflexivity|].
  split; apply Qle_bool_iff; assumption.
Qed.

Lemma dict_find_set (k k' : string) (v : json) (d : dict) :
  dict_find k' (dict_set k v d)
  = if String.eqb k' k then Some v else dict_find k' d.
Proof.
  induction d as [|[k0 v0] d IH]; simpl.
  - destruct (String.eqb k' k); reflexivity.
  - destruct (String.eqb_spec k k0) as [->|Hne]; simpl.
    + destruct (String.eqb k' k0); reflexivity.
    + rewrite IH. destruct (String.eqb_spec k' k0) as [->|Hne'].
      * destruct (String.eqb_spec k0 k); [congruence | reflexivity].
      * reflexivity.
Qed.

Lemma dict_get_set (k k' : string) (v default : json) (d : dict) :
  dict_get (dict_set k v d) k' default
  = if String.eqb k' k then v else dict_get d k' default.
Proof.
  unfold dict_get. rewrite dict_find_set.
  destruct (String.eqb k' k); reflexivity.
Qed.

(** X13.  A [slope_range] of two numbers [lo, hi], without [vacant_only],
    keeps the rows whose slope lies between them, bounds included (a row
    without a slope is never returned); a [slope_range] list of any other
    length changes nothing: the search is the one without the key. *)
Theorem slope_range_needs_two (criteria : dict) (st : state) :
  (forall lo hi st' rows,
      dict_get criteria "slope_range" JNull = JArr [JNum lo; JNum hi] ->
      truthy (dict_get criteria "vacant_only" JNull) = false ->
      search_parcels env criteria st = Ok (st', Some rows) ->
      forall r, In r rows ->
        exists s, s_slope_percent r = Some s /\ lo <= s /\ s <= hi)
  /\ (forall items,
        dict_get criteria "slope_range" JNull = JArr items ->
        List.length items <> 2%nat ->
        search_parcels env criteria st
        = search_parcels env (dict_set "slope_range" JNull criteria) st).
Proof.
  split.
  - intros lo hi st' rows Hsl Hvac Hs r Hin.
    destruct (search_row_holds env _ _ _ _ Hs) as (wc & ps & p & Hc & Hp & Hr).
    destruct (Hr r Hin) as (x & -> & _ & Hx).
    rewrite (where_clause_meaning criteria wc ps p Hc Hp x), Hvac in Hx.
    rewrite all_hold_app in Hx. apply andb_true_iff in Hx.
    destruct Hx as [_ Ha].
    unfold conditions_after in Ha. rewrite all_hold_app in Ha.
    apply andb_true_iff in Ha. destruct Ha as [_ Ha].
    rewrite Hsl in Ha. cbn [slope_condition truthy py_iter all_hold forallb] in Ha.
    rewrite andb_true_r in Ha. cbn [select_list s_slope_percent].
    apply holds_between. exact Ha.
  - intros items Hsl Hlen.
    unfold search_parcels. f_equal.
    unfold search_conditions, add_slope, add_condition, add_vacant.
    rewrite !dict_get_set. cbn [String.eqb Ascii.eqb Bool.eqb].
    change (String.eqb "slope_range" "slope_range") with true.
    change (String.eqb "road_frontage" "slope_range") with false.
    change (String.eqb "vacant_only" "slope_range") with false.
    change (String.eqb "zoning_type" "slope_range") with false.
    change (String.eqb "max_acres" "slope_range") with false.
    change (String.eqb "min_acres" "slope_range") with false.
    cbv iota. rewrite Hsl. cbn [truthy].
    destruct items as [|a [|b [|c items]]]; try reflexivity.
    exfalso. apply Hlen. reflexivity.
Qed.

(** [execute_query] raises exactly when the connection is there, the
    statement is not carried out and the rollback raises. *)
Lemma execute_query_raises_iff (q : statement) (st : state) :
  (exists e, snd (execute_query env q st) = Raise e) <->
  (conn st || connect_ok (env (calls st))) = true /\
  rollback_ok (env (calls st)) = false /\
  (server_ok (env (calls st)) = false \/
   run (now (env (calls st))) q (store st) = None).
Proof.
  unfold execute_query, rolled_back.
  destruct (conn st), (connect_ok (env (calls st))),
    (server_ok (env (calls st))), (rollback_ok (env (calls st)));
    cbn [negb andb orb fst snd];
    try destruct (run (now (env (calls st))) q (store st)) as [[t a]|];
    cbn [fst snd];
    split;
    try (intros [e E]; discriminate E);
    try (intros (Hc & Hr & Hs); try discriminate Hc; try discriminate Hr;
         destruct Hs as [Hs|Hs]; discriminate Hs);
    try (intros _; repeat split; auto; fail);
    try (intros _; eexists; reflexivity).
Qed.

(** A search raises with its conditions, or with its query. *)
Lemma search_raises_cases (criteria : dict) (st : state) :
  (exists e, search_parcels env criteria st = Raise e) <->
  (exists e, search_conditions criteria = Raise e) \/
  (exists wc ps,
     search_conditions criteria = Ok (wc, ps) /\
     exists e,
       snd (execute_query env (SelectParcels (where_clause_of wc) ps) st)
       = Raise e).
Proof.
  unfold search_parcels.
  destruct (search_conditions criteria) as [[wc ps]|e']; simpl.
  - destruct (execute_query env (SelectParcels (where_clause_of wc) ps) st)
      as [st1 [a|e1]] eqn:Hq; simpl; split.
    + intros [e E]. discriminate E.
    + intros [[e E] | (wc' & ps' & Heq & e & E)]; [discriminate E|].
      injection Heq as <- <-. rewrite Hq in E. discriminate E.
    + intros _. right. exists wc, ps. split; [reflexivity|].
      rewrite Hq. exists e1. reflexivity.
    + intros _. exists e1. reflexivity.
  - split; [intros _; left; eauto|]. intros _. eauto.
Qed.

Lemma add_slope_raises_iff (criteria : dict) (acc : list string * list json) :
  (exists e, add_slope criteria acc = Raise e) <->
  (truthy (dict_get criteria "slope_range" JNull) = true /\
   ~ sized (dict_get criteria "slope_range" JNull)).
Proof.
  unfold add_slope.
  destruct (dict_get criteria "slope_range" JNull) as [|b|q|s|items|d];
    cbn [truthy py_len py_iter sized].
  - split; [intros [e E]; discriminate E | intros [Hf _]; discriminate Hf].
  - destruct b.
    + split; [intros _; split; [reflexivity | tauto] | simpl; eauto].
    + split; [intros [e E]; discriminate E | intros [Hf _]; discriminate Hf].
  - destruct (Qeq_bool q 0); cbn [negb].
    + split; [intros [e E]; discriminate E | intros [Hf _]; discriminate Hf].
    + split; [intros _; split; [reflexivity | tauto] | simpl; eauto].
  - split; [|intros [_ Hn]; exfalso; apply Hn; exact I].
    intros [e E]. exfalso.
    destruct (negb (String.eqb s "")); [|discriminate E].
    rewrite bind_Ok in E.
    destruct (String.length s =? 2)%nat; [|discriminate E].
    rewrite bind_Ok in E. discriminate E.
  - split; [|intros [_ Hn]; exfalso; apply Hn; exact I].
    intros [e E]. exfalso.
    destruct items as [|i items]; [discriminate E|].
    rewrite bind_Ok in E.
    destruct (List.length (i :: items) =? 2)%nat; [|discriminate E].
    rewrite bind_Ok in E. discriminate E.
  - split; [|intros [_ Hn]; exfalso; apply Hn; exact I].
    intros [e E]. exfalso.
    destruct d as [|kv d]; [discriminate E|].
    rewrite bind_Ok in E.
    destruct (List.length (kv :: d) =? 2)%nat; [|discriminate E].
    rewrite bind_Ok in E. discriminate E.
Qed.

(** X14.  [search_parcels] raises in exactly two cases.  Either
    [slope_range] is a truthy value without a length (a number other than
    zero, or [true]): [len] raises before any query is made.  Or the
    conditions are built and the query is not carried out (the server
    fails, or refuses the statement) on a connection whose rollback
    raises: the [except] block of [execute_query] calls [rollback] outside
    any [try], and [search_parcels] has none. *)
Theorem search_raises_iff (criteria : dict) (st : state) :
  (exists e, search_parcels env criteria st = Raise e) <->
  (truthy (dict_get criteria "slope_range" JNull) = true /\
   ~ sized (dict_get criteria "slope_range" JNull))
  \/ (exists wc ps,
        search_conditions criteria = Ok (wc, ps) /\
        (conn st || connect_ok (env (calls st))) = true /\
        rollback_ok (env (calls st)) = false /\
        (server_ok (env (calls st)) = false \/
         select_parcels (where_clause_of wc) ps (parcels (store st)) = None)).
Proof.
  rewrite search_raises_cases.
  rewrite <- (add_slope_raises_iff criteria
    (add_condition criteria "road_frontage" "road_frontage >= %s"
      (add_vacant criteria
        (add_condition criteria "zoning_type" "zoning_code = %s"
          (add_condition criteria "max_acres" "acres <= %s"
            (add_condition criteria "min_acres" "acres >= %s" ([], []))))))).
  fold (search_conditions criteria).
  assert (Hrun : forall wc ps,
            run (now (env (calls st)))
              (SelectParcels (where_clause_of wc) ps) (store st) = None
            <-> select_parcels (where_clause_of wc) ps (parcels (store st))
                = None).
  { intros wc ps. unfold run.
    destruct (select_parcels (where_clause_of wc) ps (parcels (store st)));
      split; intros E; (discriminate E || reflexivity). }
  split.
  - intros [Hc | (wc & ps & Hc & Hq)]; [left; exact Hc|].
    right. exists wc, ps. split; [exact Hc|].
    apply execute_query_raises_iff in Hq.
    destruct Hq as (H1 & H2 & H3). rewrite Hrun in H3. auto.
  - intros [Hc | (wc & ps & Hc & H1 & H2 & H3)]; [left; exact Hc|].
    right. exists wc, ps. split; [exact Hc|].
    apply execute_query_raises_iff. rewrite Hrun. auto.
Qed.

End Filters.

(** X12 at a table with one vacant and one owned parcel. *)
Lemma vacant_only_alone_selects_vacant_witness :
  vacant (select_list (Sample.row_of "A" (Some "") (Some 1))).
Proof.
  refine (proj1 (@vacant_only_alone_selects_vacant Sample.polygons_only
    Sample.fair_weather [("vacant_only", JBool true)]
    (Sample.state_of [ Sample.row_of "A" (Some "") (Some 1);
                       Sample.row_of "B" (Some "x") (Some 7) ])
    eq_refl _) _ _ eq_refl _ (or_introl eq_refl)).
  intros k Hk Hne. simpl in Hk.
  destruct Hk as [<-|[<-|[<-|[<-|[<-|[<-|[]]]]]]]; try reflexivity.
  contradiction.
Defined.

(** X13 at a slope range of 2 to 5 over a parcel of slope 3. *)
Lemma slope_range_needs_two_witness :
  exists s,
    s_slope_percent
      (select_list
         {| parcel_id := "A"; address := None; owner_name := None;
            owner_address := None; acres := Some 1; zoning_code := None;
            land_use := None; road_frontage := None;
            slope_percent := Some 3; utilities := None; geometry := None;
            created_at := 0; updated_at := 0 |}) = Some s
    /\ 2 <= s /\ s <= 5.
Proof.
  exact (proj1 (@slope_range_needs_two Sample.polygons_only
    Sample.fair_weather [("slope_range", JArr [JNum 2; JNum 5])]
    (Sample.state_of
       [ {| parcel_id := "A"; address := None; owner_name := None;
            owner_address := None; acres := Some 1; zoning_code := None;
            land_use := None; road_frontage := None;
            slope_percent := Some 3; utilities := None; geometry := None;
            created_at := 0; updated_at := 0 |};
         Sample.row_of "B" None (Some 2) ]))
    2 5 _ _ eq_refl eq_refl eq_refl _ (or_introl eq_refl)).
Defined.

(** X14 at the criteria [{slope_range: 5}]. *)
Lemma search_raises_iff_witness :
  exists e,
    @search_parcels Sample.polygons_only Sample.fair_weather
      [("slope_range", JNum 5)] initial = Raise e.
Proof.
  apply (proj2 (@search_raises_iff Sample.polygons_only Sample.fair_weather
                  [("slope_range", JNum 5)] initial)).
  left. split; [reflexivity | intros Hs; exact Hs].
Defined.

(** ** What the importer writes *)

Lemma excluded_row_fields `{PostGIS} (now : Z) (p : dict) (e : parcel_row) :
  excluded_row now (insert_params p) = Some e ->
  bind_text (Some 255%nat) (dict_get p "owner_name" JNull) = Some (owner_name e) /\
  bind_text (Some 100%nat) (dict_get p "land_use" JNull) = Some (land_use e) /\
  bind_decimal 5 2 (dict_get p "slope_percent" JNull) = Some (slope_percent e) /\
  bind_text_array (dict_get p "utilities" (JArr [])) = Some (utilities e).
Proof.
  unfold excluded_row, insert_params. intros E.
  repeat match type of E with
         | obind ?m _ = _ =>
             let B := fresh "B" in
             destruct m eqn:B; simpl in E; [|discriminate E]
         end.
  injection E as <-. simpl. repeat split; assumption.
Qed.

(** The rows of a table after an upsert. *)
Lemma upsert_parcel_rows (now : Z) (e row : parcel_row) (tbl : list parcel_row) :
  In row (upsert_parcel now e tbl) ->
  In row tbl \/ row = e \/ exists old, In old tbl /\ row = do_update old e now.
Proof.
  unfold upsert_parcel.
  destruct (existsb (same_parcel (parcel_id e)) tbl).
  - rewrite in_map_iff. intros [old [Hr Hin]].
    destruct (same_parcel (parcel_id e) old); subst row; eauto.
  - rewrite in_app_iff. intros [Hin | [<- | []]]; auto.
Qed.

Lemma land_use_fits (lu : string) :
  In lu land_uses -> bind_text (Some 100%nat) (JStr lu) = Some (Some lu).
Proof.
  simpl. intros [<-|[<-|[<-|[<-|[<-|[]]]]]]; reflexivity.
Qed.

Section Imported.
Context `{PyNum} `{PostGIS}.
Variable env : nat -> call_env.

(** The row bound from an appended record, or from one with its owner
    blanked, is as the importer writes them. *)
Lemma appended_row_normalised (feature : json) (p : dict) (now : Z)
    (e : parcel_row) :
  process_feature feature = Ok (Some p) ->
  excluded_row now (insert_params p) = Some e
  \/ excluded_row now (insert_params (dict_set "owner_name" (JStr "") p)) = Some e ->
  normalised e.
Proof.
  intros Hrec He.
  destruct (appended_record_shape feature p Hrec)
    as (_ & _ & _ & _ & [lu [Hlu Hin]] & Hslope & Hutil & _).
  assert (Hf : bind_text (Some 100%nat) (JStr lu) = Some (land_use e) /\
               bind_decimal 5 2 JNull = Some (slope_percent e) /\
               bind_text_array (JArr [JStr "Water"; JStr "Sewer"; JStr "Electric"])
               = Some (utilities e)).
  { destruct He as [He|He]; apply excluded_row_fields in He;
      destruct He as (_ & H1 & H2 & H3).
    - rewrite Hlu in H1. rewrite Hslope in H2.
      unfold dict_get in H3, Hutil.
      destruct (dict_find "utilities" p); [|discriminate Hutil].
      subst j. auto.
    - rewrite !dict_get_set in H1, H2, H3.
      change (String.eqb "land_use" "owner_name") with false in H1.
      change (String.eqb "slope_percent" "owner_name") with false in H2.
      change (String.eqb "utilities" "owner_name") with false in H3.
      cbv iota in H1, H2, H3.
      rewrite Hlu in H1. rewrite Hslope in H2.
      unfold dict_get in H3, Hutil.
      destruct (dict_find "utilities" p); [|discriminate Hutil].
      subst j. auto. }
  destruct Hf as (H1 & H2 & H3).
  rewrite (land_use_fits lu Hin) in H1.
  injection H1 as H1. injection H2 as H2. injection H3 as H3.
  unfold normalised. split; [auto|]. split; [auto|]. exists lu. auto.
Qed.

Lemma upsert_normalised (now : Z) (e : parcel_row) (tbl : list parcel_row) :
  normalised e -> Forall normalised tbl ->
  Forall normalised (upsert_parcel now e tbl).
Proof.
  intros He Ht. apply Forall_forall. intros row Hin.
  rewrite Forall_forall in Ht.
  destruct (upsert_parcel_rows now e row tbl Hin)
    as [Hold | [-> | [old [_ ->]]]]; [auto | exact He | exact He].
Qed.

(** A loop of inserts keeps what each insert keeps. *)
Lemma insert_loop_invariant (P : list parcel_row -> Prop) (g : dict -> dict)
    (processed : list dict) :
  (forall p s, In p processed -> P (parcels (store s)) ->
               P (parcels (store (fst (insert_parcel_data env (g p) s))))) ->
  forall st, P (parcels (store st)) ->
    P (parcels (store
         (fold_left (fun s p => fst (insert_parcel_data env (g p) s))
                    processed st))).
Proof.
  induction processed as [|p processed IH]; intros Hstep st Hst; [exact Hst|].
  simpl. apply IH.
  - intros q s Hq. apply Hstep. right. exact Hq.
  - apply Hstep; [left; reflexivity | exact Hst].
Qed.

Lemma process_features_In (features : list json) (p : dict) :
  In p (process_features features) ->
  exists f, In f features /\ process_feature f = Ok (Some p).
Proof.
  induction features as [|f features IH]; simpl; [tauto|].
  destruct (process_feature f) as [[q|]|e] eqn:E.
  - intros [<-|Hin]; [eauto|].
    destruct (IH Hin) as [f' [Hf' Hp]]. eauto.
  - intros Hin. destruct (IH Hin) as [f' [Hf' Hp]]. eauto.
  - intros Hin. destruct (IH Hin) as [f' [Hf' Hp]]. eauto.
Qed.

Lemma process_parcel_data_records (data : json) (processed : list dict)
    (p : dict) :
  process_parcel_data data = Ok processed -> In p processed ->
  exists f, process_feature f = Ok (Some p).
Proof.
  unfold process_parcel_data.
  destruct (negb (truthy data)); [intros [= <-] []|].
  intros E. apply bind_inv_Ok in E. destruct E as [present [_ E]].
  destruct (negb present); [injection E as <-; intros []|].
  apply bind_inv_Ok in E. destruct E as [fs [_ E]].
  apply bind_inv_Ok in E. destruct E as [features [_ E]].
  injection E as <-. intros Hin.
  destruct (process_features_In features p Hin) as [f [_ Hf]]. eauto.
Qed.

Lemma insert_step_normalised (g : dict -> dict) (p : dict) (s : state) :
  (forall now e, excluded_row now (insert_params (g p)) = Some e ->
                 normalised e) ->
  Forall normalised (parcels (store s)) ->
  Forall normalised (parcels (store (fst (insert_parcel_data env (g p) s)))).
Proof.
  intros He Hs.
  destruct (snd (insert_parcel_data env (g p) s)) eqn:E.
  - destruct (insert_parcel_data_true env (g p) s E) as [e [Hbound ->]].
    apply upsert_normalised; [exact (He _ _ Hbound) | exact Hs].
  - rewrite (insert_parcel_data_false_store env (g p) s E). exact Hs.
Qed.

Lemma parcel_pass_normalised (reply : http_reply) (st : state) :
  Forall normalised (parcels (store st)) ->
  Forall normalised (parcels (store (fst (parcel_pass env reply st)))).
Proof.
  intros Hst. unfold parcel_pass.
  destruct (fetch_arcgis_data reply) as [data|]; [|exact Hst].
  destruct (truthy data); [|exact Hst].
  destruct (process_parcel_data data) as [processed|e] eqn:E; [|exact Hst].
  cbn [fst]. unfold store_parcels.
  apply (insert_loop_invariant (Forall normalised) (fun p => p)); [|exact Hst].
  intros p s Hin Hs. apply (insert_step_normalised (fun p => p)); [|exact Hs].
  intros now e He.
  destruct (process_parcel_data_records data processed p E Hin) as [f Hf].
  exact (appended_row_normalised f p now e Hf (or_introl He)).
Qed.

Lemma vacant_pass_normalised (reply : http_reply) (st : state) :
  Forall normalised (parcels (store st)) ->
  Forall normalised (parcels (store (fst (vacant_pass env reply st)))).
Proof.
  intros Hst. unfold vacant_pass.
  destruct (fetch_arcgis_data reply) as [data|]; [|exact Hst].
  destruct (truthy data); [|exact Hst].
  destruct (process_parcel_data data) as [processed|e] eqn:E; [|exact Hst].
  cbn [fst]. unfold store_vacant.
  apply (insert_loop_invariant (Forall normalised)
           (dict_set "owner_name" (JStr ""))); [|exact Hst].
  intros p s Hin Hs.
  apply (insert_step_normalised (dict_set "owner_name" (JStr ""))); [|exact Hs].
  intros now e He.
  destruct (process_parcel_data_records data processed p E Hin) as [f Hf].
  exact (appended_row_normalised f p now e Hf (or_intror He)).
Qed.

(** The zoning statement leaves the parcels alone. *)
Lemma import_zoning_feature_parcels (st : state) (feature : json) :
  parcels (store (import_zoning_feature env st feature)) = parcels (store st).
Proof.
  unfold import_zoning_feature.
  destruct (properties <- py_get feature "properties" (JObj []);;
            zone_code <- py_get properties "ZoneDes" JNull;;
            zone_desc <- py_get properties "ZoneDesc" JNull;;
            Ok (zone_code, zone_desc)) as [[zc zd]|e]; [|reflexivity].
  destruct (truthy zc); [|reflexivity].
  unfold execute_query.
  destruct (negb (conn st) && negb (connect_ok (env (calls st))));
    [reflexivity|].
  destruct (server_ok (env (calls st))); [|reflexivity].
  unfold run. destruct (excluded_zoning [zc; zd]); reflexivity.
Qed.

Lemma import_zoning_data_parcels (zoning_data : json) (st : state) :
  parcels (store (fst (_import_zoning_data env zoning_data st)))
  = parcels (store st).
Proof.
  unfold _import_zoning_data.
  destruct (negb (truthy zoning_data)); [reflexivity|].
  destruct (has_features zoning_data) as [[|]|e]; try reflexivity.
  destruct (fs <- py_item zoning_data "features";; py_iter fs)
    as [features|e]; [|reflexivity].
  cbn [fst]. revert st.
  induction features as [|f features IH]; intros st; [reflexivity|].
  simpl. rewrite IH. apply import_zoning_feature_parcels.
Qed.

Lemma zoning_pass_parcels (reply : http_reply) (st : state) :
  parcels (store (fst (zoning_pass env reply st))) = parcels (store st).
Proof.
  unfold zoning_pass.
  destruct (fetch_arcgis_data reply) as [data|]; [|reflexivity].
  destruct (truthy data); [|reflexivity].
  apply import_zoning_data_parcels.
Qed.

(** The end state of a run is that of its three passes in turn. *)
Lemma import_all_data_passes (web : replies) (st : state) :
  fst (import_all_data env web st)
  = fst (zoning_pass env (zoning web)
      (fst (vacant_pass env (vacant_land web)
        (fst (parcel_pass env (parcel_lookup web) st))))).
Proof.
  unfold import_all_data.
  pose proof (parcel_pass_returns env (parcel_lookup web) st) as H1.
  destruct (parcel_pass env (parcel_lookup web) st) as [st1 r1].
  simpl in H1. subst r1. cbn [fst].
  pose proof (vacant_pass_returns env (vacant_land web) st1) as H2.
  destruct (vacant_pass env (vacant_land web) st1) as [st2 r2].
  simpl in H2. subst r2. cbn [fst].
  pose proof (zoning_pass_returns env (zoning web) st2) as H3.
  destruct (zoning_pass env (zoning web) st2) as [st3 r3].
  simpl in H3. subst r3. reflexivity.
Qed.

Lemma import_all_data_normalised (web : replies) (st : state) :
  Forall normalised (parcels (store st)) ->
  Forall normalised (parcels (store (fst (import_all_data env web st)))).
Proof.
  intros Hst. rewrite import_all_data_passes, zoning_pass_parcels.
  apply vacant_pass_normalised, parcel_pass_normalised. exact Hst.
Qed.

(** X15.  A run keeps the table in the importer's form: if every parcel
    has no slope, the utilities Water, Sewer and Electric and one of the
    five land uses before the run, so has every parcel after it, whatever
    the services reply.  What a run writes never carries a slope. *)
Theorem import_keeps_rows_normalised (web : replies) (st : state)
    (Hbefore : Forall normalised (parcels (store st))) :
  Forall normalised (parcels (store (fst (import_all_data env web st)))).
Proof. exact (import_all_data_normalised web st Hbefore). Qed.

End Imported.

(** X15 at a run into the empty store that stores parcel P001. *)
Lemma import_keeps_rows_normalised_witness :
  Forall normalised
    (parcels (store (fst
       (@import_all_data Sample.fixed_point Sample.polygons_only
          Sample.fair_weather
          {| parcel_lookup := RequestFailed;
             vacant_land := Body (Sample.collection_of [Sample.p001_text]);
             zoning := NotJson |}
          initial)))).
Proof.
  exact (@import_keeps_rows_normalised Sample.fixed_point Sample.polygons_only
           Sample.fair_weather
           {| parcel_lookup := RequestFailed;
              vacant_land := Body (Sample.collection_of [Sample.p001_text]);
              zoning := NotJson |}
           initial (Forall_nil _)).
Defined.

(** ** Imported parcels and the slope filter *)

Section SlopeOfImported.
Context `{PyNum} `{PostGIS}.
Variable env : nat -> call_env.

Lemma no_slope_no_match (a b : json) (x : parcel_row) :
  slope_percent x = None ->
  is_TT (holds (PBetween "slope_percent" a b) x) = false.
Proof.
  intros Hs.
  change (holds (PBetween "slope_percent" a b) x)
    with (tri_and (holds_num Ge (slope_percent x) a)
                  (holds_num Le (slope_percent x) b)).
  rewrite Hs. reflexivity.
Qed.

Lemma slope_search_of_unsloped (criteria : dict) (a b : json)
    (st st' : state) (rows : list summary) :
  Forall normalised (parcels (store st)) ->
  dict_get criteria "slope_range" JNull = JArr [a; b] ->
  truthy (dict_get criteria "vacant_only" JNull) = false ->
  search_parcels env criteria st = Ok (st', Some rows) ->
  rows = [].
Proof.
  intros Hn Hsl Hvac Hs.
  destruct rows as [|r rows]; [reflexivity|]. exfalso.
  destruct (search_row_holds env _ _ _ _ Hs) as (wc & ps & p & Hc & Hp & Hr).
  destruct (Hr r (or_introl eq_refl)) as (x & _ & Hin & Hx).
  rewrite (where_clause_meaning criteria wc ps p Hc Hp x), Hvac in Hx.
  rewrite all_hold_app in Hx. apply andb_true_iff in Hx.
  destruct Hx as [_ Ha].
  unfold conditions_after in Ha. rewrite all_hold_app in Ha.
  apply andb_true_iff in Ha. destruct Ha as [_ Ha].
  rewrite Hsl in Ha. cbn [slope_condition truthy py_iter all_hold forallb] in Ha.
  rewrite Forall_forall in Hn. destruct (Hn x Hin) as [Hnone _].
  rewrite (no_slope_no_match a b x Hnone) in Ha. discriminate Ha.
Qed.

(** X16.  The importer never computes a slope, so after a run into a table
    in the importer's form (the empty one, say) a search with a two-element
    [slope_range] and without [vacant_only] returns no parcel at all. *)
Theorem slope_search_finds_no_imported_parcel (web : replies)
    (criteria : dict) (a b : json) (st st' : state) (rows : list summary)
    (Hbefore : Forall normalised (parcels (store st)))
    (Hslope : dict_get criteria "slope_range" JNull = JArr [a; b])
    (Hvac : truthy (dict_get criteria "vacant_only" JNull) = false)
    (Hsearch : search_parcels env criteria (fst (import_all_data env web st))
               = Ok (st', Some rows)) :
  rows = [].
Proof.
  apply (slope_search_of_unsloped criteria a b
           (fst (import_all_data env web st)) st'); try assumption.
  apply import_all_data_normalised. exact Hbefore.
Qed.

(** What one insert of a record with a blanked owner leaves in the table. *)
Lemma blanked_insert_rows (p : dict) (s : state) (row : parcel_row) :
  In row (parcels (store (fst (insert_parcel_data env
            (dict_set "owner_name" (JStr "") p) s)))) ->
  In row (parcels (store s)) \/ owner_name row = Some "".
Proof.
  destruct (snd (insert_parcel_data env (dict_set "owner_name" (JStr "") p) s))
    eqn:E.
  - destruct (insert_parcel_data_true env _ s E) as [e [He ->]].
    apply excluded_row_fields in He. destruct He as (Ho & _).
    rewrite dict_get_set in Ho.
    change (String.eqb "owner_name" "owner_name") with true in Ho.
    cbv iota in Ho. injection Ho as Ho.
    intros Hin.
    destruct (upsert_parcel_rows _ e row _ Hin)
      as [Hold | [-> | [old [_ ->]]]]; [left; exact Hold | right | right];
      simpl; congruence.
  - rewrite (insert_parcel_data_false_store env _ s E). tauto.
Qed.

Lemma vacant_pass_blanks (reply : http_reply) (st : state) (row : parcel_row) :
  In row (parcels (store (fst (vacant_pass env reply st)))) ->
  In row (parcels (store st)) \/ owner_name row = Some "".
Proof.
  unfold vacant_pass.
  destruct (fetch_arcgis_data reply) as [data|]; [|tauto].
  destruct (truthy data); [|tauto].
  destruct (process_parcel_data data) as [processed|e]; [|tauto].
  cbn [fst]. unfold store_vacant.
  apply (insert_loop_invariant env
           (fun tbl => In row tbl ->
                       In row (parcels (store st)) \/ owner_name row = Some "")
           (dict_set "owner_name" (JStr "")) processed); [|tauto].
  intros p s _ IH Hin.
  destruct (blanked_insert_rows p s row Hin) as [Hold | Hblank];
    [exact (IH Hold) | right; exact Hblank].
Qed.

(** X17.  The vacant-land pass stores every parcel with an empty owner
    name, whatever the source says: after a run, each parcel either stands
    as the parcel pass left it or has the owner name [""]. *)
Theorem vacant_pass_blanks_owner (web : replies) (st : state)
    (row : parcel_row)
    (Hrow : In row (parcels (store (fst (import_all_data env web st))))) :
  In row (parcels (store (fst (parcel_pass env (parcel_lookup web) st))))
  \/ owner_name row = Some "".
Proof.
  rewrite import_all_data_passes, zoning_pass_parcels in Hrow.
  exact (vacant_pass_blanks _ _ row Hrow).
Qed.

End SlopeOfImported.

(** X16 at a run that stores parcel P001, searched for slopes 2 to 5. *)
Lemma slope_search_finds_no_imported_parcel_witness :
  @search_parcels Sample.polygons_only Sample.fair_weather
    [("slope_range", JArr [JNum 2; JNum 5])]
    (fst (@import_all_data Sample.fixed_point Sample.polygons_only
            Sample.fair_weather
            {| parcel_lookup := Body (Sample.collection_of [Sample.p001_text]);
               vacant_land := RequestFailed; zoning := RequestFailed |}
            initial))
  = Ok ({| conn := true; calls := 2;
           store := store (fst (@import_all_data Sample.fixed_point
             Sample.polygons_only Sample.fair_weather
             {| parcel_lookup := Body (Sample.collection_of [Sample.p001_text]);
                vacant_land := RequestFailed; zoning := RequestFailed |}
             initial)) |},
        Some []).
Proof.
  pose proof (@slope_search_finds_no_imported_parcel Sample.fixed_point
    Sample.polygons_only Sample.fair_weather
    {| parcel_lookup := Body (Sample.collection_of [Sample.p001_text]);
       vacant_land := RequestFailed; zoning := RequestFailed |}
    [("slope_range", JArr [JNum 2; JNum 5])] (JNum 2) (JNum 5)
    initial _ _ (Forall_nil _) eq_refl eq_refl eq_refl) as Hnone.
  rewrite <- Hnone. reflexivity.
Defined.

(** X17 at a run whose vacant-land service sends a parcel with an owner. *)
Lemma vacant_pass_blanks_owner_witness :
  owner_name
    {| parcel_id := "V1"; address := None; owner_name := Some "";
       owner_address := None; acres := None; zoning_code := None;
       land_use := Some "Mixed Use"; road_frontage := None;
       slope_percent := None;
       utilities := Some [Some "Water"; Some "Sewer"; Some "Electric"];
       geometry := Some (JStr Sample.unit_square_text);
       created_at := 0; updated_at := 0 |} = Some "".
Proof.
  destruct (@vacant_pass_blanks_owner Sample.fixed_point Sample.polygons_only
    Sample.fair_weather
    {| parcel_lookup := RequestFailed;
       vacant_land := Body (Sample.collection_of
         [Sample.feature_of [ ("PID", JStr "V1");
                              ("Owner_FirstName", JStr "Ann");
                              ("Owner_LastName", JStr "Lee") ]
            (JStr Sample.unit_square_text)]);
       zoning := RequestFailed |}
    initial
    {| parcel_id := "V1"; address := None; owner_name := Some "";
       owner_address := None; acres := None; zoning_code := None;
       land_use := Some "Mixed Use"; road_frontage := None;
       slope_percent := None;
       utilities := Some [Some "Water"; Some "Sewer"; Some "Electric"];
       geometry := Some (JStr Sample.unit_square_text);
       created_at := 0; updated_at := 0 |}
    (or_introl eq_refl)) as [[] | Hblank].
  exact Hblank.
Defined.

(** ** Zoning regulations *)

Lemma upsert_zoning_codes (e : zoning_row) (tbl : list zoning_row) :
  map zone_code (upsert_zoning e tbl) =
  if existsb (fun r => String.eqb (zone_code r) (zone_code e)) tbl
  then map zone_code tbl
  else map zone_code tbl ++ [zone_code e].
Proof.
  unfold upsert_zoning.
  destruct (existsb (fun r => String.eqb (zone_code r) (zone_code e)) tbl).
  - rewrite map_map. apply map_ext. intros r.
    destruct (String.eqb (zone_code r) (zone_code e)); reflexivity.
  - rewrite map_app. reflexivity.
Qed.

Lemma upsert_zoning_unique (e : zoning_row) (tbl : list zoning_row) :
  unique_zones tbl -> unique_zones (upsert_zoning e tbl).
Proof.
  unfold unique_zones. intros Hu. rewrite upsert_zoning_codes.
  destruct (existsb (fun r => String.eqb (zone_code r) (zone_code e)) tbl)
    eqn:E; [exact Hu|].
  apply NoDup_app; [exact Hu | repeat constructor; simpl; tauto |].
  intros c Hin [<-|[]].
  apply in_map_iff in Hin. destruct Hin as [r [Hr Hin]].
  assert (existsb (fun r => String.eqb (zone_code r) (zone_code e)) tbl = true).
  { apply existsb_exists. exists r. split; [exact Hin|].
    apply String.eqb_eq. exact Hr. }
  congruence.
Qed.

(** After the upsert the table holds the row itself. *)
Lemma upsert_zoning_row (e : zoning_row) (tbl : list zoning_row) :
  In e (upsert_zoning e tbl).
Proof.
  unfold upsert_zoning.
  destruct (existsb (fun r => String.eqb (zone_code r) (zone_code e)) tbl)
    eqn:E.
  - apply existsb_exists in E. destruct E as [old [Hin Hs]].
    apply in_map_iff. exists old. rewrite Hs. split; [|exact Hin].
    apply String.eqb_eq in Hs. destruct e as [c dsc]. simpl in *.
    rewrite Hs. reflexivity.
  - apply in_or_app. right. left. reflexivity.
Qed.

Lemma filter_unique_zone (tbl : list zoning_row) (row : zoning_row) :
  unique_zones tbl -> In row tbl ->
  filter (fun z => String.eqb (zone_code z) (zone_code row)) tbl = [row].
Proof.
  unfold unique_zones. induction tbl as [|r tbl IH]; intros Hu Hin;
    [destruct Hin|].
  simpl in Hu. inversion Hu as [|? ? Hnotin Hu']; subst.
  assert (Hnone : forall c, ~ In c (map zone_code tbl) ->
                  filter (fun z => String.eqb (zone_code z) c) tbl = []).
  { intros c Hn. clear -Hn. induction tbl as [|x tbl IH]; [reflexivity|].
    simpl. destruct (String.eqb_spec (zone_code x) c) as [E|E].
    - exfalso. apply Hn. left. exact E.
    - apply IH. intros Hc. apply Hn. right. exact Hc. }
  simpl. destruct Hin as [->|Hin].
  - rewrite String.eqb_refl. rewrite (Hnone _ Hnotin). reflexivity.
  - destruct (String.eqb_spec (zone_code r) (zone_code row)) as [E|E].
    + exfalso. apply Hnotin. rewrite E. apply in_map. exact Hin.
    + apply IH; assumption.
Qed.

Section Zoning.
Context `{PostGIS}.
Variable env : nat -> call_env.

Lemma import_zoning_feature_unique (st : state) (feature : json) :
  unique_zones (zoning_regulations (store st)) ->
  unique_zones (zoning_regulations (store (import_zoning_feature env st feature))).
Proof.
  intros Hu. unfold import_zoning_feature.
  destruct (properties <- py_get feature "properties" (JObj []);;
            zone_code <- py_get properties "ZoneDes" JNull;;
            zone_desc <- py_get properties "ZoneDesc" JNull;;
            Ok (zone_code, zone_desc)) as [[zc zd]|e]; [|exact Hu].
  destruct (truthy zc); [|exact Hu].
  unfold execute_query.
  destruct (negb (conn st) && negb (connect_ok (env (calls st))));
    [exact Hu|].
  destruct (server_ok (env (calls st))); [|exact Hu].
  unfold run. destruct (excluded_zoning [zc; zd]) as [e|]; [|exact Hu].
  cbn [fst store zoning_regulations]. apply upsert_zoning_unique. exact Hu.
Qed.

(** X18.  [_import_zoning_data] writes zoning regulations only: whatever
    the data, the parcels table is as before, and the zone codes stay
    unique.  A feature without a truthy [ZoneDes], or one that is not a
    dict, is skipped and leaves the store as it was. *)
Theorem zoning_import_writes_zoning_only (zoning_data : json) (st : state) :
  parcels (store (fst (_import_zoning_data env zoning_data st)))
  = parcels (store st)
  /\ (unique_zones (zoning_regulations (store st)) ->
      unique_zones
        (zoning_regulations (store (fst (_import_zoning_data env zoning_data st)))))
  /\ (forall fields d,
        dict_get fields "properties" (JObj []) = JObj d ->
        truthy (dict_get d "ZoneDes" JNull) = false ->
        import_zoning_feature env st (JObj fields) = st)
  /\ (forall feature,
        (forall fields, feature <> JObj fields) ->
        import_zoning_feature env st feature = st).
Proof.
  split; [apply import_zoning_data_parcels|].
  split; [|split].
  - intros Hu. unfold _import_zoning_data.
    destruct (negb (truthy zoning_data)); [exact Hu|].
    destruct (has_features zoning_data) as [[|]|e]; try exact Hu.
    destruct (fs <- py_item zoning_data "features";; py_iter fs)
      as [features|e]; [|exact Hu].
    cbn [fst]. revert st Hu.
    induction features as [|f features IH]; intros st Hu; [exact Hu|].
    simpl. apply IH. apply import_zoning_feature_unique. exact Hu.
  - intros fields d Hp Hz. unfold import_zoning_feature.
    rewrite py_get_dict, bind_Ok, Hp, !py_get_dict, !bind_Ok, Hz.
    reflexivity.
  - intros feature Hnd. unfold import_zoning_feature.
    destruct feature; try reflexivity. exfalso. exact (Hnd _ eq_refl).
Qed.

(** X19.  A zoning feature with a code of at most 20 characters and a
    description, imported while the server is available, leaves exactly
    one regulation under that code, and its description is the feature's:
    a later feature overwrites the description of an earlier one. *)
Theorem zoning_description_is_latest (st : state) (fields d : dict)
    (code text : string)
    (Hbag : dict_get fields "properties" (JObj []) = JObj d)
    (Hcode : dict_get d "ZoneDes" JNull = JStr code)
    (Hne : code <> "")
    (Hlen : (String.length code <= 20)%nat)
    (Htext : dict_get d "ZoneDesc" JNull = JStr text)
    (Hav : available env st)
    (Huniq : unique_zones (zoning_regulations (store st))) :
  filter (fun z => String.eqb (zone_code z) code)
    (zoning_regulations (store (import_zoning_feature env st (JObj fields))))
  = [ {| zone_code := code; zone_description := Some text |} ].
Proof.
  pose proof (import_zoning_feature_unique st (JObj fields) Huniq) as Hu'.
  revert Hu'. unfold import_zoning_feature.
  rewrite py_get_dict, bind_Ok, Hbag, !py_get_dict, !bind_Ok, Hcode, Htext.
  assert (truthy (JStr code) = true) as ->.
  { simpl. destruct (String.eqb_spec code ""); [contradiction|reflexivity]. }
  unfold execute_query.
  unfold available in Hav. apply andb_true_iff in Hav. destruct Hav as [Hc Hs].
  replace (negb (conn st) && negb (connect_ok (env (calls st)))) with false.
  2:{ symmetry. rewrite <- negb_orb, Hc. reflexivity. }
  rewrite Hs. unfold run, excluded_zoning.
  cbn [bind_text option_map]. rewrite (varchar_short 20 code Hlen).
  cbn [option_map not_null obind fst store zoning_regulations].
  intros Hu'.
  apply (filter_unique_zone _
           {| zone_code := code; zone_description := Some text |} Hu').
  apply upsert_zoning_row.
Qed.

End Zoning.

(** X18 at a data set with one feature that has no zone code. *)
Lemma zoning_import_writes_zoning_only_witness :
  @import_zoning_feature Sample.polygons_only Sample.fair_weather initial
    (Sample.feature_of [("ZoneDesc", JStr "no code")] JNull) = initial.
Proof.
  exact (proj1 (proj2 (proj2
    (@zoning_import_writes_zoning_only Sample.polygons_only
       Sample.fair_weather
       (Sample.collection_of
          [Sample.feature_of [("ZoneDesc", JStr "no code")] JNull])
       initial)))
    [ ("type", JStr "Feature");
      ("properties", JObj [("ZoneDesc", JStr "no code")]);
      ("geometry", JNull) ]
    [("ZoneDesc", JStr "no code")] eq_refl eq_refl).
Defined.

(** X19 at zone R-3, first described as "old", then imported as "new". *)
Lemma zoning_description_is_latest_witness :
  filter (fun z => String.eqb (zone_code z) "R-3")
    (zoning_regulations (store
       (@import_zoning_feature Sample.polygons_only Sample.fair_weather
          {| conn := true; calls := 0;
             store := {| parcels := [];
                         zoning_regulations :=
                           [ {| zone_code := "R-3";
                                zone_description := Some "old" |} ] |} |}
          (Sample.feature_of [ ("ZoneDes", JStr "R-3");
                               ("ZoneDesc", JStr "new") ] JNull))))
  = [ {| zone_code := "R-3"; zone_description := Some "new" |} ].
Proof.
  refine (@zoning_description_is_latest Sample.polygons_only
    Sample.fair_weather
    {| conn := true; calls := 0;
       store := {| parcels := [];
                   zoning_regulations :=
                     [ {| zone_code := "R-3";
                          zone_description := Some "old" |} ] |} |}
    [ ("type", JStr "Feature");
      ("properties", JObj [ ("ZoneDes", JStr "R-3"); ("ZoneDesc", JStr "new") ]);
      ("geometry", JNull) ]
    [ ("ZoneDes", JStr "R-3"); ("ZoneDesc", JStr "new") ]
    "R-3" "new" eq_refl eq_refl _ _ eq_refl eq_refl _).
  - discriminate.
  - simpl. lia.
  - repeat constructor. simpl. tauto.
Defined.

(** ** The owner search view *)

(** X20.  The view [search_owner] answers 500 exactly when the request
    body is not a JSON object (or could not be read), 400 exactly when the
    object has neither a truthy [address] nor a truthy [name], and 200
    otherwise; the 200 answer echoes a truthy [address] and falls back to
    the default address when only the name is given, and never depends on
    the name itself. *)
Theorem search_owner_validates (request_json : result json) :
  (App.status (App.search_owner request_json) = 500%nat <->
   forall d, request_json <> Ok (JObj d))
  /\ (forall d, request_json = Ok (JObj d) ->
        (App.status (App.search_owner request_json) = 400%nat <->
         truthy (dict_get d "address" JNull) = false /\
         truthy (dict_get d "name" JNull) = false)
        /\ (App.status (App.search_owner request_json) <> 400%nat ->
            App.search_owner request_json
            = App.jsonify
                (JObj [ ("name", JStr "John Doe");
                        ("phone", JStr "555-123-4567");
                        ("email", JStr "john.doe@example.com");
                        ("address",
                         if truthy (dict_get d "address" JNull)
                         then dict_get d "address" JNull
                         else JStr "123 Main St, Charlotte, NC");
                        ("source", JStr "Mock Data") ]))).
Proof.
  assert (Hdict : forall d,
            App.search_owner (Ok (JObj d)) =
            if negb (truthy (dict_get d "address" JNull))
               && negb (truthy (dict_get d "name" JNull))
            then {| App.status := 400;
                    App.body := JObj [("error", JStr "Address or name required")] |}
            else App.jsonify
                   (JObj [ ("name", JStr "John Doe");
                           ("phone", JStr "555-123-4567");
                           ("email", JStr "john.doe@example.com");
                           ("address",
                            if truthy (dict_get d "address" JNull)
                            then dict_get d "address" JNull
                            else JStr "123 Main St, Charlotte, NC");
                           ("source", JStr "Mock Data") ])).
  { intros d. unfold App.search_owner.
    rewrite bind_Ok, !py_get_dict, !bind_Ok.
    destruct (negb (truthy (dict_get d "address" JNull))
              && negb (truthy (dict_get d "name" JNull))); [reflexivity|].
    rewrite py_or_Ok, bind_Ok. reflexivity. }
  split.
  - split.
    + intros H500 d ->. rewrite Hdict in H500.
      destruct (negb _ && negb _) in H500; discriminate H500.
    + intros Hnd. destruct request_json as [[| | | | |d]|e]; try reflexivity.
      exfalso. exact (Hnd d eq_refl).
  - intros d ->. rewrite Hdict.
    destruct (truthy (dict_get d "address" JNull)),
             (truthy (dict_get d "name" JNull)); simpl;
      (split; [split; [intros E; try discriminate E; auto
                      | intros [E1 E2]; try discriminate E1;
                        try discriminate E2; reflexivity]
              | intros E; try reflexivity; exfalso; apply E; reflexivity]).
Qed.

(** X20 at a request that gives a name and no address. *)
Lemma search_owner_validates_witness :
  App.search_owner (Ok (JObj [("name", JStr "Ann Lee")]))
  = App.jsonify
      (JObj [ ("name", JStr "John Doe");
              ("phone", JStr "555-123-4567");
              ("email", JStr "john.doe@example.com");
              ("address", JStr "123 Main St, Charlotte, NC");
              ("source", JStr "Mock Data") ]).
Proof.
  refine (proj2 (proj2 (search_owner_validates
                          (Ok (JObj [("name", JStr "Ann Lee")])))
                   [("name", JStr "Ann Lee")] eq_refl) _).
  discriminate.
Defined.

(** ** A ring with a malformed vertex *)

Section Malformed.
Context `{PyNum}.

Lemma fold_raise {St : Type} (body : St -> nat -> result St) (l : list nat)
    (e : exn) :
  fold_left (fun acc i => s <- acc ;; body s i) l (Raise e) = Raise e.
Proof. induction l as [|i l IH]; simpl; [reflexivity | exact IH]. Qed.

(** A loop one of whose turns always raises, raises. *)
Lemma for_range_raises {St : Type} (n k : nat)
    (body : St -> nat -> result St) (s0 : St) :
  (k < n)%nat ->
  (forall s, exists e, body s k = Raise e) ->
  exists e, for_range n body s0 = Raise e.
Proof.
  intros Hk Hbody. unfold for_range.
  replace n with (k + S (n - S k))%nat by lia.
  rewrite seq_app, fold_left_app. cbn [plus seq fold_left].
  destruct (fold_left _ (seq 0 k) (Ok s0)) as [s|e].
  - rewrite bind_Ok. destruct (Hbody s) as [e ->].
    exists e. apply fold_raise.
  - exists e. apply fold_raise.
Qed.

Ltac numbers_of E :=
  unfold py_sub in E;
  let x := fresh "x" in
  let Nx := fresh "Nx" in
  let y := fresh "y" in
  let Ny := fresh "Ny" in
  apply bind_inv_Ok in E; destruct E as [x [Nx E]];
  apply bind_inv_Ok in E; destruct E as [y [Ny E]].

(** The turn that reads a malformed vertex as its first point raises. *)
Lemma frontage_step_bad_first (ring : list json) (i : nat) (v : json) :
  nth_error ring i = Some v ->
  (forall pt, ~ is_vertex v pt) ->
  forall p, exists e, frontage_step (JArr ring) p i = Raise e.
Proof.
  intros Ev Hbad p.
  assert (Iv : py_index (JArr ring) i = Ok v)
    by (simpl; rewrite Ev; reflexivity).
  unfold frontage_step. rewrite Iv.
  destruct (py_index (JArr ring) (i + 1)) as [vb|e];
    [rewrite !bind_Ok | eexists; reflexivity].
  destruct (py_index vb 0) as [bx|e];
    [rewrite !bind_Ok | eexists; reflexivity].
  destruct (py_index v 0) as [ax|e] eqn:Hax;
    [rewrite !bind_Ok | eexists; reflexivity].
  destruct (py_sub bx ax) as [dx|e] eqn:Sx;
    [rewrite !bind_Ok | eexists; reflexivity].
  destruct (py_index vb 1) as [by_|e];
    [rewrite !bind_Ok | eexists; reflexivity].
  destruct (py_index v 1) as [ay|e] eqn:Hay;
    [rewrite !bind_Ok | eexists; reflexivity].
  destruct (py_sub by_ ay) as [dy|e] eqn:Sy;
    [rewrite !bind_Ok | eexists; reflexivity].
  exfalso. numbers_of Sx. numbers_of Sy.
  apply (Hbad (y, y0)). exists ax, ay. auto.
Qed.

(** The turn that reads a malformed vertex as its second point raises. *)
Lemma frontage_step_bad_second (ring : list json) (i : nat) (v : json) :
  nth_error ring (i + 1) = Some v ->
  (forall pt, ~ is_vertex v pt) ->
  forall p, exists e, frontage_step (JArr ring) p i = Raise e.
Proof.
  intros Ev Hbad p.
  assert (Iv : py_index (JArr ring) (i + 1) = Ok v)
    by (simpl; rewrite Ev; reflexivity).
  unfold frontage_step. rewrite Iv, !bind_Ok.
  destruct (py_index v 0) as [bx|e] eqn:Hbx;
    [rewrite !bind_Ok | eexists; reflexivity].
  destruct (py_index (JArr ring) i) as [va|e];
    [rewrite !bind_Ok | eexists; reflexivity].
  destruct (py_index va 0) as [ax|e];
    [rewrite !bind_Ok | eexists; reflexivity].
  destruct (py_sub bx ax) as [dx|e] eqn:Sx;
    [rewrite !bind_Ok | eexists; reflexivity].
  destruct (py_index v 1) as [by_|e] eqn:Hby;
    [rewrite !bind_Ok | eexists; reflexivity].
  destruct (py_index va 1) as [ay|e];
    [rewrite !bind_Ok | eexists; reflexivity].
  destruct (py_sub by_ ay) as [dy|e] eqn:Sy;
    [rewrite !bind_Ok | eexists; reflexivity].
  exfalso. numbers_of Sx. numbers_of Sy.
  apply (Hbad (x, x0)). exists bx, by_. auto.
Qed.

(** X21.  A Polygon whose first ring has at least two entries, one of
    which is not a vertex (not a list, fewer than two entries, or an entry
    that is no number), gives null: no partial perimeter is ever returned. *)
Theorem malformed_vertex_gives_null (d : dict) (ring rings : list json)
    (k : nat) (v : json)
    (Htype : dict_find "type" d = Some (JStr "Polygon"))
    (Hcoords : dict_find "coordinates" d = Some (JArr (JArr ring :: rings)))
    (Hlen : (2 <= List.length ring)%nat)
    (Hk : nth_error ring k = Some v)
    (Hbad : forall pt, ~ is_vertex v pt) :
  _calculate_road_frontage (JObj d) = None.
Proof.
  unfold _calculate_road_frontage, road_frontage_try.
  cbn [py_item]. rewrite Htype, bind_Ok.
  change (json_eq_str (JStr "Polygon") "Polygon") with true. cbv iota.
  rewrite Hcoords, bind_Ok.
  change (py_index (JArr (JArr ring :: rings)) 0) with (Ok (JArr ring)).
  rewrite bind_Ok.
  change (py_len (JArr ring)) with (Ok (List.length ring)).
  rewrite bind_Ok.
  assert (Hklen : (k < List.length ring)%nat).
  { apply nth_error_Some. rewrite Hk. discriminate. }
  assert (Hraise : exists e,
             for_range (List.length ring - 1) (frontage_step (JArr ring))
               (num_of_lit 0) = Raise e).
  { destruct (Nat.lt_ge_cases k (List.length ring - 1)) as [Hlt|Hge].
    - apply (for_range_raises _ k); [exact Hlt|].
      apply (frontage_step_bad_first ring k v Hk Hbad).
    - apply (for_range_raises _ (k - 1)); [lia|].
      apply (frontage_step_bad_second ring (k - 1) v); [|exact Hbad].
      replace (k - 1 + 1)%nat with k by lia. exact Hk. }
  destruct Hraise as [e ->]. reflexivity.
Qed.

End Malformed.

(** X21 at a triangle whose second vertex is the string ["x"]. *)
Lemma malformed_vertex_gives_null_witness :
  @_calculate_road_frontage Sample.fixed_point
    (JObj [ ("type", JStr "Polygon");
            ("coordinates",
             JArr [ JArr [ JArr [JNum 0; JNum 0]; JStr "x";
                           JArr [JNum 0; JNum 0] ] ]) ]) = None.
Proof.
  refine (@malformed_vertex_gives_null Sample.fixed_point
    [ ("type", JStr "Polygon");
      ("coordinates",
       JArr [ JArr [ JArr [JNum 0; JNum 0]; JStr "x";
                     JArr [JNum 0; JNum 0] ] ]) ]
    [ JArr [JNum 0; JNum 0]; JStr "x"; JArr [JNum 0; JNum 0] ] []
    1 (JStr "x") eq_refl eq_refl _ eq_refl _).
  - simpl. lia.
  - intros pt (jx & jy & _ & Hy & _). discriminate Hy.
Defined.

(** ** A stored parcel is found again *)

Lemma excluded_row_zoning `{PostGIS} (now : Z) (p : dict) (e : parcel_row) :
  excluded_row now (insert_params p) = Some e ->
  bind_text (Some 20%nat) (dict_get p "zoning_code" JNull)
  = Some (zoning_code e).
Proof.
  unfold excluded_row, insert_params. intros E.
  repeat match type of E with
         | obind ?m _ = _ =>
             let B := fresh "B" in
             destruct m eqn:B; simpl in E; [|discriminate E]
         end.
  injection E as <-. reflexivity.
Qed.

(** What a search selects of a row depends on its identifier and on the
    columns an upsert writes. *)
Lemma select_list_reflects (row e : parcel_row) :
  parcel_id row = parcel_id e -> reflects row e ->
  select_list row = select_list e.
Proof.
  intros Hid (H1 & H2 & _ & H4 & H5 & H6 & H7 & H8 & H9 & H10).
  unfold select_list. congruence.
Qed.

Section RoundTrip.
Context `{PostGIS}.
Variable env : nat -> call_env.

(** X22.  Store, then search: after a call of [insert_parcel_data] that
    returned true for a record whose zoning code is a non-empty string of
    at most 20 characters, a search for that code alone, on an available
    server and a table that held fewer than 100 parcels, returns the
    record as the call bound it to the columns. *)
Theorem stored_parcel_is_found (p criteria : dict) (z : string) (st : state)
    (Hins : snd (insert_parcel_data env p st) = true)
    (Hcode : dict_get p "zoning_code" JNull = JStr z)
    (Hne : z <> "")
    (Hlen : (String.length z <= 20)%nat)
    (Hz : dict_get criteria "zoning_type" JNull = JStr z)
    (Hrest : forall k, In k search_keys -> k <> "zoning_type" ->
                       truthy (dict_get criteria k JNull) = false)
    (Hroom : (List.length (parcels (store st)) < row_limit)%nat)
    (Hav : available env (fst (insert_parcel_data env p st))) :
  exists e st' rows,
    excluded_row (now (env (calls st))) (insert_params p) = Some e /\
    search_parcels env criteria (fst (insert_parcel_data env p st))
    = Ok (st', Some rows) /\
    In (select_list e) rows.
Proof.
  destruct (insert_parcel_data_true env p st Hins) as [e [He Hstore]].
  exists e.
  assert (Ht : truthy (JStr z) = true).
  { simpl. destruct (String.eqb_spec z ""); [contradiction | reflexivity]. }
  assert (Hc : search_conditions criteria
               = Ok (["zoning_code = %s"], [JStr z])).
  { unfold search_conditions, add_slope, add_condition, add_vacant.
    rewrite Hz, Ht.
    rewrite !Hrest by (simpl; intuition discriminate). reflexivity. }
  assert (Hp : parse_where (where_clause_of ["zoning_code = %s"]) [JStr z]
               = Some (PCmp "zoning_code" Eq (JStr z)))
    by reflexivity.
  rewrite (search_parcels_available env criteria _ _ _ _ Hav Hc Hp eq_refl).
  eexists. eexists. split; [exact He|]. split; [reflexivity|].
  rewrite Hstore.
  destruct (excluded_row_stamps _ _ _ He) as [_ Hstamp].
  destruct (upsert_parcel_row _ e (parcels (store st)) Hstamp)
    as (row & Hin & Hid & Href & _).
  rewrite <- (select_list_reflects row e Hid Href).
  apply in_map. rewrite firstn_all2.
  - apply (Permutation_in _ (Permutation_sym (order_by_acres_desc_perm _))).
    apply filter_In. split; [exact Hin|].
    change (holds (PCmp "zoning_code" Eq (JStr z)) row)
      with (holds_text (zoning_code row) z).
    assert (Hzc : zoning_code row = Some z).
    { destruct Href as (_ & _ & _ & _ & -> & _).
      pose proof (excluded_row_zoning _ _ _ He) as Hb.
      rewrite Hcode in Hb. cbn [bind_text] in Hb.
      rewrite (varchar_short _ _ Hlen) in Hb. simpl in Hb. congruence. }
    rewrite Hzc. simpl. rewrite String.eqb_refl. reflexivity.
  - rewrite (Permutation_length (order_by_acres_desc_perm _)).
    etransitivity; [apply filter_length_le|].
    rewrite upsert_parcel_length. unfold row_limit in *.
    destruct (existsb _ _); lia.
Qed.

End RoundTrip.

(** X22 at parcel P7 of zone R-3, stored into the empty table. *)
Lemma stored_parcel_is_found_witness :
  exists e st' rows,
    @excluded_row Sample.polygons_only 0
      (insert_params [ ("parcel_id", JStr "P7"); ("zoning_code", JStr "R-3");
                       ("geometry", JStr Sample.unit_square_text) ]) = Some e /\
    @search_parcels Sample.polygons_only Sample.fair_weather
      [("zoning_type", JStr "R-3")]
      (fst (@insert_parcel_data Sample.polygons_only Sample.fair_weather
              [ ("parcel_id", JStr "P7"); ("zoning_code", JStr "R-3");
                ("geometry", JStr Sample.unit_square_text) ] initial))
    = Ok (st', Some rows) /\
    In (select_list e) rows.
Proof.
  refine (@stored_parcel_is_found Sample.polygons_only Sample.fair_weather
    [ ("parcel_id", JStr "P7"); ("zoning_code", JStr "R-3");
      ("geometry", JStr Sample.unit_square_text) ]
    [("zoning_type", JStr "R-3")] "R-3" initial
    eq_refl eq_refl _ _ eq_refl _ _ eq_refl).
  - discriminate.
  - simpl. lia.
  - intros k Hk Hne. simpl in Hk.
    destruct Hk as [<-|[<-|[<-|[<-|[<-|[<-|[]]]]]]]; try reflexivity.
    contradiction.
  - unfold row_limit. simpl. lia.
Defined.

(** ** The version check of the setup script *)

(** X23.  [check_python_version] accepts exactly the interpreters of
    version 3.8 and later: major version above 3, or major version 3 and
    minor version at least 8; what follows the minor version (micro,
    release level, serial) is never looked at. *)
Theorem check_python_version_iff (major minor : Z) (rest : list Z) :
  Setup.check_python_version (major :: minor :: rest) = true
  <-> (3 < major \/ (major = 3 /\ 8 <= minor))%Z.
Proof.
  unfold Setup.check_python_version. cbn [Setup.tuple_lt].
  destruct (Z.ltb_spec major 3); [split; [discriminate | lia]|].
  destruct (Z.ltb_spec 3 major); [split; [left; assumption | reflexivity]|].
  destruct (Z.ltb_spec minor 8); [split; [discriminate | lia]|].
  destruct (Z.ltb_spec 8 minor);
    [split; [intros _; right; lia | reflexivity]|].
  destruct rest; (split; [intros _; right; lia | reflexivity]).
Qed.
